(** * ipaserver/install/dsinstance.py: directory-server instance management

    A shallow embedding of the installer module that creates, joins,
    restarts and removes the 389-ds instance of an IPA server, and the
    properties of it that the design document states.

    Python objects become records, the interpreter's exceptions become an
    error result, and everything the module reaches outside itself
    (external processes, the file system, LDAP connections, the service
    manager, the replication manager) is a call answered by an oracle and
    recorded in a history. *)

From Stdlib Require Import ZArith Lia Ascii.
From stdpp Require Import base option list gmap strings sorting pretty.

Local Open Scope string_scope.
Local Open Scope list_scope.
Local Open Scope Z_scope.

(** ** Python values *)

(** A distinguished name: a sequence of (attribute, value) RDNs. *)
Definition DN := list (string * string).

(** An LDAP entry as the wire carries it: attribute name, raw values. *)
Definition entry := list (string * list string).

Inductive value :=
| VNone
| VBool (b : bool)
| VInt (z : Z)
| VStr (s : string)
| VList (l : list string)
| VDN (d : DN)
| VEntry (e : entry).

#[global] Instance value_eq_dec : EqDecision value.
Proof. solve_decision. Defined.

(** Exception classes that the module raises, catches or lets through. *)
Inductive exn :=
| CalledProcessError
| NotFound
| NetworkError
| OSError
| IOError
| ValueError
| TypeError
| KeyError
| RuntimeError
| ScriptError
| SystemExit
| KeyboardInterrupt.

#[global] Instance exn_eq_dec : EqDecision exn.
Proof. solve_decision. Defined.

(** Where a class sits under [BaseException]. *)
Inductive exn_kind := ExitKind | OrdinaryKind | BareKind.

Inductive result (A : Type) :=
| Ok (a : A)
| Err (e : exn).
Arguments Ok {A} a.
Arguments Err {A} e.

(** [bool(v)] *)
Definition py_truthy (v : value) : bool :=
  match v with
  | VNone => false
  | VBool b => b
  | VInt z => negb (z =? 0)
  | VStr s => negb (String.eqb s "")
  | VList l => match l with [] => false | _ => true end
  | VDN d => match d with [] => false | _ => true end
  | VEntry _ => true
  end.

(** [v is None] *)
Definition is_none (v : value) : bool :=
  match v with VNone => true | _ => false end.

(** Operands of integer arithmetic; [bool] is a subclass of [int]. *)
Definition as_int (v : value) : option Z :=
  match v with
  | VInt z => Some z
  | VBool b => Some (if b then 1 else 0)
  | _ => None
  end.

(** [a - b] and [a + b] on the values above: unbounded integers, and a
    [TypeError] for operands that do not support the operator. *)
Definition py_sub (a b : value) : result value :=
  match as_int a, as_int b with
  | Some x, Some y => Ok (VInt (x - y))
  | _, _ => Err TypeError
  end.

Definition py_add (a b : value) : result value :=
  match a, b with
  | VStr x, VStr y => Ok (VStr (x +:+ y))
  | VList x, VList y => Ok (VList (x ++ y))
  | _, _ =>
    match as_int a, as_int b with
    | Some x, Some y => Ok (VInt (x + y))
    | _, _ => Err TypeError
    end
  end.

(** ** Strings *)

(** [s.startswith(p)] *)
Fixpoint startswith (s p : string) {struct p} : bool :=
  match p with
  | EmptyString => true
  | String c p' =>
    match s with
    | EmptyString => false
    | String d s' => if Ascii.eqb c d then startswith s' p' else false
    end
  end.

(** [s[n:]] for [n >= 0] *)
Fixpoint drop_chars (n : nat) (s : string) : string :=
  match n with
  | O => s
  | S n' => match s with EmptyString => EmptyString | String _ s' => drop_chars n' s' end
  end.

(** [s.endswith(p)] *)
Definition endswith (s p : string) : bool :=
  (String.length p <=? String.length s)%nat &&
  String.eqb (drop_chars (String.length s - String.length p) s) p.

(** [os.path.join(a, b)] (posixpath, two components) *)
Definition os_path_join (a b : string) : string :=
  if startswith b "/" then b
  else if String.eqb a "" || endswith a "/" then a +:+ b
  else a +:+ "/" +:+ b.

(** [sep.join(l)] *)
Definition str_join (sep : string) (l : list string) : string :=
  String.concat sep l.

(** The blanks that [int()] skips around a number: tab, line feed, vertical
    tab, form feed, carriage return and space. *)
Definition is_py_space (c : Ascii.ascii) : bool :=
  let n := Ascii.nat_of_ascii c in
  ((9 <=? n) && (n <=? 13) || (n =? 32))%nat.

Fixpoint lstrip (s : string) : string :=
  match s with
  | String c s' => if is_py_space c then lstrip s' else s
  | EmptyString => EmptyString
  end.

Definition rstrip (s : string) : string :=
  String.rev (lstrip (String.rev s)).

Definition digit_of (c : Ascii.ascii) : option Z :=
  let n := Ascii.nat_of_ascii c in
  if ((48 <=? n) && (n <=? 57))%nat then Some (Z.of_nat n - 48) else None.

(** The digits that follow a first digit: each one a digit, or one
    underscore and then a digit. *)
Fixpoint parse_digits (acc : Z) (s : string) : option Z :=
  match s with
  | EmptyString => Some acc
  | String c s' =>
    match digit_of c with
    | Some d => parse_digits (10 * acc + d) s'
    | None =>
      if Ascii.eqb c "_" then
        match s' with
        | String c' s'' =>
          match digit_of c' with
          | Some d => parse_digits (10 * acc + d) s''
          | None => None
          end
        | EmptyString => None
        end
      else None
    end
  end.

Definition parse_unsigned (s : string) : option Z :=
  match s with
  | EmptyString => None
  | String c s' =>
    match digit_of c with
    | Some d => parse_digits d s'
    | None => None
    end
  end.

(** Text in which every character is below 128. *)
Fixpoint is_ascii_text (s : string) : bool :=
  match s with
  | EmptyString => true
  | String c s' => (Ascii.nat_of_ascii c <? 128)%nat && is_ascii_text s'
  end.

(** [int(s)] for a string, base ten: surrounding blanks, an optional sign,
    then digits, which single underscores may separate.  This is [int()]
    on ASCII text.  [int()] also reads the digits and blanks of other
    scripts, which are not told apart here: text with such characters is
    answered [None], and a statement that rests on a [None] answer says
    that its text is ASCII. *)
Definition int_of_string (s : string) : option Z :=
  match rstrip (lstrip s) with
  | String "-"%char r => Z.opp <$> parse_unsigned r
  | String "+"%char r => parse_unsigned r
  | r => parse_unsigned r
  end.

(** [s[:-1]] *)
Fixpoint drop_last (s : string) : string :=
  match s with
  | EmptyString => EmptyString
  | String c EmptyString => EmptyString
  | String c s' => String c (drop_last s')
  end.

(** [int(v)] *)
Definition py_int (v : value) : result Z :=
  match v with
  | VInt z => Ok z
  | VBool b => Ok (if b then 1 else 0)
  | VStr s => match int_of_string s with Some z => Ok z | None => Err ValueError end
  | _ => Err TypeError
  end.

(** ** The outside world *)

Inductive ldap_uri :=
| LdapiUri (realm : string)      (* get_ldap_uri(protocol='ldapi', realm=...) *)
| HostUri (host : string).       (* get_ldap_uri(host) *)

(** Every operation that leaves the module, with the arguments it is
    given.  Comments name the collaborator. *)
Inductive call :=
(* ipautil *)
| Run (args : list string)
| DirExists (path : string)
| GeneratePassword
(* os, time *)
| Listdir (path : string)
| Isdir (path : string)
| Access (path : string)                       (* os.access(path, os.R_OK) *)
| Time
(* api.Backend.ldap2 *)
| Ldap2Connect
| Ldap2Disconnect
| Ldap2IsConnected
(* service.Service, the base class *)
| SuperStart (instance : string)
| SuperStop (instance : string)
| SuperRestart (instance : string)
| IsConfigured
| PrintMsg (msg : string)
| IsEnabled
| Enable
| Disable
| LdapMod (ldif : string) (sub : option (gmap string value))
| FstoreRestoreFile (path : string)
(* services.knownservices.dirsrv *)
| DirsrvIsRunning (instance : string)
| DirsrvRestart (instance : string) (wait : bool)
(* ipaldap.LDAPClient *)
| LDAPClient (uri : ldap_uri)
| ExternalBind
| SimpleBind (bind_dn : DN) (bind_password : value)
| GssapiBind
| Unbind
| GetEntry (dn : DN) (attrs : list string)
(* replication *)
| EnableReplicationVersionChecking (realm : string) (dm_password : value)
| ReplicationManager (realm fqdn : string) (dm_password : value)
| SetupPromoteReplication (master_fqdn r_binddn r_bindpw cacert : value)
| NeedsMemberofFixup
| WaitForTask (dn : DN)
(* certs.CertDB *)
| CertDB (nssdir : string)
| UntrackServerCert (nickname : string)
| LoadCacert (fname cacert_name flags : string)
(* installutils *)
| RemoveKeytab (path : string)
| RemoveCcache (run_as : string).

Inductive outcome :=
| Returns (v : value)
| Raises (e : exn).

(** The world answers a call knowing everything that was asked before. *)
Definition oracle := list call -> call -> outcome.

(** Names this module imports from the rest of the code base, and the one
    built-in whose Unicode tables are not carried here. *)
Record platform := {
  (* str.upper *)
  str_upper : string -> string;
  (* ipaplatform.paths *)
  REMOVE_DS_PL : string;
  ETC_DIRSRV : string;
  USR_LIB_DIRSRV_64 : string;
  USR_LIB_DIRSRV : string;
  LIMITS_CONF : string;
  SYSCONFIG_DIRSRV : string;
  DS_KEYTAB : string;
  (* paths.ETC_DIRSRV_SLAPD_INSTANCE_TEMPLATE % serverid *)
  ETC_DIRSRV_SLAPD_INSTANCE : string -> string;
  (* ipaplatform.constants *)
  DS_USER : string;
  DS_GROUP : string;
  (* ipalib.constants *)
  DOMAIN_LEVEL_0 : Z;
  MIN_DOMAIN_LEVEL : Z;
  MAX_DOMAIN_LEVEL : Z;
  (* replication *)
  STRIP_ATTRS : list string;
  EXCLUDES : list string;
  TOTAL_EXCLUDES : list string;
  (* ipaldap.DIRMAN_DN *)
  DIRMAN_DN : DN;
  (* installutils.realm_to_serverid, ipautil.realm_to_suffix, str(DN) *)
  realm_to_serverid : string -> string;
  realm_to_suffix : string -> DN;
  str_of_DN : DN -> string;
  (* LDAPEntry.single_value[attr] *)
  single_value : entry -> string -> result value;
  (* admintool.ScriptError: its place in the exception hierarchy *)
  ScriptError_kind : exn_kind
}.

Inductive loglevel := Debug | Error | Critical.

(** ** The object and the machine state *)

Record DsInstance := {
  realm : string;
  fqdn : string;
  nickname : string;
  sub_dict : option (gmap string value);
  domain : value;
  serverid : value;
  master_fqdn : value;
  pkcs12_info : value;
  ca_is_configured : value;
  idstart : value;
  idmax : value;
  ca_subject : value;
  subject_base : value;
  run_init_memberof : value;
  domainlevel : value;
  suffix : DN;
  dm_password : value;
  ca_file : value;
  promote : value
}.

Record sys := {
  self : DsInstance;
  history : list call;
  logs : list (loglevel * string);
  sstore : gmap string value       (* the state file's section of this service *)
}.

Definition with_self (o : DsInstance) (s : sys) : sys :=
  {| self := o; history := history s; logs := logs s; sstore := sstore s |}.
Definition with_history (h : list call) (s : sys) : sys :=
  {| self := self s; history := h; logs := logs s; sstore := sstore s |}.
Definition with_logs (l : list (loglevel * string)) (s : sys) : sys :=
  {| self := self s; history := history s; logs := l; sstore := sstore s |}.
Definition with_sstore (m : gmap string value) (s : sys) : sys :=
  {| self := self s; history := history s; logs := logs s; sstore := m |}.

(** ** A state-and-exception monad

    The state survives an exception: what a function changed before it
    raised stays changed. *)

Definition M (A : Type) : Type := sys -> result A * sys.

Definition ret {A} (a : A) : M A := fun s => (Ok a, s).

Definition raise {A} (e : exn) : M A := fun s => (Err e, s).

Definition bind {A B} (m : M A) (k : A -> M B) : M B :=
  fun s =>
    match m s with
    | (Ok a, s') => k a s'
    | (Err e, s') => (Err e, s')
    end.

Definition lift {A} (r : result A) : M A := fun s => (r, s).

(** [try: m  except ...: h]: the handler chooses by the exception's class;
    [None] lets it through. *)
Definition try_except {A} (m : M A) (h : exn -> option (M A)) : M A :=
  fun s =>
    match m s with
    | (Ok a, s') => (Ok a, s')
    | (Err e, s') =>
      match h e with
      | Some m' => m' s'
      | None => (Err e, s')
      end
    end.

Definition get_self : M DsInstance := fun s => (Ok (self s), s).
Definition set_self (f : DsInstance -> DsInstance) : M unit :=
  fun s => (Ok tt, with_self (f (self s)) s).

Definition log (lvl : loglevel) (msg : string) : M unit :=
  fun s => (Ok tt, with_logs (logs s ++ [(lvl, msg)]) s).

Notation "'let*' x ':=' m 'in' k" := (bind m (fun x => k))
  (at level 10, x name, m at level 100, k at level 200).
Notation "m ';;;' k" := (bind m (fun _ => k))
  (at level 100, k at level 200, right associativity).

Definition DS_INSTANCE_PREFIX : string := "slapd-".

(** Python's bound on the depth of the call stack. *)
Definition recursion_limit : nat := 1000.

Section Module.

Variable P : platform.
Variable env : oracle.

(** An external call: recorded, then answered by the world. *)
Definition extern (c : call) : M value :=
  fun s =>
    let s' := with_history (history s ++ [c]) s in
    match env (history s) c with
    | Returns v => (Ok v, s')
    | Raises e => (Err e, s')
    end.

Definition kind_of (e : exn) : exn_kind :=
  match e with
  | SystemExit => ExitKind
  | KeyboardInterrupt => BareKind
  | ScriptError => ScriptError_kind P
  | _ => OrdinaryKind
  end.

(** [isinstance(e, Exception)] and [isinstance(e, SystemExit)] *)
Definition is_Exception (e : exn) : bool :=
  match kind_of e with OrdinaryKind => true | _ => false end.
Definition is_SystemExit (e : exn) : bool :=
  match kind_of e with ExitKind => true | _ => false end.

(** [except cls:] for a leaf class *)
Definition is_a (e cls : exn) : bool := bool_decide (e = cls).

(** *** remove_ds_instance *)

Fixpoint remove_ds_instance_rec (depth : nat) (serverid : string) (force : bool) : M unit :=
  match depth with
  | O => raise RuntimeError
  | S depth' =>
    let instance_name := str_join "" [DS_INSTANCE_PREFIX; serverid] in
    let args := [REMOVE_DS_PL P; "-i"; instance_name] in
    let* args :=
      (if force
       then log Debug "Forcing instance removal" ;;; ret (args ++ ["-f"])
       else ret args) in
    try_except (extern (Run args) ;;; ret tt)
      (fun e =>
         if is_a e CalledProcessError then Some (
           (if force
            then log Error "Instance removal failed." ;;; raise e
            else ret tt) ;;;
           log Debug "'%s' failed. Attempting to force removal" ;;;
           remove_ds_instance_rec depth' serverid true)
         else None)
  end.

Definition remove_ds_instance (serverid : string) (force : bool) : M unit :=
  remove_ds_instance_rec recursion_limit serverid force.

(** *** get_ds_instances *)

(** The body of the [for basename in os.listdir(...)] loop, folded over
    the listing; [instances] is the list built so far. *)
Fixpoint scan_instances (dir : string) (basenames instances : list string)
  : M (list string) :=
  match basenames with
  | [] => ret instances
  | basename :: rest =>
    let pathname := os_path_join dir basename in
    let* d := extern (Isdir pathname) in
    let instances :=
      if py_truthy d then
        if startswith basename DS_INSTANCE_PREFIX
           && negb (endswith basename ".removed") then
          let instance := drop_chars (String.length DS_INSTANCE_PREFIX) basename in
          if negb (String.eqb instance "") then instances ++ [instance]
          else instances
        else instances
      else instances in
    scan_instances dir rest instances
  end.

Definition get_ds_instances : M (list string) :=
  let dirsrv_instance_dir := ETC_DIRSRV P in
  let* listing := extern (Listdir dirsrv_instance_dir) in
  match listing with
  | VList basenames =>
    let* instances := scan_instances dirsrv_instance_dir basenames [] in
    ret (merge_sort String.le instances)
  | _ => raise TypeError
  end.

(** *** get_domain_level *)

(** [try: m  except ...: h  else: k]; a handler that returns ends the
    function, and [k] is not covered by the handler. *)
Definition try_except_else {A B} (m : M A) (h : exn -> option (M B))
    (k : A -> M B) : M B :=
  fun s =>
    match m s with
    | (Ok a, s') => k a s'
    | (Err e, s') =>
      match h e with
      | Some m' => m' s'
      | None => (Err e, s')
      end
    end.

(** The part of [api.env] that is read. *)
Record Api := { env_realm : string; env_basedn : DN }.

Definition get_domain_level (api : Api) : M Z :=
  let ldap_uri := LdapiUri (env_realm api) in
  extern (LDAPClient ldap_uri) ;;;
  extern ExternalBind ;;;
  let dn := [("cn", "Domain Level"); ("cn", "ipa"); ("cn", "etc")] ++ env_basedn api in
  try_except_else (extern (GetEntry dn ["ipaDomainLevel"]))
    (fun e => if is_a e NotFound then Some (ret (DOMAIN_LEVEL_0 P)) else None)
    (fun got =>
       match got with
       | VEntry entry =>
         let* v := lift (single_value P entry "ipaDomainLevel") in
         lift (py_int v)
       | _ => raise TypeError
       end).

(** *** DsInstance.__setup_replica *)

Definition set_run_init_memberof (v : value) (o : DsInstance) : DsInstance :=
  {| realm := realm o; fqdn := fqdn o; nickname := nickname o;
     sub_dict := sub_dict o; domain := domain o; serverid := serverid o;
     master_fqdn := master_fqdn o; pkcs12_info := pkcs12_info o;
     ca_is_configured := ca_is_configured o; idstart := idstart o;
     idmax := idmax o; ca_subject := ca_subject o;
     subject_base := subject_base o; run_init_memberof := v;
     domainlevel := domainlevel o; suffix := suffix o;
     dm_password := dm_password o; ca_file := ca_file o;
     promote := promote o |}.

Definition __setup_replica : M unit :=
  let* o := get_self in
  extern (EnableReplicationVersionChecking (realm o) (dm_password o)) ;;;
  let ldap_uri := LdapiUri (realm o) in
  extern (LDAPClient ldap_uri) ;;;
  extern ExternalBind ;;;
  extern (ReplicationManager (realm o) (fqdn o) (dm_password o)) ;;;
  let binds :=
    if negb (is_none (dm_password o)) && negb (py_truthy (promote o))
    then (VDN [("cn", "Directory Manager")], dm_password o)
    else (VNone, VNone) in
  extern (SetupPromoteReplication (master_fqdn o) binds.1 binds.2 (ca_file o)) ;;;
  let* fixup := extern NeedsMemberofFixup in
  set_self (set_run_init_memberof fixup).

(** *** DsInstance.init_memberof *)

(** [self._ldap_mod(ldif, sub_dict)] *)
Definition _ldap_mod (ldif : string) (sub : option (gmap string value)) : M unit :=
  extern (LdapMod ldif sub) ;;; ret tt.

(** [d[key]] on [self.sub_dict] *)
Definition sub_dict_item (d : option (gmap string value)) (key : string) : result value :=
  match d with
  | None => Err TypeError
  | Some m => match m !! key with Some v => Ok v | None => Err KeyError end
  end.

(** ['%s' % v] for the values that reach a template here. *)
Definition py_str (v : value) : string :=
  match v with
  | VNone => "None"
  | VBool b => if b then "True" else "False"
  | VInt z => pretty z
  | VStr s => s
  | VList l => "[" +:+ str_join ", " ((fun x => "'" +:+ x +:+ "'") <$> l) +:+ "]"
  | VDN d => str_of_DN P d
  | VEntry _ => "<entry>"
  end.

Definition init_memberof : M unit :=
  let* o := get_self in
  if negb (py_truthy (run_init_memberof o)) then ret tt
  else
    _ldap_mod "memberof-task.ldif" (sub_dict o) ;;;
    let* time := lift (sub_dict_item (sub_dict o) "TIME") in
    let dn := [("cn", "IPA install " +:+ py_str time); ("cn", "memberof task");
               ("cn", "tasks"); ("cn", "config")] in
    log Debug "Waiting for memberof task to complete." ;;;
    let ldap_uri := HostUri (fqdn o) in
    extern (LDAPClient ldap_uri) ;;;
    (if py_truthy (dm_password o)
     then extern (SimpleBind (DIRMAN_DN P) (dm_password o))
     else extern GssapiBind) ;;;
    extern (WaitForTask dn) ;;;
    extern Unbind ;;;
    ret tt.

(** *** DsInstance.start, stop, restart *)

Definition start (instance : string) : M unit :=
  extern (SuperStart instance) ;;;
  extern Ldap2Connect ;;;
  ret tt.

Definition stop (instance : string) : M unit :=
  let* connected := extern Ldap2IsConnected in
  (if py_truthy connected then extern Ldap2Disconnect ;;; ret tt else ret tt) ;;;
  extern (SuperStop instance) ;;;
  ret tt.

Definition is_ds_running (server_id : string) : M value :=
  extern (DirsrvIsRunning server_id).

Definition restart (instance : string) : M unit :=
  extern Ldap2Disconnect ;;;
  try_except
    (extern (SuperRestart instance) ;;;
     let* running := is_ds_running instance in
     if negb (py_truthy running) then
       log Critical "Failed to restart the directory server. See the installation log for details." ;;;
       raise ScriptError
     else ret tt)
    (fun e =>
       if is_SystemExit e then Some (raise e)
       else if is_Exception e then
         Some (log Critical "Failed to restart the directory server (%s). See the installation log for details.")
       else None) ;;;
  extern Ldap2Connect ;;;
  ret tt.


(** *** The persistent state store *)

(** Modelled from the spec: [service.Service.backup_state] is declared in
    the base class, outside this module.  It records the value a setting
    held before this installation changed it; backing up a key that is
    already recorded changes nothing (first write wins). *)
Definition backup_state (key : string) (v : value) : M unit :=
  fun s =>
    match sstore s !! key with
    | Some _ => (Ok tt, s)
    | None => (Ok tt, with_sstore (<[key := v]> (sstore s)) s)
    end.

(** Modelled from the spec: [service.Service.restore_state] is declared in
    the base class, outside this module.  It removes and returns the
    recorded value; a key that was never backed up is nothing to undo and
    yields [None]. *)
Definition restore_state (key : string) : M value :=
  fun s =>
    match sstore s !! key with
    | Some v => (Ok v, with_sstore (delete key (sstore s)) s)
    | None => (Ok VNone, s)
    end.

(** Modelled from the spec: [service.Service.get_state] is declared in the
    base class, outside this module.  It reads the store and leaves it as
    it is. *)
Definition get_state (key : string) : M value :=
  fun s =>
    match sstore s !! key with
    | Some v => (Ok v, s)
    | None => (Ok VNone, s)
    end.

(** *** DsInstance.__enable *)

Definition __enable : M unit :=
  let* enabled := extern IsEnabled in
  backup_state "enabled" enabled ;;;
  extern Disable ;;;
  ret tt.

(** *** DsInstance.uninstall *)

Definition config_dirname (serverid : value) : string :=
  ETC_DIRSRV_SLAPD_INSTANCE P (py_str serverid) +:+ "/".

Definition stop_tracking_certificates (serverid : value) : M unit :=
  let* serverid :=
    (if is_none serverid then get_state "serverid" else ret serverid) in
  if negb (is_none serverid) then
    let dirname := drop_last (config_dirname serverid) in
    extern (CertDB dirname) ;;;
    let* o := get_self in
    extern (UntrackServerCert (nickname o)) ;;;
    ret tt
  else ret tt.

(** [''.join([prefix, v])] needs a string. *)
Definition as_str (v : value) : result string :=
  match v with
  | VStr s => Ok s
  | _ => Err TypeError
  end.

(** The [for ds_instance in get_ds_instances()] loop. *)
Fixpoint restart_instances (instances : list string) : M unit :=
  match instances with
  | [] => ret tt
  | ds_instance :: rest =>
    try_except (extern (DirsrvRestart ds_instance false) ;;; ret tt)
      (fun e =>
         if is_Exception e
         then Some (log Error "Unable to restart DS instance %s: %s")
         else None) ;;;
    restart_instances rest
  end.

(** The [try] statement around the two [fstore.restore_file] calls. *)
Definition uninstall_restore_files : M unit :=
  try_except
    (extern (FstoreRestoreFile (LIMITS_CONF P)) ;;;
     extern (FstoreRestoreFile (SYSCONFIG_DIRSRV P)) ;;;
     ret tt)
    (fun e => if is_a e ValueError then Some (log Debug "%s") else None).

(** The [if serverid is not None] statement. *)
Definition uninstall_remove_instance (serverid : value) : M unit :=
  if negb (is_none serverid) then
    stop_tracking_certificates serverid ;;;
    log Debug "Removing DS instance %s" ;;;
    try_except
      (let* name := lift (as_str serverid) in
       remove_ds_instance name false ;;;
       extern (RemoveKeytab (DS_KEYTAB P)) ;;;
       extern (RemoveCcache (DS_USER P)) ;;;
       ret tt)
      (fun e =>
         if is_a e CalledProcessError
         then Some (log Error "Failed to remove DS instance. You may need to remove instance data manually")
         else None)
  else ret tt.

Definition uninstall : M unit :=
  let* configured := extern IsConfigured in
  (if py_truthy configured
   then extern (PrintMsg "Unconfiguring directory server") ;;; ret tt
   else ret tt) ;;;
  let* enabled := restore_state "enabled" in
  restore_state "running" ;;;
  uninstall_restore_files ;;;
  (if py_truthy enabled then extern Enable ;;; ret tt else ret tt) ;;;
  let* serverid := restore_state "serverid" in
  uninstall_remove_instance serverid ;;;
  restore_state "user_exists" ;;;
  restore_state "nsslapd-port" ;;;
  restore_state "nsslapd-security" ;;;
  restore_state "nsslapd-ldapiautobind" ;;;
  let* instances := get_ds_instances in
  restart_instances instances.

(** *** DsInstance.__setup_sub_dict, init_info, create_replica *)

Definition find_server_root : M string :=
  let* exists64 := extern (DirExists (USR_LIB_DIRSRV_64 P)) in
  if py_truthy exists64 then ret (USR_LIB_DIRSRV_64 P)
  else ret (USR_LIB_DIRSRV P).

Definition set_sub_dict (d : gmap string value) (o : DsInstance) : DsInstance :=
  {| realm := realm o; fqdn := fqdn o; nickname := nickname o;
     sub_dict := Some d; domain := domain o; serverid := serverid o;
     master_fqdn := master_fqdn o; pkcs12_info := pkcs12_info o;
     ca_is_configured := ca_is_configured o; idstart := idstart o;
     idmax := idmax o; ca_subject := ca_subject o;
     subject_base := subject_base o;
     run_init_memberof := run_init_memberof o;
     domainlevel := domainlevel o; suffix := suffix o;
     dm_password := dm_password o; ca_file := ca_file o;
     promote := promote o |}.

Definition __setup_sub_dict : M unit :=
  let* server_root := find_server_root in
  let* o := get_self in
  let* idrange_size :=
    try_except
      (let* d := lift (py_sub (idmax o) (idstart o)) in
       lift (py_add d (VInt 1)))
      (fun e => if is_a e TypeError then Some (ret VNone) else None) in
  let* random_password := extern GeneratePassword in
  let* now := extern Time in
  let* time := lift (py_int now) in
  set_self (set_sub_dict (list_to_map [
    ("FQDN", VStr (fqdn o)); ("SERVERID", serverid o);
    ("PASSWORD", dm_password o);
    ("RANDOM_PASSWORD", random_password);
    ("SUFFIX", VDN (suffix o));
    ("REALM", VStr (realm o)); ("USER", VStr (DS_USER P));
    ("SERVER_ROOT", VStr server_root); ("DOMAIN", domain o);
    ("TIME", VInt time); ("IDSTART", idstart o);
    ("IDMAX", idmax o); ("HOST", VStr (fqdn o));
    ("ESCAPED_SUFFIX", VStr (str_of_DN P (suffix o)));
    ("GROUP", VStr (DS_GROUP P));
    ("IDRANGE_SIZE", idrange_size);
    ("DOMAIN_LEVEL", domainlevel o);
    ("MAX_DOMAIN_LEVEL", VInt (MAX_DOMAIN_LEVEL P));
    ("MIN_DOMAIN_LEVEL", VInt (MIN_DOMAIN_LEVEL P));
    ("STRIP_ATTRS", VStr (str_join " " (STRIP_ATTRS P)));
    ("EXCLUDES", VStr ("(objectclass=*) $ EXCLUDE " +:+ str_join " " (EXCLUDES P)));
    ("TOTAL_EXCLUDES",
     VStr ("(objectclass=*) $ EXCLUDE " +:+ str_join " " (TOTAL_EXCLUDES P)))
  ])).

Definition init_info (realm_name fqdn' : string)
    (domain_name dm_password' subject_base' ca_subject' idstart' idmax'
     pkcs12_info' ca_file' : value) : M unit :=
  set_self (fun o =>
    let realm' := str_upper P realm_name in
    {| realm := realm'; fqdn := fqdn'; nickname := nickname o;
       sub_dict := sub_dict o; domain := domain_name;
       serverid := VStr (realm_to_serverid P realm');
       master_fqdn := master_fqdn o; pkcs12_info := pkcs12_info';
       ca_is_configured :=
         if py_truthy pkcs12_info' then VBool false else ca_is_configured o;
       idstart := idstart'; idmax := idmax'; ca_subject := ca_subject';
       subject_base := subject_base';
       run_init_memberof := run_init_memberof o;
       domainlevel := domainlevel o; suffix := realm_to_suffix P realm';
       dm_password := dm_password'; ca_file := ca_file';
       promote := promote o |}) ;;;
  __setup_sub_dict.

(** [create_replica] up to the point where it starts to list its steps:
    the identifier range, [init_info] and the attributes of the join.  The
    steps themselves are run by the base class's [start_creation]. *)
Definition create_replica (realm_name : string) (master_fqdn' : value)
    (fqdn' : string)
    (domain_name dm_password' subject_base' ca_subject' pkcs12_info' ca_file'
     ca_is_configured' promote' : value) : M unit :=
  let idstart' := VInt 1101 in
  let idmax' := VInt 1100 in
  init_info realm_name fqdn' domain_name dm_password' subject_base'
    ca_subject' idstart' idmax' pkcs12_info' ca_file' ;;;
  set_self (fun o =>
    {| realm := realm o; fqdn := fqdn o; nickname := nickname o;
       sub_dict := sub_dict o; domain := domain o; serverid := serverid o;
       master_fqdn := master_fqdn'; pkcs12_info := pkcs12_info o;
       ca_is_configured :=
         if negb (is_none ca_is_configured') then ca_is_configured'
         else ca_is_configured o;
       idstart := idstart o; idmax := idmax o; ca_subject := ca_subject o;
       subject_base := subject_base o;
       run_init_memberof := run_init_memberof o;
       domainlevel := domainlevel o; suffix := suffix o;
       dm_password := dm_password o; ca_file := ca_file o;
       promote := promote' |}).

(** *** DsInstance.add_ca_cert *)

Definition add_ca_cert (cacert_fname : string) (cacert_name : string) : M bool :=
  try_except_else (extern (Access cacert_fname))
    (fun e =>
       if is_a e OSError then
         Some (log Critical "The given CA cert file named [%s] could not be read: %s" ;;;
               ret false)
       else None)
    (fun readable =>
       if negb (py_truthy readable) then
         log Critical "The given CA cert file named [%s] could not be read" ;;;
         ret false
       else
         stop "" ;;;
         let* o := get_self in
         let dirname := config_dirname (VStr (realm_to_serverid P (realm o))) in
         extern (CertDB dirname) ;;;
         let cacert_name :=
           if String.eqb cacert_name "" || (String.length cacert_name =? 0)%nat
           then "Imported CA" else cacert_name in
         let* status :=
           try_except
             (extern (LoadCacert cacert_fname cacert_name "C,,") ;;; ret true)
             (fun e =>
                if is_a e CalledProcessError then
                  Some (log Critical "Error importing CA cert file named [%s]: %s" ;;;
                        ret false)
                else None) in
         start "" ;;;
         ret status).

End Module.

(** * More of the module *)

(** ** Schema files *)

(** [fnmatch.fnmatch(name, pat)] on POSIX, for patterns made of literal
    characters, [*] and [?]; the one pattern of this module is ["*.ldif"]. *)
Fixpoint glob (pat : string) : string -> bool :=
  match pat with
  | EmptyString => fun s => String.eqb s ""
  | String c pat' =>
    if Ascii.eqb c "*" then
      fix star (s : string) : bool :=
        glob pat' s ||
        match s with
        | EmptyString => false
        | String _ s' => star s'
        end
    else if Ascii.eqb c "?" then
      fun s =>
        match s with
        | EmptyString => false
        | String _ s' => glob pat' s'
        end
    else
      fun s =>
        match s with
        | EmptyString => false
        | String d s' => Ascii.eqb c d && glob pat' s'
        end
  end.

Definition fnmatch (name pat : string) : bool := glob pat name.

Section Walk.

(** What [os.walk(root)] yields: for each directory its path, its
    subdirectories and its files. *)
Variable os_walk : string -> list (string * list string * list string).

(** The inner loop, [for name in files], with the list [f] built so far. *)
Fixpoint collect_ldif (path : string) (files f : list string) : list string :=
  match files with
  | [] => f
  | name :: rest =>
    collect_ldif path rest
      (if fnmatch name "*.ldif" then f ++ [os_path_join path name] else f)
  end.

(** The outer loop, [for path, _subdirs, files in os.walk(root)]. *)
Fixpoint walk_ldif (entries : list (string * list string * list string))
    (f : list string) : list string :=
  match entries with
  | [] => f
  | (path, _subdirs, files) :: rest => walk_ldif rest (collect_ldif path files f)
  end.

Definition get_all_external_schema_files (root : string) : list string :=
  walk_ldif (os_walk root) [].

End Walk.

(** ** The lists of installation steps *)

(** The methods that are handed to [self.step]. *)
Module Method.
Inductive t :=
| create_ds_user | __create_instance | __enable_ldapi | __root_autobind
| __stop_instance | __update_dse_ldif | __start_instance
| __add_default_schemas | __add_memberof_module | __add_winsync_module
| __config_version_module | __add_enrollment_module | __set_unique_attrs
| __config_uuid_module | __config_modrdn_module | __config_dns_module
| __enable_entryusn | __config_lockout_module | __config_topology_module
| __create_indices | __add_referint_module | __enable_ssl | __certmap_conf
| __repoint_managed_entries | configure_dirsrv_ccache
| __enable_sasl_mapping_fallback
| init_memberof | __add_master_entry | __set_domain_level
| __config_uidgid_gen | __add_replication_acis | __enable_compat_plugin
| _add_sidgen_plugin | _add_extdom_plugin | __tuning | __enable
| __restart_instance | __configure_sasl_mappings | __add_default_layout
| __add_delegation_layout | __managed_entries | __user_private_groups
| __host_nis_groups | __add_sudo_binduser | __add_automember_config
| __add_range_check_plugin | add_hbac | __add_topology_entries
| __upload_ca_cert | _request_service_keytab | __get_ds_cert
| __setup_replica | __update_schema | __add_replica_automember_config
| __setup_s4u2proxy | __import_ca_certs.
End Method.

#[global] Instance method_eq_dec : EqDecision Method.t.
Proof. solve_decision. Defined.

(** One entry of [self.steps]: the message and the method. *)
Definition step : Type := string * Method.t.

(** [self.step(message, method)] appends to [self.steps]; the functions
    below take the list as it is and give it back with their steps added. *)

Definition __common_setup (enable_ssl : bool) (steps : list step) : list step :=
  steps ++
  [("creating directory server user", Method.create_ds_user);
   ("creating directory server instance", Method.__create_instance);
   ("enabling ldapi", Method.__enable_ldapi);
   ("configure autobind for root", Method.__root_autobind);
   ("stopping directory server", Method.__stop_instance);
   ("updating configuration in dse.ldif", Method.__update_dse_ldif);
   ("starting directory server", Method.__start_instance);
   ("adding default schema", Method.__add_default_schemas);
   ("enabling memberof plugin", Method.__add_memberof_module);
   ("enabling winsync plugin", Method.__add_winsync_module);
   ("configuring replication version plugin", Method.__config_version_module);
   ("enabling IPA enrollment plugin", Method.__add_enrollment_module);
   ("configuring uniqueness plugin", Method.__set_unique_attrs);
   ("configuring uuid plugin", Method.__config_uuid_module);
   ("configuring modrdn plugin", Method.__config_modrdn_module);
   ("configuring DNS plugin", Method.__config_dns_module);
   ("enabling entryUSN plugin", Method.__enable_entryusn);
   ("configuring lockout plugin", Method.__config_lockout_module);
   ("configuring topology plugin", Method.__config_topology_module);
   ("creating indices", Method.__create_indices);
   ("enabling referential integrity plugin", Method.__add_referint_module)] ++
  (if enable_ssl
   then [("configuring TLS for DS instance", Method.__enable_ssl)]
   else []) ++
  [("configuring certmap.conf", Method.__certmap_conf);
   ("configure new location for managed entries", Method.__repoint_managed_entries);
   ("configure dirsrv ccache", Method.configure_dirsrv_ccache);
   ("enabling SASL mapping fallback", Method.__enable_sasl_mapping_fallback)].

Definition __common_post_setup (steps : list step) : list step :=
  steps ++
  [("initializing group membership", Method.init_memberof);
   ("adding master entry", Method.__add_master_entry);
   ("initializing domain level", Method.__set_domain_level);
   ("configuring Posix uid/gid generation", Method.__config_uidgid_gen);
   ("adding replication acis", Method.__add_replication_acis);
   ("enabling compatibility plugin", Method.__enable_compat_plugin);
   ("activating sidgen plugin", Method._add_sidgen_plugin);
   ("activating extdom plugin", Method._add_extdom_plugin);
   ("tuning directory server", Method.__tuning);
   ("configuring directory to start on boot", Method.__enable)].

(** The steps that [create_instance] lists, between [init_info] and
    [start_creation]. *)
Definition create_instance_steps (hbac_allow : value) (steps : list step)
  : list step :=
  let steps := __common_setup false steps in
  let steps := steps ++
    [("restarting directory server", Method.__restart_instance);
     ("adding sasl mappings to the directory", Method.__configure_sasl_mappings);
     ("adding default layout", Method.__add_default_layout);
     ("adding delegation layout", Method.__add_delegation_layout);
     ("creating container for managed entries", Method.__managed_entries);
     ("configuring user private groups", Method.__user_private_groups);
     ("configuring netgroups from hostgroups", Method.__host_nis_groups);
     ("creating default Sudo bind user", Method.__add_sudo_binduser);
     ("creating default Auto Member layout", Method.__add_automember_config);
     ("adding range check plugin", Method.__add_range_check_plugin)] in
  let steps :=
    if py_truthy hbac_allow
    then steps ++ [("creating default HBAC rule allow_all", Method.add_hbac)]
    else steps in
  let steps := steps ++
    [("adding entries for topology management", Method.__add_topology_entries)] in
  __common_post_setup steps.

(** The steps of [enable_ssl]: the list is emptied first. *)
Definition enable_ssl_steps (steps : list step) : list step :=
  let steps : list step := [] in
  steps ++
  [("configuring TLS for DS instance", Method.__enable_ssl);
   ("restarting directory server", Method.__restart_instance);
   ("adding CA certificate entry", Method.__upload_ca_cert)].

(** The steps that [create_replica] lists, after the attributes of the
    join are set and before [start_creation]. *)
Definition create_replica_steps (promote pkcs12_info : value)
    (steps : list step) : list step :=
  let steps := __common_setup (negb (py_truthy promote)) steps in
  let steps := steps ++
    [("restarting directory server", Method.__restart_instance);
     ("creating DS keytab", Method._request_service_keytab)] in
  let steps :=
    if py_truthy promote then
      (if py_truthy pkcs12_info
       then steps ++ [("configuring TLS for DS instance", Method.__enable_ssl)]
       else steps ++ [("retrieving DS Certificate", Method.__get_ds_cert)]) ++
      [("restarting directory server", Method.__restart_instance)]
    else steps in
  let steps := steps ++
    [("setting up initial replication", Method.__setup_replica);
     ("adding sasl mappings to the directory", Method.__configure_sasl_mappings);
     ("updating schema", Method.__update_schema);
     ("setting Auto Member configuration", Method.__add_replica_automember_config);
     ("enabling S4U2Proxy delegation", Method.__setup_s4u2proxy);
     ("importing CA certificates from LDAP", Method.__import_ca_certs)] in
  __common_post_setup steps.

(** * Specification vocabulary *)

(** ** What a computation asks of the world

    [emits p m]: from any state, [m] only adds to the history, every call
    it adds satisfies [p], and the state store is left as it was. *)

Definition emits {A} (p : call -> Prop) (m : M A) : Prop :=
  forall s, exists t,
    history (m s).2 = history s ++ t /\ Forall p t /\
    sstore (m s).2 = sstore s.

(** [returns m]: [m] completes without an exception from any state. *)
Definition returns {A} (m : M A) : Prop :=
  forall s, exists a s', m s = (Ok a, s').

(** The failures that [uninstall] is written to survive: the removal tool
    exits non-zero, a file has no backup to restore, a remaining instance
    does not restart.  Nothing else fails, and a directory listing is a
    list. *)
Definition cleanup_failures_only (P : platform) (env : oracle) : Prop :=
  forall h c,
    match env h c with
    | Returns v =>
      match c with
      | Listdir _ => exists l, v = VList l
      | _ => True
      end
    | Raises e =>
      match c with
      | Run _ => e = CalledProcessError
      | FstoreRestoreFile _ => e = ValueError
      | DirsrvRestart _ _ => is_Exception P e = true
      | _ => False
      end
    end.

(** [keeps J p m]: from a state whose store satisfies [J], [m] ends in a
    state whose store satisfies [J], whether it returns or raises, and every
    call it adds to the history satisfies [p]. *)
Definition keeps {A} (J : gmap string value -> Prop) (p : call -> Prop)
    (m : M A) : Prop :=
  forall s, J (sstore s) ->
    J (sstore (m s).2) /\
    exists t, history (m s).2 = history s ++ t /\ Forall p t.

(** ** Failures and what is left of them

    [raised env h t c e]: in a run that began with the history [h] and
    made the calls [t], the call [c] was made and the world answered it
    with the exception [e]. *)
Definition raised (env : oracle) (h t : list call) (c : call) (e : exn) : Prop :=
  exists before after, t = before ++ c :: after /\ env (h ++ before) c = Raises e.

(** What [uninstall] leaves behind for a call that failed: a log entry,
    or, for a run of the removal tool without the force flag, the forced
    run as the next call. *)
Definition noted (c : call) (t : list call) (l : list (loglevel * string)) : Prop :=
  match c with
  | FstoreRestoreFile _ => (Debug, "%s") ∈ l
  | Run args =>
    if bool_decide (last args = Some "-f")
    then (Error, "Failed to remove DS instance. You may need to remove instance data manually") ∈ l
    else exists pre post, t = pre ++ Run args :: Run (args ++ ["-f"]) :: post
  | DirsrvRestart _ _ => (Error, "Unable to restart DS instance %s: %s") ∈ l
  | _ => True
  end.

(** [audited env m]: [m] only adds to the history and to the log, and
    every call of it that raised is noted. *)
Definition audited {A} (env : oracle) (m : M A) : Prop :=
  forall s, exists t l,
    history (m s).2 = history s ++ t /\ logs (m s).2 = logs s ++ l /\
    forall c e, raised env (history s) t c e -> noted c t l.

(** [fatal env q m]: [m] only adds to the history, and whenever a call of
    it that satisfies [q] raises, that call is the last one [m] makes and
    its exception is what [m] raises. *)
Definition fatal {A} (env : oracle) (q : call -> Prop) (m : M A) : Prop :=
  forall s, exists t,
    history (m s).2 = history s ++ t /\
    forall before c after e,
      t = before ++ c :: after -> env (history s ++ before) c = Raises e -> q c ->
      (m s).1 = Err e /\ after = [].

(** * Sample inputs *)

(** One reading of [LDAPEntry.single_value]: the only value of the
    attribute, as a string. *)
Fixpoint sample_single_value (e : entry) (attr : string) : result value :=
  match e with
  | [] => Err KeyError
  | (name, values) :: rest =>
    if String.eqb name attr then
      match values with
      | [v] => Ok (VStr v)
      | _ => Err ValueError
      end
    else sample_single_value rest attr
  end.

(** One reading of [str.upper]: the letters a to z, which is what it does
    on an ASCII realm name. *)
Definition sample_upper_char (c : Ascii.ascii) : Ascii.ascii :=
  let n := Ascii.nat_of_ascii c in
  if ((97 <=? n) && (n <=? 122))%nat then Ascii.ascii_of_nat (n - 32) else c.

Fixpoint sample_upper (s : string) : string :=
  match s with
  | EmptyString => EmptyString
  | String c s' => String (sample_upper_char c) (sample_upper s')
  end.

Definition fedora : platform := {|
  str_upper := sample_upper;
  REMOVE_DS_PL := "/usr/sbin/remove-ds.pl";
  ETC_DIRSRV := "/etc/dirsrv";
  USR_LIB_DIRSRV_64 := "/usr/lib64/dirsrv";
  USR_LIB_DIRSRV := "/usr/lib/dirsrv";
  LIMITS_CONF := "/etc/security/limits.conf";
  SYSCONFIG_DIRSRV := "/etc/sysconfig/dirsrv";
  DS_KEYTAB := "/etc/dirsrv/ds.keytab";
  ETC_DIRSRV_SLAPD_INSTANCE := fun serverid => "/etc/dirsrv/slapd-" +:+ serverid;
  DS_USER := "dirsrv";
  DS_GROUP := "dirsrv";
  DOMAIN_LEVEL_0 := 0;
  MIN_DOMAIN_LEVEL := 0;
  MAX_DOMAIN_LEVEL := 1;
  STRIP_ATTRS := ["modifiersName"; "modifyTimestamp"];
  EXCLUDES := ["memberof"; "idnssoaserial"];
  TOTAL_EXCLUDES := ["entryusn"; "krblastsuccessfulauth"];
  DIRMAN_DN := [("cn", "Directory Manager")];
  realm_to_serverid := fun r => "EXAMPLE-COM";
  realm_to_suffix := fun r => [("dc", "example"); ("dc", "com")];
  str_of_DN := fun d => str_join "," ((fun kv => kv.1 +:+ "=" +:+ kv.2) <$> d);
  single_value := sample_single_value;
  ScriptError_kind := OrdinaryKind
|}.

(** A replica about to join at the lowest domain level, with no
    Directory Manager password. *)
Definition joining : DsInstance := {|
  realm := "EXAMPLE.COM";
  fqdn := "replica.example.com";
  nickname := "Server-Cert";
  sub_dict := None;
  domain := VStr "example.com";
  serverid := VStr "EXAMPLE-COM";
  master_fqdn := VStr "master.example.com";
  pkcs12_info := VNone;
  ca_is_configured := VBool true;
  idstart := VNone;
  idmax := VNone;
  ca_subject := VNone;
  subject_base := VNone;
  run_init_memberof := VBool true;
  domainlevel := VInt 0;
  suffix := [("dc", "example"); ("dc", "com")];
  dm_password := VNone;
  ca_file := VNone;
  promote := VBool false
|}.

Definition with_dm_password (pw : value) (o : DsInstance) : DsInstance :=
  {| realm := realm o; fqdn := fqdn o; nickname := nickname o;
     sub_dict := sub_dict o; domain := domain o; serverid := serverid o;
     master_fqdn := master_fqdn o; pkcs12_info := pkcs12_info o;
     ca_is_configured := ca_is_configured o; idstart := idstart o;
     idmax := idmax o; ca_subject := ca_subject o;
     subject_base := subject_base o;
     run_init_memberof := run_init_memberof o;
     domainlevel := domainlevel o; suffix := suffix o;
     dm_password := pw; ca_file := ca_file o; promote := promote o |}.

Definition boot (o : DsInstance) : sys :=
  {| self := o; history := []; logs := []; sstore := ∅ |}.

(** The state file after an installation on a host where dirsrv was
    enabled. *)
Definition installed : sys :=
  {| self := joining; history := []; logs := [];
     sstore := {[ "enabled" := VBool true; "serverid" := VStr "EXAMPLE-COM" ]} |}.

Definition sample_names : list string :=
  ["slapd-EXAMPLE-COM"; "slapd-OLD.removed"; "schema"; "slapd-";
   "slapd-ALPHA"; "slapd-FILE"].

Definition sample_isdir (p : string) : bool :=
  negb (String.eqb p "/etc/dirsrv/slapd-FILE").

(** A world where nothing fails and nothing needs repair. *)
Definition calm : oracle := fun _ c =>
  match c with
  | Listdir _ => Returns (VList sample_names)
  | Isdir p => Returns (VBool (sample_isdir p))
  | Time => Returns (VInt 1500000000)
  | GeneratePassword => Returns (VStr "Xy7")
  | GetEntry _ _ => Returns (VEntry [("ipaDomainLevel", ["1"])])
  | NeedsMemberofFixup => Returns (VBool false)
  | _ => Returns (VBool true)
  end.

(** The service manager cannot restart dirsrv. *)
Definition restart_fails : oracle := fun h c =>
  match c with
  | SuperRestart _ => Raises CalledProcessError
  | _ => calm h c
  end.

(** The service manager cannot enable dirsrv. *)
Definition enable_fails : oracle := fun h c =>
  match c with
  | Enable => Raises CalledProcessError
  | _ => calm h c
  end.

(** The failures that clean-up expects, all at once. *)
Definition flaky_cleanup : oracle := fun h c =>
  match c with
  | Run _ => Raises CalledProcessError
  | FstoreRestoreFile _ => Raises ValueError
  | DirsrvRestart i _ =>
    if String.eqb i "ALPHA" then Raises RuntimeError else Returns VNone
  | _ => calm h c
  end.

(** The cluster has no domain level entry. *)
Definition no_level_entry : oracle := fun h c =>
  match c with
  | GetEntry _ _ => Raises NotFound
  | _ => calm h c
  end.

(** The CA certificate file cannot be read. *)
Definition unreadable : oracle := fun h c =>
  match c with
  | Access _ => Returns (VBool false)
  | _ => calm h c
  end.

(** certutil rejects the certificate. *)
Definition import_fails : oracle := fun h c =>
  match c with
  | LoadCacert _ _ _ => Raises CalledProcessError
  | _ => calm h c
  end.

(** The certificate is not one that the database can take in. *)
Definition import_crashes : oracle := fun h c =>
  match c with
  | LoadCacert _ _ _ => Raises RuntimeError
  | _ => calm h c
  end.

(** The removal tool is not installed. *)
Definition tool_missing : oracle := fun h c =>
  match c with
  | Run _ => Raises OSError
  | _ => calm h c
  end.

(** The directory server does not answer. *)
Definition server_down : oracle := fun h c =>
  match c with
  | GetEntry _ _ => Raises NetworkError
  | _ => calm h c
  end.

(** The domain level entry holds something that is not a number. *)
Definition level_garbled : oracle := fun h c =>
  match c with
  | GetEntry _ _ => Returns (VEntry [("ipaDomainLevel", ["one"])])
  | _ => calm h c
  end.

(** The same directory as [calm] shows, listed in another order. *)
Definition calm_reordered : oracle := fun h c =>
  match c with
  | Listdir _ => Returns (VList (reverse sample_names))
  | _ => calm h c
  end.

(** The session is up but cannot be closed. *)
Definition disconnect_fails : oracle := fun h c =>
  match c with
  | Ldap2Disconnect => Raises NetworkError
  | _ => calm h c
  end.

(** The service manager reports that dirsrv is not running. *)
Definition not_running : oracle := fun h c =>
  match c with
  | DirsrvIsRunning _ => Returns (VBool false)
  | _ => calm h c
  end.

(** A replica whose substitution dictionary was built at second
    1500000000 of the epoch. *)
Definition prepared : sys :=
  boot (set_sub_dict {[ "TIME" := VInt 1500000000 ]} joining).

(** A host on which nothing was installed. *)
Definition pristine : sys :=
  {| self := joining; history := []; logs := []; sstore := ∅ |}.

(** * Properties *)

(** ** Python strings and numbers *)

Example int_of_string_ex1 : int_of_string " 12 " = Some 12. Proof. reflexivity. Qed.
Example int_of_string_ex2 : int_of_string "-3" = Some (-3). Proof. reflexivity. Qed.
Example int_of_string_ex3 : int_of_string "1x" = None. Proof. reflexivity. Qed.
Example int_of_string_ex4 : int_of_string "" = None. Proof. reflexivity. Qed.
Example int_of_string_ex5 : int_of_string "1_000" = Some 1000. Proof. reflexivity. Qed.
Example int_of_string_ex6 : int_of_string "1__0" = None. Proof. reflexivity. Qed.
Example int_of_string_ex7 : int_of_string "+ 1" = None. Proof. reflexivity. Qed.
Example endswith_ex : endswith "slapd-X.removed" ".removed" = true. Proof. reflexivity. Qed.
Example join_ex : os_path_join "/etc/dirsrv" "slapd-X" = "/etc/dirsrv/slapd-X". Proof. reflexivity. Qed.

(** ** Running the monad *)

Section Running.

Context {A B : Type}.

Lemma bind_ok (m : M A) (k : A -> M B) s a s1 :
  m s = (Ok a, s1) -> bind m k s = k a s1.
Proof. unfold bind. by intros ->. Qed.

Lemma bind_err (m : M A) (k : A -> M B) s e s1 :
  m s = (Err e, s1) -> bind m k s = (Err e, s1).
Proof. unfold bind. by intros ->. Qed.

Lemma bind_inv_ok (m : M A) (k : A -> M B) s b s' :
  bind m k s = (Ok b, s') ->
  exists a s1, m s = (Ok a, s1) /\ k a s1 = (Ok b, s').
Proof.
  unfold bind. destruct (m s) as [[a|e] s1]; [|discriminate].
  intros H. by exists a, s1.
Qed.

Lemma try_except_ok (m : M A) h s a s1 :
  m s = (Ok a, s1) -> try_except m h s = (Ok a, s1).
Proof. unfold try_except. by intros ->. Qed.

Lemma try_except_caught (m : M A) h s e s1 m' :
  m s = (Err e, s1) -> h e = Some m' -> try_except m h s = m' s1.
Proof. unfold try_except. by intros -> ->. Qed.

Lemma try_except_passed (m : M A) h s e s1 :
  m s = (Err e, s1) -> h e = None -> try_except m h s = (Err e, s1).
Proof. unfold try_except. by intros -> ->. Qed.

End Running.

Section Emits.

Variable P : platform.
Variable env : oracle.
Variable p : call -> Prop.

Lemma emits_ret {A} (a : A) : emits p (ret a).
Proof. intros s. exists []. by rewrite app_nil_r. Qed.

Lemma emits_raise {A} e : emits p (@raise A e).
Proof. intros s. exists []. by rewrite app_nil_r. Qed.

Lemma emits_lift {A} (r : result A) : emits p (lift r).
Proof. intros s. exists []. by rewrite app_nil_r. Qed.

Lemma emits_log lvl msg : emits p (log lvl msg).
Proof. intros s. exists []. by rewrite app_nil_r. Qed.

Lemma emits_get_self : emits p get_self.
Proof. intros s. exists []. by rewrite app_nil_r. Qed.

Lemma emits_set_self f : emits p (set_self f).
Proof. intros s. exists []. by rewrite app_nil_r. Qed.

Lemma emits_get_state k : emits p (get_state k).
Proof.
  intros s. exists []. rewrite app_nil_r. unfold get_state.
  by destruct (sstore s !! k).
Qed.

Lemma emits_extern c : p c -> emits p (extern env c).
Proof.
  intros Hc s. exists [c]. unfold extern.
  destruct (env (history s) c); simpl; by repeat constructor.
Qed.

Lemma emits_bind {A B} (m : M A) (k : A -> M B) :
  emits p m -> (forall a, emits p (k a)) -> emits p (bind m k).
Proof.
  intros Hm Hk s. unfold bind.
  destruct (Hm s) as (t1 & E1 & F1 & S1).
  destruct (m s) as [[a|e] s1]; simpl in E1, S1.
  - destruct (Hk a s1) as (t2 & E2 & F2 & S2).
    exists (t1 ++ t2). rewrite E2, E1, S2, S1, app_assoc. split; [done|].
    split; [|done]. by apply Forall_app.
  - by exists t1.
Qed.

Lemma emits_try_except {A} (m : M A) h :
  emits p m -> (forall e m', h e = Some m' -> emits p m') ->
  emits p (try_except m h).
Proof.
  intros Hm Hh s. unfold try_except.
  destruct (Hm s) as (t1 & E1 & F1 & S1).
  destruct (m s) as [[a|e] s1]; simpl in E1, S1.
  - by exists t1.
  - destruct (h e) as [m'|] eqn:He.
    + destruct (Hh e m' He s1) as (t2 & E2 & F2 & S2).
      exists (t1 ++ t2). rewrite E2, E1, S2, S1, app_assoc. split; [done|].
      split; [|done]. by apply Forall_app.
    + by exists t1.
Qed.

Lemma emits_try_except_else {A B} (m : M A) h (k : A -> M B) :
  emits p m -> (forall e m', h e = Some m' -> emits p m') ->
  (forall a, emits p (k a)) ->
  emits p (try_except_else m h k).
Proof.
  intros Hm Hh Hk s. unfold try_except_else.
  destruct (Hm s) as (t1 & E1 & F1 & S1).
  destruct (m s) as [[a|e] s1]; simpl in E1, S1.
  - destruct (Hk a s1) as (t2 & E2 & F2 & S2).
    exists (t1 ++ t2). rewrite E2, E1, S2, S1, app_assoc. split; [done|].
    split; [|done]. by apply Forall_app.
  - destruct (h e) as [m'|] eqn:He.
    + destruct (Hh e m' He s1) as (t2 & E2 & F2 & S2).
      exists (t1 ++ t2). rewrite E2, E1, S2, S1, app_assoc. split; [done|].
      split; [|done]. by apply Forall_app.
    + by exists t1.
Qed.

End Emits.

(** ** remove_ds_instance *)

(** C4.  For every serverid, [remove_ds_instance] first runs the removal
    tool without the force flag.  If that run returns, nothing more is
    run.  If it fails with [CalledProcessError], the tool is run exactly
    once more with [-f] appended, and the caller sees an error if and only
    if that forced run raised one. *)
Theorem remove_ds_instance_forced_retry P env serverid s :
  let plain := [REMOVE_DS_PL P; "-i"; DS_INSTANCE_PREFIX +:+ serverid] in
  let forced := plain ++ ["-f"] in
  let h := history s in
  let r := remove_ds_instance P env serverid false s in
  (exists rest, history r.2 = h ++ Run plain :: rest) /\
  (forall v, env h (Run plain) = Returns v ->
     r.1 = Ok tt /\ history r.2 = h ++ [Run plain]) /\
  (env h (Run plain) = Raises CalledProcessError ->
     history r.2 = h ++ [Run plain; Run forced] /\
     forall e, r.1 = Err e <-> env (h ++ [Run plain]) (Run forced) = Raises e).
Proof.
  intros plain forced h r. subst r.
  unfold remove_ds_instance.
  change recursion_limit with (S (S 998)).
  cbn [remove_ds_instance_rec].
  unfold bind, try_except, ret, log, raise, extern. cbn [str_join String.concat].
  change (DS_INSTANCE_PREFIX +:+ "" +:+ serverid) with (DS_INSTANCE_PREFIX +:+ serverid).
  fold plain. fold forced. fold h.
  destruct (env h (Run plain)) as [v|e] eqn:E1.
  - simpl. split; [by exists []|]. split; [done|done].
  - destruct (is_a e CalledProcessError) eqn:Ea.
    + apply bool_decide_eq_true in Ea. subst e. simpl. fold h.
      destruct (env (h ++ [Run plain]) (Run forced)) as [v2|e2] eqn:E2.
      * simpl. rewrite <- app_assoc. simpl.
        split; [by eexists|]. split; [done|]. intros _. split; [done|].
        intros e. split; discriminate.
      * destruct (is_a e2 CalledProcessError); simpl; rewrite <- app_assoc; simpl;
          (split; [by eexists|]); (split; [done|]); intros _; (split; [done|]);
          intros e; split; congruence.
    + simpl. split; [by exists []|]. split; [done|].
      intros [= ->]. unfold is_a in Ea. by rewrite bool_decide_eq_true_2 in Ea.
Qed.

(** ** get_ds_instances *)

Lemma append_cons c p r : String c p +:+ r = String c (p +:+ r).
Proof. reflexivity. Qed.

Lemma startswith_app s p :
  startswith s p = true <-> s = p +:+ drop_chars (String.length p) s.
Proof.
  revert s. induction p as [|c p IH]; intros s; simpl.
  - split; reflexivity.
  - rewrite append_cons. destruct s as [|d s]; simpl.
    + split; discriminate.
    + destruct (Ascii.eqb_spec c d) as [->|Hne].
      * rewrite IH. split; [by intros <-|]. by intros [= <-].
      * split; [discriminate|]. intros [= Hd _]. by destruct Hne.
Qed.

Lemma drop_chars_app p r : drop_chars (String.length p) (p +:+ r) = r.
Proof.
  induction p as [|c p IH]; [reflexivity|].
  rewrite append_cons. simpl. apply IH.
Qed.

Section Scan.

Variable env : oracle.
Variable isdir : string -> bool.
Hypothesis static_isdir : forall h p, env h (Isdir p) = Returns (VBool (isdir p)).

Lemma scan_instances_static dir names acc s :
  exists s',
    scan_instances env dir names acc s = (Ok (acc ++ omap (fun b =>
       if isdir (os_path_join dir b) && startswith b DS_INSTANCE_PREFIX
          && negb (endswith b ".removed")
          && negb (String.eqb (drop_chars (String.length DS_INSTANCE_PREFIX) b) "")
       then Some (drop_chars (String.length DS_INSTANCE_PREFIX) b) else None) names), s') /\
    sstore s' = sstore s /\
    history s' = history s ++ ((fun b => Isdir (os_path_join dir b)) <$> names).
Proof.
  revert acc s. induction names as [|b names IH]; intros acc s.
  - exists s. simpl. by rewrite !app_nil_r.
  - cbn [scan_instances]. unfold bind at 1, extern. rewrite static_isdir.
    cbn [py_truthy omap fmap list_fmap].
    edestruct IH as (s' & -> & Hst & Hh). exists s'. split; [|split].
    + f_equal. f_equal.
      assert (Hcons : forall f : string -> option string,
        omap f (b :: names)
        = match f b with Some y => y :: omap f names | None => omap f names end)
        by reflexivity.
      rewrite Hcons. clear Hcons.
      destruct (isdir (os_path_join dir b)); cbn [andb]; [|done].
      destruct (startswith b DS_INSTANCE_PREFIX); cbn [andb]; [|done].
      destruct (endswith b ".removed"); cbn [andb negb]; [done|].
      destruct (String.eqb _ ""); cbn [negb]; [done|].
      by rewrite <- app_assoc.
    + by rewrite Hst.
    + rewrite Hh. simpl. by rewrite <- app_assoc.
Qed.

End Scan.

(** C8.  On a directory listing [names] whose entries keep their kind
    during the scan, [get_ds_instances] returns a sorted list whose members
    are exactly the non-empty names X such that ['slapd-' + X] is listed,
    is a directory, and does not end with ['.removed']. *)
Theorem get_ds_instances_sorted_exact P env s names isdir :
  env (history s) (Listdir (ETC_DIRSRV P)) = Returns (VList names) ->
  (forall h p, env h (Isdir p) = Returns (VBool (isdir p))) ->
  exists l s',
    get_ds_instances P env s = (Ok l, s') /\
    Sorted String.le l /\
    forall X, X ∈ l <->
      X <> "" /\
      exists basename, basename ∈ names /\
        basename = DS_INSTANCE_PREFIX +:+ X /\
        isdir (os_path_join (ETC_DIRSRV P) basename) = true /\
        endswith basename ".removed" = false.
Proof.
  intros Hls Hdir. unfold get_ds_instances, bind at 1, extern. rewrite Hls.
  destruct (scan_instances_static env isdir Hdir (ETC_DIRSRV P) names []
              (with_history (history s ++ [Listdir (ETC_DIRSRV P)]) s))
    as (s' & Hscan & _ & _).
  erewrite bind_ok by exact Hscan. unfold ret.
  eexists _, s'. split; [done|]. split.
  - apply Sorted_merge_sort. apply _.
  - intros X. rewrite merge_sort_Permutation. rewrite app_nil_l.
    rewrite list_elem_of_omap. split.
    + intros (b & Hb & Hc).
      destruct (isdir _) eqn:Ed; [|done].
      destruct (startswith _ _) eqn:Es; [|done].
      destruct (endswith _ _) eqn:Ee; [done|].
      cbn [andb negb] in Hc.
      destruct (String.eqb_spec (drop_chars (String.length DS_INSTANCE_PREFIX) b) "")
        as [|Hne]; [done|].
      injection Hc as <-. split; [done|]. exists b.
      by apply startswith_app in Es.
    + intros (Hne & b & Hb & -> & Ed & Ee). eexists. split; [exact Hb|].
      rewrite Ed, Ee.
      replace (startswith _ _) with true
        by (symmetry; apply startswith_app; by rewrite drop_chars_app).
      rewrite drop_chars_app. cbn [andb negb].
      by destruct (String.eqb_spec X "").
Qed.

(** ** get_domain_level *)

Ltac run_m :=
  unfold bind, try_except, try_except_else, ret, raise, lift, log,
    get_self, set_self, extern.

(** C7.  Once the connection is bound, [get_domain_level] returns
    [DOMAIN_LEVEL_0] when the lookup of the 'Domain Level' entry raises
    [NotFound], and otherwise the integer value of the entry's
    [ipaDomainLevel] attribute. *)
Theorem get_domain_level_floor_or_entry P env api s :
  let h := history s in
  let client := LDAPClient (LdapiUri (env_realm api)) in
  let dn := [("cn", "Domain Level"); ("cn", "ipa"); ("cn", "etc")] ++ env_basedn api in
  let lookup := GetEntry dn ["ipaDomainLevel"] in
  let r := get_domain_level P env api s in
  forall v1 v2,
    env h client = Returns v1 ->
    env (h ++ [client]) ExternalBind = Returns v2 ->
    (env (h ++ [client; ExternalBind]) lookup = Raises NotFound ->
       r.1 = Ok (DOMAIN_LEVEL_0 P)) /\
    (forall e v z,
       env (h ++ [client; ExternalBind]) lookup = Returns (VEntry e) ->
       single_value P e "ipaDomainLevel" = Ok v ->
       py_int v = Ok z ->
       r.1 = Ok z).
Proof.
  intros h client dn lookup r v1 v2 H1 H2. subst r.
  unfold get_domain_level. run_m. fold h client dn lookup.
  rewrite H1. cbn [history with_history]. fold h. rewrite H2.
  cbn [history with_history]. rewrite <- app_assoc. cbn [app].
  split.
  - intros ->. reflexivity.
  - intros e v z -> Hv Hz. rewrite Hv, Hz. reflexivity.
Qed.

(** ** DsInstance.__setup_replica and init_memberof *)

(** C1, amended.  In [__setup_replica] the credentials of the join are
    chosen by the presence of the Directory Manager password and by the
    promote flag, not by the domain level: with a password and without
    promote, the join binds to the master as cn=Directory Manager with that
    password; in every other case it passes neither a bind DN nor a
    password.  The calls are made in one fixed order, a run that completes
    has made all of them, and the only errors are those its collaborators
    raise: a missing password is not refused. *)
Theorem setup_replica_bind_selection env s :
  let o := self s in
  let direct := negb (is_none (dm_password o)) && negb (py_truthy (promote o)) in
  let join :=
    SetupPromoteReplication (master_fqdn o)
      (if direct then VDN [("cn", "Directory Manager")] else VNone)
      (if direct then dm_password o else VNone)
      (ca_file o) in
  let script :=
    [EnableReplicationVersionChecking (realm o) (dm_password o);
     LDAPClient (LdapiUri (realm o)); ExternalBind;
     ReplicationManager (realm o) (fqdn o) (dm_password o);
     join; NeedsMemberofFixup] in
  let r := __setup_replica env s in
  (exists n, history r.2 = history s ++ take n script) /\
  (r.1 = Ok tt -> history r.2 = history s ++ script) /\
  (forall e, r.1 = Err e -> exists h c, c ∈ script /\ env h c = Raises e).
Proof.
  intros o direct join script r. subst r.
  unfold __setup_replica. run_m. cbn [history with_history self].
  fold o.
  assert (Hjoin :
    SetupPromoteReplication (master_fqdn o)
      (if negb (is_none (dm_password o)) && negb (py_truthy (promote o))
       then (VDN [("cn", "Directory Manager")], dm_password o)
       else (VNone, VNone)).1
      (if negb (is_none (dm_password o)) && negb (py_truthy (promote o))
       then (VDN [("cn", "Directory Manager")], dm_password o)
       else (VNone, VNone)).2
      (ca_file o) = join).
  { subst join direct. by destruct (negb _ && negb _). }
  rewrite Hjoin. clear Hjoin.
  repeat match goal with
  | |- context [env ?h ?c] =>
    let E := fresh "E" in
    destruct (env h c) eqn:E; cbn [history with_history fst snd]
  end;
  (split; [|split]);
  try discriminate;
  try (intros _; rewrite <- ?app_assoc; reflexivity);
  try (intros e' [= <-]; do 2 eexists; split; [|eassumption]; set_solver).
  all: rewrite <- ?app_assoc; cbn [app].
  - by exists 6%nat.
  - by exists 6%nat.
  - by exists 5%nat.
  - by exists 4%nat.
  - by exists 3%nat.
  - by exists 2%nat.
  - by exists 1%nat.
Qed.

(** C2.  After a join that completes, [run_init_memberof] is the answer
    that the replication manager gave to [needs_memberof_fixup], asked
    right after the join call, whatever the flag was before.
    [init_memberof] with a false flag returns at once and changes nothing.
    With a true flag it first submits the memberof task, and it returns
    only after it has opened a connection to the server's own host, bound
    (as Directory Manager when there is a password, with GSSAPI otherwise),
    waited for the task named after the [TIME] of the substitution
    dictionary, and unbound, in that order.  When the dictionary has a
    [TIME], the calls made are always a prefix of these five, an error is
    one that a call among them raised, the wait is made as soon as the three
    calls before it have returned, and an exception of the wait is what
    [init_memberof] raises. *)
Theorem memberof_fixup_from_join_and_gated (P : platform) env s :
  let o := self s in
  let h := history s in
  let task := LdapMod "memberof-task.ldif" (sub_dict o) in
  let client := LDAPClient (HostUri (fqdn o)) in
  let login :=
    if py_truthy (dm_password o)
    then SimpleBind (DIRMAN_DN P) (dm_password o) else GssapiBind in
  let wait time :=
    WaitForTask [("cn", "IPA install " +:+ py_str P time); ("cn", "memberof task");
                 ("cn", "tasks"); ("cn", "config")] in
  let script time := [task; client; login; wait time; Unbind] in
  let r := init_memberof P env s in
  (forall s', __setup_replica env s = (Ok tt, s') ->
     exists hj b1 b2,
       history s' =
         hj ++ [SetupPromoteReplication (master_fqdn o) b1 b2 (ca_file o);
                NeedsMemberofFixup] /\
       env (hj ++ [SetupPromoteReplication (master_fqdn o) b1 b2 (ca_file o)])
           NeedsMemberofFixup
         = Returns (run_init_memberof (self s'))) /\
  (py_truthy (run_init_memberof o) = false -> r = (Ok tt, s)) /\
  (py_truthy (run_init_memberof o) = true ->
     (exists rest, history r.2 = h ++ task :: rest) /\
     (r.1 = Ok tt ->
        exists time,
          sub_dict_item (sub_dict o) "TIME" = Ok time /\
          history r.2 = h ++ script time) /\
     (forall time, sub_dict_item (sub_dict o) "TIME" = Ok time ->
        (exists n, history r.2 = h ++ take n (script time)) /\
        (forall e, r.1 = Err e ->
           exists h' c, c ∈ script time /\ env h' c = Raises e) /\
        (forall v1 v2 v3,
           env h task = Returns v1 ->
           env (h ++ [task]) client = Returns v2 ->
           env (h ++ [task; client]) login = Returns v3 ->
           match env (h ++ [task; client; login]) (wait time) with
           | Raises e =>
             r.1 = Err e /\ history r.2 = h ++ [task; client; login; wait time]
           | Returns _ =>
             history r.2 = h ++ script time /\
             r.1 = match env (h ++ [task; client; login; wait time]) Unbind with
                   | Returns _ => Ok tt
                   | Raises e => Err e
                   end
           end))).
Proof.
  intros o h task client login wait script r. split; [|split].
  - intros s'. unfold __setup_replica. run_m. cbn [history with_history self].
    fold o h.
    repeat match goal with
    | |- context [env ?h ?c] =>
      let E := fresh "E" in
      destruct (env h c) eqn:E; cbn [history with_history fst snd]
    end; try discriminate.
    intros [= <-]. cbn [self with_self with_history history].
    cbn [set_run_init_memberof run_init_memberof].
    exists (h ++ [EnableReplicationVersionChecking (realm o) (dm_password o);
                  LDAPClient (LdapiUri (realm o)); ExternalBind;
                  ReplicationManager (realm o) (fqdn o) (dm_password o)]).
    eexists _, _. rewrite <- !app_assoc in *. cbn [app] in *.
    split; [reflexivity|]. eassumption.
  - intros Hf. subst r. unfold init_memberof. run_m. fold o. by rewrite Hf.
  - intros Ht.
    assert (Hbody : init_memberof P env s =
      (_ldap_mod env "memberof-task.ldif" (sub_dict o) ;;;
       let* time := lift (sub_dict_item (sub_dict o) "TIME") in
       log Debug "Waiting for memberof task to complete." ;;;
       extern env client ;;; extern env login ;;;
       extern env (wait time) ;;; extern env Unbind ;;; ret tt) s).
    { unfold init_memberof. unfold bind at 1, get_self. fold o. rewrite Ht.
      cbn [negb]. subst login. by destruct (py_truthy (dm_password o)). }
    subst r. rewrite Hbody. clear Hbody. unfold _ldap_mod. run_m.
    cbn [negb history with_history with_logs self]. fold o h task.
    destruct (env h task) as [v1|e1] eqn:E1; cbn [history with_history fst snd].
    2:{ split; [by exists []|]. split; [discriminate|].
        intros time Htime. split; [by exists 1%nat|]. split.
        - intros e [= <-]. exists h, task. split; [set_solver|done].
        - intros ? ? ?. discriminate. }
    destruct (sub_dict_item (sub_dict o) "TIME") as [time|e0] eqn:Et;
      cbn [history with_history with_logs fst snd].
    2:{ split; [by exists []|]. split; [discriminate|]. intros ?. discriminate. }
    destruct (env (h ++ [task]) client) as [v2|e2] eqn:E2;
      cbn [history with_history with_logs fst snd]; rewrite <- ?app_assoc; cbn [app].
    2:{ split; [by eexists|]. split; [discriminate|].
        intros ? [= <-]. split; [by exists 2%nat|]. split.
        - intros e [= <-]. exists (h ++ [task]), client. split; [set_solver|done].
        - intros ? ? ? _. discriminate. }
    destruct (env (h ++ [task; client]) login) as [v3|e3] eqn:E3;
      cbn [history with_history with_logs fst snd]; rewrite <- ?app_assoc; cbn [app].
    2:{ split; [by eexists|]. split; [discriminate|].
        intros ? [= <-]. split; [by exists 3%nat|]. split.
        - intros e [= <-]. exists (h ++ [task; client]), login.
          split; [set_solver|done].
        - intros ? ? ? _ _. discriminate. }
    destruct (env (h ++ [task; client; login]) (wait time)) as [v4|e4] eqn:E4;
      cbn [history with_history with_logs fst snd]; rewrite <- ?app_assoc; cbn [app].
    2:{ split; [by eexists|]. split; [discriminate|].
        intros ? [= <-]. split; [by exists 4%nat|]. split.
        - intros e [= <-]. exists (h ++ [task; client; login]), (wait time).
          split; [set_solver|done].
        - intros ? ? ? _ _ _. by rewrite ?E4, ?E5. }
    destruct (env (h ++ [task; client; login; wait time]) Unbind) as [v5|e5] eqn:E5;
      cbn [history with_history with_logs fst snd]; rewrite <- ?app_assoc; cbn [app].
    + split; [by eexists|]. split; [by exists time|].
      intros ? [= <-]. split; [by exists 5%nat|]. split; [discriminate|].
      intros ? ? ? _ _ _. by rewrite ?E4, ?E5.
    + split; [by eexists|]. split; [discriminate|].
      intros ? [= <-]. split; [by exists 5%nat|]. split.
      * intros e [= <-]. exists (h ++ [task; client; login; wait time]), Unbind.
        split; [set_solver|done].
      * intros ? ? ? _ _ _. by rewrite ?E4, ?E5.
Qed.

(** ** DsInstance.restart *)

(** C3, amended.  [restart] disconnects the session, restarts the
    service, asks whether it is running and reconnects, in that order.  A
    [SystemExit] raised by the service restart goes to the caller, with the
    session left disconnected.  Any other ordinary exception raised by the
    service restart is logged as critical and dropped: the session is
    reconnected and [restart] returns as the reconnection does. *)
Theorem restart_order_and_handlers P env instance s :
  let h := history s in
  let r := restart P env instance s in
  let D := Ldap2Disconnect in
  let R := SuperRestart instance in
  let I := DirsrvIsRunning instance in
  let C := Ldap2Connect in
  forall v0, env h D = Returns v0 ->
    (forall v1 v2 v3,
       env (h ++ [D]) R = Returns v1 ->
       env (h ++ [D; R]) I = Returns v2 -> py_truthy v2 = true ->
       env (h ++ [D; R; I]) C = Returns v3 ->
       r.1 = Ok tt /\ history r.2 = h ++ [D; R; I; C]) /\
    (forall e,
       env (h ++ [D]) R = Raises e -> is_SystemExit P e = true ->
       r.1 = Err e /\ history r.2 = h ++ [D; R]) /\
    (forall e,
       env (h ++ [D]) R = Raises e ->
       is_SystemExit P e = false -> is_Exception P e = true ->
       history r.2 = h ++ [D; R; C] /\
       (exists msg, (Critical, msg) ∈ logs r.2) /\
       r.1 = match env (h ++ [D; R]) C with
             | Returns _ => Ok tt
             | Raises e' => Err e'
             end).
Proof.
  intros h r D R I C v0 H0. subst r.
  unfold restart, is_ds_running. run_m. fold h D R I C. rewrite H0.
  cbn [history with_history]. fold h.
  split; [|split].
  - intros v1 v2 v3 H1 H2 Ht H3. rewrite H1. cbn [history with_history].
    rewrite <- app_assoc. cbn [app]. rewrite H2, Ht.
    cbn [negb history with_history]. rewrite <- app_assoc. cbn [app].
    rewrite H3. cbn [history with_history fst snd]. by rewrite <- app_assoc.
  - intros e H1 Hx. rewrite H1, Hx. cbn [history with_history fst snd].
    by rewrite <- app_assoc.
  - intros e H1 Hx He. rewrite H1, Hx, He.
    cbn [history with_history with_logs logs fst snd].
    rewrite <- app_assoc. cbn [app].
    destruct (env (h ++ [D; R]) C); cbn [history with_history with_logs logs fst snd];
      rewrite <- app_assoc; cbn [app];
      (split; [done|]); (split; [|done]); eexists;
      apply elem_of_app; right; by apply list_elem_of_singleton.
Qed.

(** X23.  When the service does not report running after the restart,
    [restart] logs a critical message and raises [ScriptError]; what becomes
    of it is decided by the class's place in the hierarchy.  Under
    [SystemExit], or outside [Exception], it reaches the caller: the session
    stays disconnected and the log holds that one message.  As an ordinary
    exception it is caught by the last handler, which logs a second
    critical message and drops it: [restart] goes on to reconnect and
    returns as the reconnection does. *)
Lemma restart_not_running_by_kind P env instance s v0 v1 v2 :
  let h := history s in
  let r := restart P env instance s in
  let seen := [Ldap2Disconnect; SuperRestart instance; DirsrvIsRunning instance] in
  let not_running :=
    (Critical,
     "Failed to restart the directory server. See the installation log for details.") in
  let dropped :=
    (Critical,
     "Failed to restart the directory server (%s). See the installation log for details.") in
  env h Ldap2Disconnect = Returns v0 ->
  env (h ++ [Ldap2Disconnect]) (SuperRestart instance) = Returns v1 ->
  env (h ++ [Ldap2Disconnect; SuperRestart instance]) (DirsrvIsRunning instance)
    = Returns v2 ->
  py_truthy v2 = false ->
  match ScriptError_kind P with
  | OrdinaryKind =>
    r.1 = match env (h ++ seen) Ldap2Connect with
          | Returns _ => Ok tt
          | Raises e => Err e
          end /\
    history r.2 = h ++ seen ++ [Ldap2Connect] /\
    logs r.2 = logs s ++ [not_running; dropped]
  | _ =>
    r.1 = Err ScriptError /\
    history r.2 = h ++ seen /\
    logs r.2 = logs s ++ [not_running]
  end.
Proof.
  intros h r seen not_running dropped H0 H1 H2 Hv. subst r.
  unfold restart, is_ds_running. run_m. fold h. rewrite H0.
  cbn [history with_history]. fold h. rewrite H1.
  cbn [history with_history]. rewrite <- app_assoc. cbn [app].
  rewrite H2, Hv. cbn [negb history with_history with_logs].
  unfold is_SystemExit, is_Exception, kind_of.
  destruct (ScriptError_kind P);
    cbn [history with_history with_logs logs fst snd];
    rewrite <- ?app_assoc; cbn [app]; try done.
  fold seen. destruct (env (h ++ seen) Ldap2Connect);
    cbn [history with_history with_logs logs fst snd];
    rewrite <- ?app_assoc; cbn [app]; done.
Qed.

(** ** DsInstance.create_replica and __setup_sub_dict *)

(** C9.  [create_replica] sets [idstart] to 1101 and [idmax] to 1100, and
    the substitution dictionary it builds has [IDRANGE_SIZE] equal to 0.
    When [idstart] or [idmax] is [None], [__setup_sub_dict] completes and
    [IDRANGE_SIZE] is [None]. *)
Theorem replica_idrange_size_zero_or_none P env s
    realm_name master_fqdn' fqdn' domain_name dm_password' subject_base'
    ca_subject' pkcs12_info' ca_file' ca_is_configured' promote' :
  let h := history s in
  let probe := DirExists (USR_LIB_DIRSRV_64 P) in
  forall v1 v2 t,
    env h probe = Returns v1 ->
    env (h ++ [probe]) GeneratePassword = Returns v2 ->
    env (h ++ [probe; GeneratePassword]) Time = Returns (VInt t) ->
    (exists s' d,
       create_replica P env realm_name master_fqdn' fqdn' domain_name
         dm_password' subject_base' ca_subject' pkcs12_info' ca_file'
         ca_is_configured' promote' s = (Ok tt, s') /\
       idstart (self s') = VInt 1101 /\ idmax (self s') = VInt 1100 /\
       sub_dict (self s') = Some d /\
       d !! "IDSTART" = Some (VInt 1101) /\ d !! "IDMAX" = Some (VInt 1100) /\
       d !! "IDRANGE_SIZE" = Some (VInt 0)) /\
    (is_none (idstart (self s)) || is_none (idmax (self s)) = true ->
     exists s' d,
       __setup_sub_dict P env s = (Ok tt, s') /\
       sub_dict (self s') = Some d /\
       d !! "IDRANGE_SIZE" = Some VNone).
Proof.
  intros h probe v1 v2 t H1 H2 H3. split.
  - unfold create_replica, init_info, __setup_sub_dict, find_server_root.
    run_m. cbn [history with_history with_self self fst snd].
    fold h probe. rewrite H1.
    destruct (py_truthy v1); cbn [history with_history with_self self fst snd
      idmax idstart py_sub py_add as_int is_a];
      fold h; rewrite H2; cbn [history with_history with_self self fst snd];
      rewrite <- app_assoc; cbn [app]; fold h; rewrite H3;
      cbn [history with_history with_self self fst snd py_int
           set_sub_dict sub_dict idstart idmax];
      do 2 eexists; (split; [reflexivity|]);
      cbn [history with_history with_self self fst snd py_int
           set_sub_dict sub_dict idstart idmax];
      repeat split; reflexivity.
  - intros Hnone. unfold __setup_sub_dict, find_server_root.
    run_m. cbn [history with_history with_self self fst snd].
    fold h probe. rewrite H1.
    assert (Hsize : py_sub (idmax (self s)) (idstart (self s)) = Err TypeError).
    { unfold py_sub. destruct (idstart (self s)), (idmax (self s)); try done. }
    destruct (py_truthy v1); cbn [history with_history with_self self fst snd];
      rewrite Hsize; change (is_a TypeError TypeError) with true;
      cbn [history with_history with_self self fst snd];
      fold h; rewrite H2; cbn [history with_history with_self self fst snd];
      rewrite <- app_assoc; cbn [app]; fold h; rewrite H3;
      cbn [history with_history with_self self fst snd py_int
           set_sub_dict sub_dict];
      do 2 eexists; (split; [reflexivity|]);
      cbn [history with_history with_self self fst snd py_int
           set_sub_dict sub_dict];
      split; reflexivity.
Qed.

(** ** DsInstance.add_ca_cert *)

Ltac settle :=
  cbn [negb history with_history with_logs logs self fst snd];
  rewrite <- ?app_assoc; cbn [app].

(** C10, amended.  When the CA certificate file is not readable (the
    check answers false or raises [OSError]), [add_ca_cert] returns [False]
    and the check is the only thing it did.  When the check passes,
    [stop()] is what follows: the session is asked whether it is connected,
    disconnected if it is, and then the server is stopped; an error of one
    of these calls, or of opening the database, leaves [add_ca_cert] at
    that call.  With the server stopped and the database opened, the
    certificate is loaded under the nickname with the flags [C,,].  When
    the load returns, or fails with [CalledProcessError] (which is logged
    as critical), the server is started again and the method returns
    [True], respectively [False], provided the start itself returns.  Any
    other exception of the load leaves [add_ca_cert] with the load as its
    last call: the server is not started again. *)
Theorem add_ca_cert_checks_before_stopping P env cacert_fname cacert_name s :
  let h := history s in
  let check := Access cacert_fname in
  let r := add_ca_cert P env cacert_fname cacert_name s in
  let nick := if String.eqb cacert_name "" then "Imported CA" else cacert_name in
  let db := CertDB (config_dirname P (VStr (realm_to_serverid P (realm (self s))))) in
  let load := LoadCacert cacert_fname nick "C,," in
  let down c :=
    check :: Ldap2IsConnected :: (if py_truthy c then [Ldap2Disconnect] else []) in
  ((env h check = Raises OSError \/
    exists v, env h check = Returns v /\ py_truthy v = false) ->
   r.1 = Ok false /\ history r.2 = h ++ [check]) /\
  (forall v, env h check = Returns v -> py_truthy v = true ->
   (exists rest, history r.2 = h ++ check :: Ldap2IsConnected :: rest) /\
   (forall e, env (h ++ [check]) Ldap2IsConnected = Raises e ->
      r.1 = Err e /\ history r.2 = h ++ [check; Ldap2IsConnected]) /\
   forall c,
     env (h ++ [check]) Ldap2IsConnected = Returns c ->
     (forall e, py_truthy c = true ->
        env (h ++ [check; Ldap2IsConnected]) Ldap2Disconnect = Raises e ->
        r.1 = Err e /\ history r.2 = h ++ down c) /\
     ((py_truthy c = true ->
       exists v', env (h ++ [check; Ldap2IsConnected]) Ldap2Disconnect = Returns v') ->
      (exists rest, history r.2 = h ++ down c ++ SuperStop "" :: rest) /\
      (forall e, env (h ++ down c) (SuperStop "") = Raises e ->
         r.1 = Err e /\ history r.2 = h ++ down c ++ [SuperStop ""]) /\
      forall v1,
        env (h ++ down c) (SuperStop "") = Returns v1 ->
        (forall e, env (h ++ down c ++ [SuperStop ""]) db = Raises e ->
           r.1 = Err e /\ history r.2 = h ++ down c ++ [SuperStop ""; db]) /\
        forall v2,
          env (h ++ down c ++ [SuperStop ""]) db = Returns v2 ->
          let pre := down c ++ [SuperStop ""; db; load] in
          let started (status : bool) :=
            match env (h ++ pre) (SuperStart "") with
            | Raises e => (Err e, [SuperStart ""])
            | Returns _ =>
              (match env (h ++ pre ++ [SuperStart ""]) Ldap2Connect with
               | Raises e => Err e
               | Returns _ => Ok status
               end, [SuperStart ""; Ldap2Connect])
            end in
          match env (h ++ down c ++ [SuperStop ""; db]) load with
          | Returns _ =>
            r.1 = (started true).1 /\ history r.2 = h ++ pre ++ (started true).2
          | Raises e =>
            if bool_decide (e = CalledProcessError) then
              r.1 = (started false).1 /\
              history r.2 = h ++ pre ++ (started false).2 /\
              (Critical, "Error importing CA cert file named [%s]: %s") ∈ logs r.2
            else
              r.1 = Err e /\ history r.2 = h ++ pre
          end)).
Proof.
  intros h check r nick db load down. subst r.
  assert (Hnick : (if String.eqb cacert_name "" || (String.length cacert_name =? 0)%nat
                   then "Imported CA" else cacert_name) = nick).
  { subst nick. by destruct cacert_name. }
  unfold add_ca_cert, stop, start. run_m. fold h check. rewrite Hnick. fold db load.
  split.
  - intros [->|(v & -> & Hv)].
    + by change (is_a OSError OSError) with true.
    + by rewrite Hv.
  - intros v -> ->. settle. split; [|split].
    { destruct (env (h ++ [check]) Ldap2IsConnected) as [c|e]; settle;
        [|by eexists].
      destruct (py_truthy c);
        repeat match goal with
        | |- context [env ?h ?c] => destruct (env h c); settle
        | |- context [is_a ?e ?c] => destruct (is_a e c); settle
        end;
        by eexists. }
    { intros e ->. by settle. }
    intros c ->. settle. subst down. cbn beta.
    destruct (py_truthy c) eqn:Hc; cbn [app]; settle.
    + split.
      { intros e _ ->. by settle. }
      intros Hdis. destruct (Hdis eq_refl) as [v' ->]. settle.
      split; [|split].
      * destruct (env _ (SuperStop "")); settle; [|by eexists].
        repeat match goal with
        | |- context [env ?h ?c] => destruct (env h c); settle
        | |- context [is_a ?e ?c] => destruct (is_a e c); settle
        end;
        by eexists.
      * intros e ->. by settle.
      * intros v1 ->. settle. fold db. split.
        { intros e ->. by settle. }
        intros v2 ->. settle.
        destruct (env _ load) as [v3|e3]; settle.
        -- destruct (env _ (SuperStart "")); settle; [|done].
           destruct (env _ Ldap2Connect); settle; done.
        -- unfold is_a. destruct (bool_decide (e3 = CalledProcessError));
             settle; [|done].
           destruct (env _ (SuperStart "")); settle.
           ++ destruct (env _ Ldap2Connect); settle; (split; [done|]); (split; [done|]);
                apply elem_of_app; right; by apply list_elem_of_singleton.
           ++ split; [done|]. split; [done|].
              apply elem_of_app; right; by apply list_elem_of_singleton.
    + split; [by intros e ?|]. intros _.
      split; [|split].
      * destruct (env _ (SuperStop "")); settle; [|by eexists].
        repeat match goal with
        | |- context [env ?h ?c] => destruct (env h c); settle
        | |- context [is_a ?e ?c] => destruct (is_a e c); settle
        end;
        by eexists.
      * intros e ->. by settle.
      * intros v1 ->. settle. fold db. split.
        { intros e ->. by settle. }
        intros v2 ->. settle.
        destruct (env _ load) as [v3|e3]; settle.
        -- destruct (env _ (SuperStart "")); settle; [|done].
           destruct (env _ Ldap2Connect); settle; done.
        -- unfold is_a. destruct (bool_decide (e3 = CalledProcessError));
             settle; [|done].
           destruct (env _ (SuperStart "")); settle.
           ++ destruct (env _ Ldap2Connect); settle; (split; [done|]); (split; [done|]);
                apply elem_of_app; right; by apply list_elem_of_singleton.
           ++ split; [done|]. split; [done|].
              apply elem_of_app; right; by apply list_elem_of_singleton.
Qed.

(** ** DsInstance.uninstall *)

Ltac handler_inv H :=
  match type of H with
  | (if ?b then Some _ else None) = Some _ =>
    destruct b; [injection H as <-|discriminate H]
  | (if ?b then Some _ else if ?b' then Some _ else None) = Some _ =>
    destruct b; [injection H as <-|
      destruct b'; [injection H as <-|discriminate H]]
  end.

Ltac emits_auto :=
  repeat first
    [ apply emits_ret | apply emits_raise | apply emits_lift | apply emits_log
    | apply emits_get_self | apply emits_set_self | apply emits_get_state
    | apply emits_extern; discriminate
    | apply emits_bind; [|intros ?]
    | apply emits_try_except;
      [|let H := fresh "H" in intros ? ? H; handler_inv H]
    | match goal with
      | |- emits _ (if ?b then _ else _) => destruct b
      end ].

Section UninstallTrace.

Variable P : platform.
Variable env : oracle.

Local Abbreviation other := (fun c : call => c <> Enable).

Lemma emits_remove_ds_instance_rec depth serverid force :
  emits other (remove_ds_instance_rec P env depth serverid force).
Proof.
  revert force. induction depth as [|depth IH]; intros force;
    cbn [remove_ds_instance_rec]; emits_auto; apply IH.
Qed.

Lemma emits_scan_instances dir names acc :
  emits other (scan_instances env dir names acc).
Proof.
  revert acc. induction names as [|b names IH]; intros acc;
    cbn [scan_instances]; emits_auto. apply IH.
Qed.

Lemma emits_get_ds_instances : emits other (get_ds_instances P env).
Proof.
  unfold get_ds_instances. emits_auto.
  destruct a; emits_auto. apply emits_scan_instances.
Qed.

Lemma emits_restart_instances instances :
  emits other (restart_instances P env instances).
Proof.
  induction instances as [|i instances IH]; cbn [restart_instances];
    emits_auto. apply IH.
Qed.

Lemma emits_uninstall_restore_files : emits other (uninstall_restore_files P env).
Proof. unfold uninstall_restore_files. emits_auto. Qed.

Lemma emits_remove_ds_instance serverid force :
  emits other (remove_ds_instance P env serverid force).
Proof. apply emits_remove_ds_instance_rec. Qed.

Lemma emits_uninstall_remove_instance serverid :
  emits other (uninstall_remove_instance P env serverid).
Proof.
  unfold uninstall_remove_instance, stop_tracking_certificates.
  destruct (negb (is_none serverid)); [|apply emits_ret].
  apply emits_bind; [emits_auto|intros _].
  apply emits_bind; [emits_auto|intros _].
  apply emits_try_except; [|intros ? ? H; handler_inv H; emits_auto].
  apply emits_bind; [emits_auto|intros name].
  apply emits_bind; [apply emits_remove_ds_instance|intros _].
  emits_auto.
Qed.

End UninstallTrace.

Lemma emits_run {A} p (m : M A) s r s' :
  emits p m -> m s = (r, s') ->
  exists t, history s' = history s ++ t /\ Forall p t /\ sstore s' = sstore s.
Proof. intros Hm E. specialize (Hm s). by rewrite E in Hm. Qed.

Lemma restore_state_run key s :
  exists s',
    restore_state key s = (Ok (default VNone (sstore s !! key)), s') /\
    history s' = history s /\ logs s' = logs s /\ self s' = self s /\
    sstore s' = delete key (sstore s).
Proof.
  unfold restore_state. destruct (sstore s !! key) as [v|] eqn:E.
  - by eexists.
  - exists s. by rewrite delete_id.
Qed.

Section UninstallInversion.

Variable P : platform.
Variable env : oracle.

Local Abbreviation other := (fun c : call => c <> Enable).

Lemma uninstall_ok_inv s s3 :
  uninstall P env s = (Ok tt, s3) ->
  exists t1 t2,
    history s3 = history s ++ t1
      ++ (if py_truthy (default VNone (sstore s !! "enabled"))
          then [Enable] else []) ++ t2 /\
    Forall other t1 /\ Forall other t2 /\
    sstore s3 =
      delete "nsslapd-ldapiautobind" (delete "nsslapd-security"
        (delete "nsslapd-port" (delete "user_exists" (delete "serverid"
          (delete "running" (delete "enabled" (sstore s))))))).
Proof.
  unfold uninstall. intros H.
  apply bind_inv_ok in H as (configured & sa & Ea & H).
  apply bind_inv_ok in H as (? & sb & Eb & H).
  apply bind_inv_ok in H as (enabled & sc & Ec & H).
  apply bind_inv_ok in H as (? & sd & Ed & H).
  apply bind_inv_ok in H as (? & se & Ee & H).
  apply bind_inv_ok in H as (? & sf & Ef & H).
  apply bind_inv_ok in H as (serverid & sg & Eg & H).
  apply bind_inv_ok in H as (? & sh & Eh & H).
  apply bind_inv_ok in H as (? & si & Ei & H).
  apply bind_inv_ok in H as (? & sj & Ej & H).
  apply bind_inv_ok in H as (? & sk & Ek & H).
  apply bind_inv_ok in H as (? & sl & El & H).
  apply bind_inv_ok in H as (instances & sm & Em & H).
  eapply (emits_run other) in Ea as (ta & Ha & Fa & Sa); [|by emits_auto].
  eapply (emits_run other) in Eb as (tb & Hb & Fb & Sb); [|by emits_auto].
  destruct (restore_state_run "enabled" sb) as (? & Ec' & Hc & _ & _ & Sc).
  rewrite Ec in Ec'. injection Ec' as -> <-.
  destruct (restore_state_run "running" sc) as (? & Ed' & Hd & _ & _ & Sd).
  rewrite Ed in Ed'. injection Ed' as _ <-.
  eapply emits_run in Ee as (te & He & Fe & Se);
    [|apply emits_uninstall_restore_files].
  assert (Hf : history sf = history se
            ++ (if py_truthy (default VNone (sstore sb !! "enabled"))
                then [Enable] else []) /\ sstore sf = sstore se).
  { destruct (py_truthy _).
    - apply bind_inv_ok in Ef as (? & ? & Ef & Hret).
      unfold ret in Hret. unfold extern in Ef.
      destruct (env _ _); by simplify_eq.
    - unfold ret in Ef. simplify_eq. by rewrite app_nil_r. }
  destruct Hf as [Hf Sf].
  destruct (restore_state_run "serverid" sf) as (? & Eg' & Hg & _ & _ & Sg).
  rewrite Eg in Eg'. injection Eg' as _ <-.
  eapply emits_run in Eh as (th & Hh & Fh & Sh);
    [|apply emits_uninstall_remove_instance].
  destruct (restore_state_run "user_exists" sh) as (? & Ei' & Hi & _ & _ & Si).
  rewrite Ei in Ei'. injection Ei' as _ <-.
  destruct (restore_state_run "nsslapd-port" si) as (? & Ej' & Hj & _ & _ & Sj).
  rewrite Ej in Ej'. injection Ej' as _ <-.
  destruct (restore_state_run "nsslapd-security" sj) as (? & Ek' & Hk & _ & _ & Sk).
  rewrite Ek in Ek'. injection Ek' as _ <-.
  destruct (restore_state_run "nsslapd-ldapiautobind" sk) as (? & El' & Hl & _ & _ & Sl).
  rewrite El in El'. injection El' as _ <-.
  eapply emits_run in Em as (tm & Hm & Fm & Sm);
    [|apply emits_get_ds_instances].
  eapply emits_run in H as (tn & Hn & Fn & Sn);
    [|apply emits_restart_instances].
  exists (ta ++ tb ++ te), (th ++ tm ++ tn).
  rewrite Sb, Sa in Hf.
  split; [|split; [|split]].
  - rewrite Hn, Hm, Hl, Hk, Hj, Hi, Hh, Hg, Hf, He, Hd, Hc, Hb, Ha.
    by rewrite <- !app_assoc.
  - by rewrite !Forall_app.
  - by rewrite !Forall_app.
  - by rewrite Sn, Sm, Sl, Sk, Sj, Si, Sh, Sg, Sf, Se, Sd, Sc, Sb, Sa.
Qed.

End UninstallInversion.

(** C6.  On a store with no 'enabled' record, [__enable] asks whether the
    service is enabled, records the answer under 'enabled', and only then
    disables the service.  An [uninstall] that completes on a store holding
    that record removes it, and re-enables the service if and only if the
    recorded value is true. *)
Theorem enabled_flag_backed_up_then_restored P env env' s b :
  sstore s !! "enabled" = None ->
  env (history s) IsEnabled = Returns b ->
  let r := __enable env s in
  history r.2 = history s ++ [IsEnabled; Disable] /\
  sstore r.2 !! "enabled" = Some b /\
  forall s2 s3,
    sstore s2 !! "enabled" = sstore r.2 !! "enabled" ->
    uninstall P env' s2 = (Ok tt, s3) ->
    sstore s3 !! "enabled" = None /\
    exists t, history s3 = history s2 ++ t /\
      (Enable ∈ t <-> py_truthy b = true).
Proof.
  intros Hfresh Hb r.
  assert (Hr : history r.2 = history s ++ [IsEnabled; Disable] /\
               sstore r.2 !! "enabled" = Some b).
  { subst r. unfold __enable, backup_state. run_m. rewrite Hb.
    cbn [sstore with_history history]. rewrite Hfresh.
    cbn [sstore with_history with_sstore history].
    destruct (env _ Disable); cbn [sstore with_history with_sstore history snd];
      rewrite <- app_assoc; (split; [done|]); apply lookup_insert_eq. }
  destruct Hr as [Hh Hs]. split; [done|]. split; [done|].
  intros s2 s3 Hkept Hun. rewrite Hs in Hkept.
  apply uninstall_ok_inv in Hun as (t1 & t2 & Ht & F1 & F2 & St).
  rewrite Hkept in Ht. cbn [default from_option id] in Ht. split.
  - rewrite St. rewrite !lookup_delete_ne by done. apply lookup_delete_eq.
  - eexists. split; [exact Ht|]. rewrite !elem_of_app.
    rewrite Forall_forall in F1, F2.
    destruct (py_truthy b).
    + split; [done|]. intros _. right. left. by apply list_elem_of_singleton.
    + split; [|done]. intros [H|[H|H]].
      * by apply F1 in H.
      * by apply elem_of_nil in H.
      * by apply F2 in H.
Qed.

(** *** Best-effort clean-up *)

Section BestEffort.

Variable P : platform.
Variable env : oracle.
Hypothesis tolerated : cleanup_failures_only P env.

Lemma returns_ret {A} (a : A) : returns (ret a).
Proof. intros s. by exists a, s. Qed.

Lemma returns_log lvl msg : returns (log lvl msg).
Proof. intros s. by eexists _, _. Qed.

Lemma returns_get_self : returns get_self.
Proof. intros s. by eexists _, _. Qed.

Lemma returns_get_state k : returns (get_state k).
Proof. intros s. unfold get_state. destruct (sstore s !! k); by eexists _, _. Qed.

Lemma returns_bind {A B} (m : M A) (k : A -> M B) :
  returns m -> (forall a, returns (k a)) -> returns (bind m k).
Proof.
  intros Hm Hk s. destruct (Hm s) as (a & s1 & E).
  rewrite (bind_ok _ _ _ _ _ E). apply Hk.
Qed.

Lemma returns_extern c :
  match c with
  | Run _ | FstoreRestoreFile _ | DirsrvRestart _ _ => False
  | _ => True
  end ->
  returns (extern env c).
Proof.
  intros Hc s. unfold extern. specialize (tolerated (history s) c).
  destruct (env (history s) c); [by eexists _, _|]. by destruct c.
Qed.

Ltac returns_auto :=
  repeat first
    [ apply returns_ret | apply returns_log | apply returns_get_self
    | apply returns_get_state
    | apply returns_extern; exact I
    | apply returns_bind; [|intros ?]
    | match goal with
      | |- returns (if ?b then _ else _) => destruct b
      end ].

Lemma returns_uninstall_restore_files : returns (uninstall_restore_files P env).
Proof.
  intros s. unfold uninstall_restore_files. run_m.
  pose proof (tolerated (history s) (FstoreRestoreFile (LIMITS_CONF P))) as H1.
  destruct (env (history s) _) as [v1|e1]; cbn [history with_history].
  - pose proof (tolerated (history s ++ [FstoreRestoreFile (LIMITS_CONF P)])
                  (FstoreRestoreFile (SYSCONFIG_DIRSRV P))) as H2.
    destruct (env _ _) as [v2|e2]; [by eexists _, _|].
    subst e2. change (is_a ValueError ValueError) with true. by eexists _, _.
  - subst e1. change (is_a ValueError ValueError) with true. by eexists _, _.
Qed.

Lemma remove_ds_instance_rec_outcome n serverid s :
  exists s',
    remove_ds_instance_rec P env (S (S n)) serverid false s = (Ok tt, s') \/
    remove_ds_instance_rec P env (S (S n)) serverid false s
      = (Err CalledProcessError, s').
Proof.
  cbn [remove_ds_instance_rec]. run_m.
  match goal with |- context [env ?h ?c] =>
    pose proof (tolerated h c) as H1; destruct (env h c) as [v1|e1] end.
  - eexists. by left.
  - subst e1. change (is_a CalledProcessError CalledProcessError) with true.
    cbn [history with_history with_logs].
    match goal with |- context [env ?h ?c] =>
      pose proof (tolerated h c) as H2; destruct (env h c) as [v2|e2] end.
    + eexists. by left.
    + subst e2. change (is_a CalledProcessError CalledProcessError) with true.
      eexists. by right.
Qed.

Lemma returns_uninstall_remove_instance serverid :
  (serverid = VNone \/ exists name, serverid = VStr name) ->
  returns (uninstall_remove_instance P env serverid).
Proof.
  intros [->|[name ->]]; unfold uninstall_remove_instance; cbn [is_none negb].
  - apply returns_ret.
  - apply returns_bind; [unfold stop_tracking_certificates; cbn [is_none negb];
                         returns_auto|intros _].
    apply returns_bind; [returns_auto|intros _].
    intros s. unfold try_except, as_str, lift, remove_ds_instance.
    rewrite (bind_ok _ _ _ _ _ eq_refl).
    change recursion_limit with (S (S 998)).
    destruct (remove_ds_instance_rec_outcome 998 name s) as (s1 & [E|E]).
    + rewrite (bind_ok _ _ _ _ _ E).
      assert (Hrest : returns (extern env (RemoveKeytab (DS_KEYTAB P)) ;;;
                               extern env (RemoveCcache (DS_USER P)) ;;; ret tt))
        by returns_auto.
      destruct (Hrest s1) as ([] & s2 & ->). by eexists _, _.
    + rewrite (bind_err _ _ _ _ _ E).
      change (is_a CalledProcessError CalledProcessError) with true.
      by eexists _, _.
Qed.

Lemma returns_scan_instances dir names acc :
  returns (scan_instances env dir names acc).
Proof.
  revert acc. induction names as [|b names IH]; intros acc;
    cbn [scan_instances]; returns_auto. apply IH.
Qed.

Lemma returns_get_ds_instances : returns (get_ds_instances P env).
Proof.
  intros s. unfold get_ds_instances. unfold bind at 1, extern.
  pose proof (tolerated (history s) (Listdir (ETC_DIRSRV P))) as H.
  destruct (env _ _) as [v|e]; [|done]. destruct H as [l ->].
  destruct (returns_scan_instances (ETC_DIRSRV P) l []
              (with_history (history s ++ [Listdir (ETC_DIRSRV P)]) s))
    as (l' & s' & E).
  rewrite (bind_ok _ _ _ _ _ E). by eexists _, _.
Qed.

Lemma restart_instances_all instances s :
  exists s',
    restart_instances P env instances s = (Ok tt, s') /\
    history s' = history s ++ ((fun i => DirsrvRestart i false) <$> instances).
Proof.
  revert s. induction instances as [|i instances IH]; intros s.
  - exists s. by rewrite app_nil_r.
  - cbn [restart_instances]. unfold bind at 1, try_except.
    unfold bind at 1, extern, ret.
    pose proof (tolerated (history s) (DirsrvRestart i false)) as H.
    destruct (env _ _) as [v|e].
    + edestruct IH as (s' & -> & Hh). exists s'. split; [done|].
      rewrite Hh. cbn [history with_history fmap list_fmap].
      by rewrite <- app_assoc.
    + rewrite H. unfold log.
      edestruct IH as (s' & -> & Hh). exists s'. split; [done|].
      rewrite Hh. cbn [history with_history with_logs fmap list_fmap].
      by rewrite <- app_assoc.
Qed.

End BestEffort.

Ltac returns_with H :=
  repeat first
    [ apply returns_ret | apply returns_log | apply returns_get_self
    | apply returns_get_state
    | eapply returns_extern; [exact H|exact I]
    | apply returns_bind; [|intros ?]
    | match goal with
      | |- returns (if ?b then _ else _) => destruct b
      end ].

(** *** Calls that raised *)

Lemma raised_nil env h c e : ~ raised env h [] c e.
Proof. intros (before & after & H & _). by destruct before. Qed.

Lemma raised_cons env h x t c e :
  raised env h (x :: t) c e ->
  (c = x /\ env h x = Raises e) \/ raised env (h ++ [x]) t c e.
Proof.
  intros (before & after & H & He). destruct before as [|y before].
  - injection H as -> ->. left. by rewrite app_nil_r in He.
  - injection H as -> ->. right. exists before, after. split; [done|].
    by rewrite <- app_assoc.
Qed.

Lemma raised_app env h t1 t2 c e :
  raised env h (t1 ++ t2) c e ->
  raised env h t1 c e \/ raised env (h ++ t1) t2 c e.
Proof.
  revert h. induction t1 as [|x t1 IH]; intros h H.
  - right. by rewrite app_nil_r.
  - cbn [app] in H. apply raised_cons in H as [[-> He]|H].
    + left. exists [], t1. by rewrite app_nil_r.
    + apply IH in H as [(before & after & -> & He)|H].
      * left. exists (x :: before), after. split; [done|].
        by rewrite <- app_assoc in He.
      * right. by rewrite <- app_assoc in H.
Qed.

Lemma noted_app_l c t1 t2 l1 l2 : noted c t1 l1 -> noted c (t1 ++ t2) (l1 ++ l2).
Proof.
  destruct c; cbn [noted]; try done; try (intros H; apply elem_of_app; by left).
  destruct (bool_decide _); [intros H; apply elem_of_app; by left|].
  intros (pre & post & ->). exists pre, (post ++ t2). by rewrite <- app_assoc.
Qed.

Lemma noted_app_r c t1 t2 l1 l2 : noted c t2 l2 -> noted c (t1 ++ t2) (l1 ++ l2).
Proof.
  destruct c; cbn [noted]; try done; try (intros H; apply elem_of_app; by right).
  destruct (bool_decide _); [intros H; apply elem_of_app; by right|].
  intros (pre & post & ->). exists (t1 ++ pre), post. by rewrite <- app_assoc.
Qed.

Section Audit.

Variable P : platform.
Variable env : oracle.

Lemma audited_quiet {A} (m : M A) :
  (forall s, history (m s).2 = history s /\ exists l, logs (m s).2 = logs s ++ l) ->
  audited env m.
Proof.
  intros H s. destruct (H s) as [Hh [l Hl]]. exists [], l.
  rewrite app_nil_r. split; [done|]. split; [done|].
  intros c e Hr. by apply raised_nil in Hr.
Qed.

Lemma audited_ret {A} (a : A) : audited env (ret a).
Proof. apply audited_quiet. intros s. split; [done|]. exists []. by rewrite app_nil_r. Qed.

Lemma audited_raise {A} e : audited env (@raise A e).
Proof. apply audited_quiet. intros s. split; [done|]. exists []. by rewrite app_nil_r. Qed.

Lemma audited_log lvl msg : audited env (log lvl msg).
Proof. apply audited_quiet. intros s. split; [done|]. by eexists. Qed.

Lemma audited_restore_state key : audited env (restore_state key).
Proof.
  apply audited_quiet. intros s.
  destruct (restore_state_run key s) as (s' & -> & Hh & Hl & _).
  split; [done|]. exists []. by rewrite app_nil_r.
Qed.

Lemma audited_extern c :
  match c with
  | Run _ | FstoreRestoreFile _ | DirsrvRestart _ _ => False
  | _ => True
  end ->
  audited env (extern env c).
Proof.
  intros Hc s. exists [c], []. unfold extern.
  destruct (env (history s) c); cbn [history with_history logs snd];
    rewrite app_nil_r; (split; [done|]); (split; [done|]);
    intros c' e' Hr; apply raised_cons in Hr as [[-> _]|Hr];
    try (by apply raised_nil in Hr); by destruct c.
Qed.

Lemma audited_bind {A B} (m : M A) (k : A -> M B) :
  audited env m -> (forall a, audited env (k a)) -> audited env (bind m k).
Proof.
  intros Hm Hk s. unfold bind.
  destruct (Hm s) as (t1 & l1 & H1 & L1 & N1).
  destruct (m s) as [[a|e] s1]; cbn [snd] in H1, L1.
  - destruct (Hk a s1) as (t2 & l2 & H2 & L2 & N2).
    exists (t1 ++ t2), (l1 ++ l2). rewrite H2, H1, L2, L1, !app_assoc.
    split; [done|]. split; [done|].
    intros c e' Hr. apply raised_app in Hr as [Hr|Hr].
    + by apply noted_app_l, (N1 c e').
    + apply noted_app_r, (N2 c e'). by rewrite H1.
  - by exists t1, l1.
Qed.

Hypothesis tolerated : cleanup_failures_only P env.

Lemma audited_uninstall_restore_files : audited env (uninstall_restore_files P env).
Proof.
  intros s. unfold uninstall_restore_files. run_m.
  set (h := history s).
  set (first := FstoreRestoreFile (LIMITS_CONF P)).
  set (second := FstoreRestoreFile (SYSCONFIG_DIRSRV P)).
  pose proof (tolerated h first) as H1.
  destruct (env h first) as [v1|e1] eqn:E1; cbn [history with_history].
  - pose proof (tolerated (h ++ [first]) second) as H2.
    destruct (env (h ++ [first]) second) as [v2|e2] eqn:E2.
    + exists [first; second], []. cbn [history with_history with_logs logs snd].
      rewrite <- app_assoc, app_nil_r. split; [done|]. split; [done|].
      intros c e Hr.
      apply raised_cons in Hr as [[-> He]|Hr]; [congruence|].
      apply raised_cons in Hr as [[-> He]|Hr]; [congruence|].
      by apply raised_nil in Hr.
    + unfold second in H2. subst e2. change (is_a ValueError ValueError) with true.
      exists [first; second], [(Debug, "%s")].
      cbn [history with_history with_logs logs snd].
      rewrite <- app_assoc. split; [done|]. split; [done|].
      intros c e Hr.
      apply raised_cons in Hr as [[-> He]|Hr]; [congruence|].
      apply raised_cons in Hr as [[-> He]|Hr];
        [by apply list_elem_of_singleton|].
      by apply raised_nil in Hr.
  - unfold first in H1. subst e1. change (is_a ValueError ValueError) with true.
    exists [first], [(Debug, "%s")]. cbn [history with_history with_logs logs snd].
    split; [done|]. split; [done|].
    intros c e Hr.
    apply raised_cons in Hr as [[-> He]|Hr];
      [by apply list_elem_of_singleton|].
    by apply raised_nil in Hr.
Qed.

Lemma audited_get_self : audited env get_self.
Proof. apply audited_quiet. intros s. split; [done|]. exists []. by rewrite app_nil_r. Qed.

Lemma audited_get_state key : audited env (get_state key).
Proof.
  apply audited_quiet. intros s. unfold get_state.
  destruct (sstore s !! key); (split; [done|]); exists []; by rewrite app_nil_r.
Qed.

Lemma audited_lift {A} (r : result A) : audited env (lift r).
Proof. apply audited_quiet. intros s. split; [done|]. exists []. by rewrite app_nil_r. Qed.

Ltac audited_auto :=
  repeat first
    [ apply audited_ret | apply audited_log | apply audited_get_self
    | apply audited_get_state | apply audited_restore_state | apply audited_lift
    | apply audited_extern; exact I
    | apply audited_bind; [|intros ?]
    | match goal with
      | |- audited _ (if ?b then _ else _) => destruct b
      end ].

Lemma plain_not_forced (tool name : string) :
  last [tool; "-i"; DS_INSTANCE_PREFIX +:+ name] <> Some "-f".
Proof. cbn [last]. intros H. inversion H. Qed.

(** The [try] statement around the removal of the instance. *)
Lemma audited_removal name :
  audited env
    (try_except
       (let* name := lift (as_str (VStr name)) in
        remove_ds_instance P env name false ;;;
        extern env (RemoveKeytab (DS_KEYTAB P)) ;;;
        extern env (RemoveCcache (DS_USER P)) ;;;
        ret tt)
       (fun e =>
          if is_a e CalledProcessError
          then Some (log Error "Failed to remove DS instance. You may need to remove instance data manually")
          else None)).
Proof.
  intros s. unfold remove_ds_instance.
  change recursion_limit with (S (S 998)). cbn [remove_ds_instance_rec].
  run_m.
  cbn [as_str str_join String.concat app history with_history with_logs self].
  change (DS_INSTANCE_PREFIX +:+ "" +:+ name) with (DS_INSTANCE_PREFIX +:+ name).
  set (h := history s).
  set (plain := [REMOVE_DS_PL P; "-i"; DS_INSTANCE_PREFIX +:+ name]).
  set (forced := [REMOVE_DS_PL P; "-i"; DS_INSTANCE_PREFIX +:+ name; "-f"]).
  set (keytab := RemoveKeytab (DS_KEYTAB P)).
  set (ccache := RemoveCcache (DS_USER P)).
  assert (Hplain : bool_decide (last plain = Some "-f") = false).
  { apply bool_decide_eq_false_2, plain_not_forced. }
  assert (Hquiet : forall h' c v e,
            env h' c = Returns v -> env h' c = Raises e -> False) by congruence.
  pose proof (tolerated h (Run plain)) as T1.
  destruct (env h (Run plain)) as [v1|e1] eqn:E1;
    cbn [history with_history with_logs logs fst snd].
  - pose proof (tolerated (h ++ [Run plain]) keytab) as T2.
    destruct (env (h ++ [Run plain]) keytab) as [v2|e2] eqn:E2; [|done].
    cbn [history with_history with_logs logs fst snd].
    rewrite <- app_assoc. cbn [app].
    pose proof (tolerated (h ++ [Run plain; keytab]) ccache) as T3.
    destruct (env (h ++ [Run plain; keytab]) ccache) as [v3|e3] eqn:E3; [|done].
    cbn [history with_history with_logs logs fst snd].
    rewrite <- app_assoc. cbn [app].
    exists [Run plain; keytab; ccache], []. rewrite app_nil_r.
    split; [done|]. split; [done|]. intros c e Hr.
    repeat (apply raised_cons in Hr as [[-> He]|Hr];
            [exfalso; rewrite <- ?app_assoc in He; cbn [app] in He; congruence|]).
    by apply raised_nil in Hr.
  - cbn in T1. subst e1. change (is_a CalledProcessError CalledProcessError) with true.
    cbn [history with_history with_logs logs fst snd].
    rewrite <- ?app_assoc. cbn [app]. fold forced.
    pose proof (tolerated (h ++ [Run plain]) (Run forced)) as T2.
    destruct (env (h ++ [Run plain]) (Run forced)) as [v2|e2] eqn:E2;
      cbn [history with_history with_logs logs fst snd];
      rewrite <- ?app_assoc; cbn [app].
    + pose proof (tolerated (h ++ [Run plain; Run forced]) keytab) as T3.
      destruct (env (h ++ [Run plain; Run forced]) keytab) as [v3|e3] eqn:E3; [|done].
      cbn [history with_history with_logs logs fst snd].
      rewrite <- ?app_assoc. cbn [app].
      pose proof (tolerated (h ++ [Run plain; Run forced; keytab]) ccache) as T4.
      destruct (env (h ++ [Run plain; Run forced; keytab]) ccache) as [v4|e4] eqn:E4;
        [|done].
      cbn [history with_history with_logs logs fst snd].
      rewrite <- ?app_assoc. cbn [app].
      eexists [Run plain; Run forced; keytab; ccache], _.
      split; [done|]. split; [reflexivity|]. intros c e Hr.
      apply raised_cons in Hr as [[-> He]|Hr].
      { cbn [noted]. rewrite Hplain. by exists [], [keytab; ccache]. }
      repeat (apply raised_cons in Hr as [[-> He]|Hr];
              [exfalso; rewrite <- ?app_assoc in He; cbn [app] in He; congruence|]).
      by apply raised_nil in Hr.
    + cbn in T2. subst e2. change (is_a CalledProcessError CalledProcessError) with true.
      cbn [history with_history with_logs logs fst snd].
      rewrite <- ?app_assoc. cbn [app].
      change (is_a CalledProcessError CalledProcessError) with true.
      cbn [history with_history with_logs logs fst snd].
      rewrite <- ?app_assoc. cbn [app].
      eexists [Run plain; Run forced], _.
      split; [done|]. split; [reflexivity|]. intros c e Hr.
      apply raised_cons in Hr as [[-> He]|Hr].
      { cbn [noted]. rewrite Hplain. by exists [], []. }
      apply raised_cons in Hr as [[-> He]|Hr].
      { cbn [noted]. rewrite bool_decide_eq_true_2 by done.
        rewrite !elem_of_cons. do 3 right. by left. }
      by apply raised_nil in Hr.
Qed.

Lemma audited_uninstall_remove_instance serverid :
  audited env (uninstall_remove_instance P env serverid).
Proof.
  unfold uninstall_remove_instance.
  destruct (negb (is_none serverid)); [|apply audited_ret].
  apply audited_bind.
  { unfold stop_tracking_certificates. audited_auto. }
  intros _. apply audited_bind; [apply audited_log|intros _].
  destruct serverid as [| | |name| | |];
    try (intros s; exists [], []; rewrite !app_nil_r;
         (split; [reflexivity|]); (split; [reflexivity|]);
         intros ? ? Hr; by apply raised_nil in Hr).
  apply audited_removal.
Qed.

Lemma audited_restart_instances instances :
  audited env (restart_instances P env instances).
Proof.
  induction instances as [|i instances IH]; cbn [restart_instances].
  - apply audited_ret.
  - apply audited_bind; [|intros _; apply IH].
    intros s. run_m.
    pose proof (tolerated (history s) (DirsrvRestart i false)) as T.
    destruct (env (history s) (DirsrvRestart i false)) as [v|e] eqn:E;
      cbn [history with_history with_logs logs fst snd].
    + exists [DirsrvRestart i false], []. rewrite app_nil_r.
      split; [done|]. split; [done|]. intros c e Hr.
      apply raised_cons in Hr as [[-> He]|Hr]; [congruence|].
      by apply raised_nil in Hr.
    + cbn in T. rewrite T. cbn [history with_history with_logs logs fst snd].
      exists [DirsrvRestart i false], [(Error, "Unable to restart DS instance %s: %s")].
      split; [done|]. split; [done|]. intros c e' Hr.
      apply raised_cons in Hr as [[-> He]|Hr];
        [by apply list_elem_of_singleton|].
      by apply raised_nil in Hr.
Qed.

Lemma audited_scan_instances dir names acc :
  audited env (scan_instances env dir names acc).
Proof.
  revert acc. induction names as [|b names IH]; intros acc;
    cbn [scan_instances]; audited_auto. apply IH.
Qed.

Lemma audited_get_ds_instances : audited env (get_ds_instances P env).
Proof.
  unfold get_ds_instances. audited_auto.
  destruct a; try apply audited_raise.
  audited_auto. apply audited_scan_instances.
Qed.

Lemma audited_uninstall : audited env (uninstall P env).
Proof.
  unfold uninstall.
  apply audited_bind; [audited_auto|intros configured].
  apply audited_bind; [audited_auto|intros _].
  apply audited_bind; [audited_auto|intros enabled].
  apply audited_bind; [audited_auto|intros _].
  apply audited_bind; [apply audited_uninstall_restore_files|intros _].
  apply audited_bind; [audited_auto|intros _].
  apply audited_bind; [audited_auto|intros serverid].
  apply audited_bind; [apply audited_uninstall_remove_instance|intros _].
  do 4 (apply audited_bind; [audited_auto|intros _]).
  apply audited_bind; [apply audited_get_ds_instances|intros instances].
  apply audited_restart_instances.
Qed.

End Audit.

Section UninstallBlocks.

Variable P : platform.
Variable env : oracle.
Variable p : call -> Prop.

Lemma emits_scan_instances_when dir names acc :
  (forall x, p (Isdir x)) -> emits p (scan_instances env dir names acc).
Proof.
  intros Hp. revert acc. induction names as [|b names IH]; intros acc;
    cbn [scan_instances].
  - apply emits_ret.
  - apply emits_bind; [by apply emits_extern|intros d]. apply IH.
Qed.

Lemma emits_get_ds_instances_when :
  (forall d, p (Listdir d)) -> (forall x, p (Isdir x)) ->
  emits p (get_ds_instances P env).
Proof.
  intros Hl Hd. unfold get_ds_instances.
  apply emits_bind; [by apply emits_extern|intros listing].
  destruct listing; try apply emits_raise.
  apply emits_bind; [by apply emits_scan_instances_when|intros found].
  apply emits_ret.
Qed.

Lemma emits_restart_instances_when instances :
  (forall i, p (DirsrvRestart i false)) ->
  emits p (restart_instances P env instances).
Proof.
  intros Hp. induction instances as [|i instances IH]; cbn [restart_instances].
  - apply emits_ret.
  - apply emits_bind; [|intros _; apply IH].
    apply emits_try_except.
    + apply emits_bind; [by apply emits_extern|intros _; apply emits_ret].
    + intros e m' H. handler_inv H. apply emits_log.
Qed.

Lemma emits_uninstall_restore_files_when :
  (forall f, p (FstoreRestoreFile f)) ->
  emits p (uninstall_restore_files P env).
Proof.
  intros Hp. unfold uninstall_restore_files. apply emits_try_except.
  - apply emits_bind; [by apply emits_extern|intros _].
    apply emits_bind; [by apply emits_extern|intros _]. apply emits_ret.
  - intros e m' H. handler_inv H. apply emits_log.
Qed.

End UninstallBlocks.

(** *** Calls outside the handlers *)

Section Fatal.

Variable P : platform.
Variable env : oracle.
Variable q : call -> Prop.

Lemma fatal_quiet {A} (m : M A) :
  (forall s, history (m s).2 = history s) -> fatal env q m.
Proof.
  intros H s. exists []. rewrite app_nil_r. split; [done|].
  intros before c after e Ht. by destruct before.
Qed.

Lemma fatal_of_emits {A} (m : M A) :
  emits (fun c => ~ q c) m -> fatal env q m.
Proof.
  intros Hm s. destruct (Hm s) as (t & Hh & Hf & _). exists t. split; [done|].
  intros before c after e -> _ Hq. exfalso.
  rewrite Forall_app, Forall_cons in Hf. by destruct Hf as (_ & Hc & _).
Qed.

Lemma fatal_extern c : fatal env q (extern env c).
Proof.
  intros s. exists [c]. split.
  - unfold extern. by destruct (env (history s) c).
  - intros before c' after e' Ht He _. destruct before as [|x before].
    + injection Ht as <- <-. rewrite app_nil_r in He. unfold extern. by rewrite He.
    + injection Ht as _ Ht. by destruct before.
Qed.

Lemma fatal_bind {A B} (m : M A) (k : A -> M B) :
  fatal env q m -> (forall a, fatal env q (k a)) -> fatal env q (bind m k).
Proof.
  intros Hm Hk s. unfold bind.
  destruct (Hm s) as (t1 & H1 & F1).
  destruct (m s) as [[a|e] s1]; cbn [fst snd] in H1, F1.
  - destruct (Hk a s1) as (t2 & H2 & F2).
    exists (t1 ++ t2). rewrite H2, H1, app_assoc. split; [done|].
    intros before c after e' Ht He Hq.
    apply app_eq_app in Ht as [l' [[-> Ht]|[-> Ht]]].
    + destruct l' as [|x l'].
      * rewrite app_nil_r in H1. cbn [app] in Ht. subst t2.
        apply (F2 [] c after e' eq_refl); [|done]. by rewrite H1, app_nil_r.
      * injection Ht as -> ->.
        destruct (F1 before x l' e' eq_refl He Hq) as [? _]. discriminate.
    + apply (F2 l' c after e' Ht); [|done].
      by rewrite H1, <- app_assoc.
  - exists t1. split; [done|]. intros before c after e' Ht He Hq.
    destruct (F1 before c after e' Ht He Hq) as [[= ->] ->]. done.
Qed.

Lemma fatal_scan_instances dir names acc :
  fatal env q (scan_instances env dir names acc).
Proof.
  revert acc. induction names as [|b names IH]; intros acc; cbn [scan_instances].
  - by apply fatal_quiet.
  - apply fatal_bind; [apply fatal_extern|intros d]. apply IH.
Qed.

End Fatal.

Section Unguarded.

Variable P : platform.
Variable env : oracle.

(** The calls that [uninstall] makes outside its three [try] statements. *)
Local Abbreviation bare := (fun c : call =>
  match c with
  | IsConfigured | PrintMsg _ | Enable | CertDB _ | UntrackServerCert _
  | Listdir _ | Isdir _ => True
  | _ => False
  end).

Lemma emits_remove_ds_instance_rec_when (p : call -> Prop) depth serverid force :
  (forall args, p (Run args)) ->
  emits p (remove_ds_instance_rec P env depth serverid force).
Proof.
  intros Hp. revert force. induction depth as [|depth IH]; intros force;
    cbn [remove_ds_instance_rec].
  - apply emits_raise.
  - apply emits_bind.
    { destruct force; [|apply emits_ret].
      apply emits_bind; [apply emits_log|intros _; apply emits_ret]. }
    intros args. apply emits_try_except.
    + apply emits_bind; [by apply emits_extern|intros _; apply emits_ret].
    + intros e m' H. handler_inv H.
      apply emits_bind.
      { destruct force; [|apply emits_ret].
        apply emits_bind; [apply emits_log|intros _; apply emits_raise]. }
      intros _. apply emits_bind; [apply emits_log|intros _]. apply IH.
Qed.

Ltac fatal_auto :=
  repeat first
    [ apply fatal_extern
    | apply fatal_quiet; intros ?; reflexivity
    | apply fatal_bind; [|intros ?]
    | match goal with
      | |- fatal _ _ (if ?b then _ else _) => destruct b
      end ].

Lemma fatal_restore_state q key : fatal env q (restore_state key).
Proof.
  apply fatal_quiet. intros s.
  by destruct (restore_state_run key s) as (s' & -> & Hh & _).
Qed.

Lemma fatal_get_state q key : fatal env q (get_state key).
Proof.
  apply fatal_quiet. intros s. unfold get_state. by destruct (sstore s !! key).
Qed.

Lemma fatal_uninstall : fatal env bare (uninstall P env).
Proof.
  unfold uninstall.
  apply fatal_bind; [fatal_auto|intros configured].
  apply fatal_bind; [fatal_auto|intros _].
  apply fatal_bind; [apply fatal_restore_state|intros enabled].
  apply fatal_bind; [apply fatal_restore_state|intros _].
  apply fatal_bind.
  { apply fatal_of_emits, emits_uninstall_restore_files_when. intros f []. }
  intros _. apply fatal_bind; [fatal_auto|intros _].
  apply fatal_bind; [apply fatal_restore_state|intros serverid].
  apply fatal_bind.
  { unfold uninstall_remove_instance.
    destruct (negb (is_none serverid)); [|fatal_auto].
    apply fatal_bind.
    { unfold stop_tracking_certificates.
      apply fatal_bind.
      { destruct (is_none serverid); [apply fatal_get_state|fatal_auto]. }
      intros sid. destruct (negb (is_none sid)); fatal_auto. }
    intros _. apply fatal_bind; [fatal_auto|intros _].
    apply fatal_of_emits, emits_try_except.
    - apply emits_bind; [apply emits_lift|intros name].
      apply emits_bind.
      { apply emits_remove_ds_instance_rec_when. intros args []. }
      intros _. emits_auto; apply emits_extern; intros [].
    - intros e m' H. handler_inv H. apply emits_log. }
  intros _.
  do 4 (apply fatal_bind; [apply fatal_restore_state|intros _]).
  apply fatal_bind.
  { unfold get_ds_instances. apply fatal_bind; [apply fatal_extern|intros listing].
    destruct listing; try (apply fatal_quiet; intros ?; reflexivity).
    apply fatal_bind; [apply fatal_scan_instances|intros found].
    by apply fatal_quiet. }
  intros instances.
  apply fatal_of_emits, emits_restart_instances_when. intros i [].
Qed.

End Unguarded.

(** *** What a completed uninstall has called *)

Ltac emits_any :=
  repeat first
    [ apply emits_ret | apply emits_raise | apply emits_lift | apply emits_log
    | apply emits_get_self | apply emits_get_state
    | apply emits_extern; exact I
    | apply emits_bind; [|intros ?]
    | match goal with
      | |- emits _ (if ?b then _ else _) => destruct b
      end ].

Section UninstallCalls.

Variable P : platform.
Variable env : oracle.

Lemma uninstall_restore_files_first s :
  exists rest,
    history (uninstall_restore_files P env s).2
      = history s ++ FstoreRestoreFile (LIMITS_CONF P) :: rest.
Proof.
  unfold uninstall_restore_files. run_m.
  destruct (env (history s) _) as [v1|e1]; cbn [history with_history].
  - destruct (env _ _) as [v2|e2]; [|destruct (is_a e2 ValueError)];
      cbn [history with_history with_logs snd]; rewrite <- app_assoc; by eexists.
  - destruct (is_a e1 ValueError); cbn [history with_history with_logs snd];
      by eexists.
Qed.

Lemma remove_ds_instance_first name s :
  exists rest,
    history (remove_ds_instance P env name false s).2
      = history s ++ Run [REMOVE_DS_PL P; "-i"; DS_INSTANCE_PREFIX +:+ name] :: rest.
Proof.
  unfold remove_ds_instance. change recursion_limit with (S (S 998)).
  cbn [remove_ds_instance_rec]. run_m. cbn [str_join String.concat app].
  change (DS_INSTANCE_PREFIX +:+ "" +:+ name) with (DS_INSTANCE_PREFIX +:+ name).
  destruct (env (history s) _) as [v1|e1]; cbn [history with_history with_logs snd];
    [by eexists|].
  destruct (is_a e1 CalledProcessError); cbn [history with_history with_logs snd];
    [|by eexists].
  destruct (env _ _) as [v2|e2]; cbn [history with_history with_logs snd];
    [rewrite <- app_assoc; by eexists|].
  destruct (is_a e2 CalledProcessError); cbn [history with_history with_logs snd];
    rewrite <- app_assoc; by eexists.
Qed.

Lemma uninstall_remove_instance_runs_tool name s s' :
  uninstall_remove_instance P env (VStr name) s = (Ok tt, s') ->
  exists pre post,
    history s' = history s ++ pre
      ++ Run [REMOVE_DS_PL P; "-i"; DS_INSTANCE_PREFIX +:+ name] :: post.
Proof.
  unfold uninstall_remove_instance. cbn [is_none negb]. intros H.
  apply bind_inv_ok in H as ([] & s1 & E1 & H).
  apply bind_inv_ok in H as ([] & s2 & E2 & H).
  eapply (emits_run (fun _ => True)) in E1 as (t1 & H1 & _ & _).
  2:{ unfold stop_tracking_certificates. emits_any. }
  injection E2 as <-.
  assert (Hbody : exists rest,
    history s' = history s1
      ++ Run [REMOVE_DS_PL P; "-i"; DS_INSTANCE_PREFIX +:+ name] :: rest).
  { revert H. unfold try_except, as_str, lift. unfold bind at 1.
    cbn [history with_logs].
    unfold bind at 1.
    destruct (remove_ds_instance_first name (with_logs (logs s1 ++ [(Debug, "Removing DS instance %s")]) s1))
      as [rest Hrest].
    destruct (remove_ds_instance P env name false _) as [[[]|e] s3];
      cbn [snd history with_logs] in Hrest.
    - intros H.
      destruct ((extern env (RemoveKeytab (DS_KEYTAB P)) ;;;
                 extern env (RemoveCcache (DS_USER P)) ;;; ret tt) s3)
        as [r4 s4] eqn:E3.
      eapply (emits_run (fun _ => True)) in E3 as (t3 & H3 & _ & _); [|emits_any].
      assert (Hsame : history s' = history s4).
      { destruct r4 as [u|e']; [by simplify_eq|].
        destruct (is_a e' CalledProcessError); [|discriminate].
        unfold log in H. by injection H as <-. }
      rewrite Hsame, H3, Hrest, <- app_assoc. by eexists.
    - destruct (is_a e CalledProcessError); [|discriminate].
      unfold log. intros [= <-]. cbn [history with_logs]. by eexists. }
  destruct Hbody as [rest Hrest]. exists t1, rest.
  by rewrite Hrest, H1, <- app_assoc.
Qed.

Lemma uninstall_ok_calls s s3 :
  uninstall P env s = (Ok tt, s3) ->
  exists t instances s1 s2,
    sstore s1 = sstore s3 /\
    get_ds_instances P env s1 = (Ok instances, s2) /\
    history s2 = history s ++ t /\
    restart_instances P env instances s2 = (Ok tt, s3) /\
    FstoreRestoreFile (LIMITS_CONF P) ∈ t /\
    (forall name, sstore s !! "serverid" = Some (VStr name) ->
       Run [REMOVE_DS_PL P; "-i"; DS_INSTANCE_PREFIX +:+ name] ∈ t).
Proof.
  unfold uninstall. intros H.
  apply bind_inv_ok in H as (configured & sa & Ea & H).
  apply bind_inv_ok in H as (? & sb & Eb & H).
  apply bind_inv_ok in H as (enabled & sc & Ec & H).
  apply bind_inv_ok in H as (? & sd & Ed & H).
  apply bind_inv_ok in H as (? & se & Ee & H).
  apply bind_inv_ok in H as (? & sf & Ef & H).
  apply bind_inv_ok in H as (serverid & sg & Eg & H).
  apply bind_inv_ok in H as ([] & sh & Eh & H).
  apply bind_inv_ok in H as (? & si & Ei & H).
  apply bind_inv_ok in H as (? & sj & Ej & H).
  apply bind_inv_ok in H as (? & sk & Ek & H).
  apply bind_inv_ok in H as (? & sl & El & H).
  apply bind_inv_ok in H as (instances & sm & Em & H).
  eapply (emits_run (fun _ => True)) in Ea as (ta & Ha & _ & Sa);
    [|by apply emits_extern].
  eapply (emits_run (fun _ => True)) in Eb as (tb & Hb & _ & Sb).
  2:{ destruct (py_truthy configured); [|apply emits_ret].
      apply emits_bind; [by apply emits_extern|intros; apply emits_ret]. }
  destruct (restore_state_run "enabled" sb) as (? & Ec' & Hc & _ & _ & Sc).
  rewrite Ec in Ec'. injection Ec' as -> <-.
  destruct (restore_state_run "running" sc) as (? & Ed' & Hd & _ & _ & Sd).
  rewrite Ed in Ed'. injection Ed' as _ <-.
  destruct (uninstall_restore_files_first sd) as [rest He]. rewrite Ee in He.
  cbn [snd] in He.
  eapply (emits_run (fun _ => True)) in Ee as (_ & _ & _ & Se).
  2:{ apply emits_uninstall_restore_files_when. by intros f. }
  eapply (emits_run (fun _ => True)) in Ef as (tf & Hf & _ & Sf).
  2:{ destruct (py_truthy _); [|apply emits_ret].
      apply emits_bind; [by apply emits_extern|intros; apply emits_ret]. }
  destruct (restore_state_run "serverid" sf) as (? & Eg' & Hg & _ & _ & Sg).
  rewrite Eg in Eg'. injection Eg' as -> <-.
  assert (Hstored : sstore sf !! "serverid" = sstore s !! "serverid").
  { rewrite Sf, Se, Sd, Sc, Sb, Sa. by rewrite !lookup_delete_ne. }
  pose proof Eh as Eh'.
  eapply (emits_run (fun c => c <> Enable)) in Eh' as (th & Hh & _ & Sh);
    [|apply emits_uninstall_remove_instance].
  destruct (restore_state_run "user_exists" sh) as (? & Ei' & Hi & _ & _ & Si).
  rewrite Ei in Ei'. injection Ei' as _ <-.
  destruct (restore_state_run "nsslapd-port" si) as (? & Ej' & Hj & _ & _ & Sj).
  rewrite Ej in Ej'. injection Ej' as _ <-.
  destruct (restore_state_run "nsslapd-security" sj) as (? & Ek' & Hk & _ & _ & Sk).
  rewrite Ek in Ek'. injection Ek' as _ <-.
  destruct (restore_state_run "nsslapd-ldapiautobind" sk) as (? & El' & Hl & _ & _ & Sl).
  rewrite El in El'. injection El' as _ <-.
  pose proof Em as Em'.
  eapply (emits_run (fun c => c <> Enable)) in Em' as (tm & Hm & _ & Sm);
    [|apply emits_get_ds_instances].
  pose proof H as H'.
  eapply (emits_run (fun c => c <> Enable)) in H' as (tn & Hn & _ & Sn);
    [|apply emits_restart_instances].
  exists (ta ++ tb ++ (FstoreRestoreFile (LIMITS_CONF P) :: rest) ++ tf ++ th ++ tm),
    instances, sl, sm.
  split; [by rewrite Sn, Sm|]. split; [done|]. split.
  { rewrite Hm, Hl, Hk, Hj, Hi, Hh, Hg, Hf, He, Hd, Hc, Hb, Ha.
    by rewrite <- !app_assoc. }
  split; [done|]. split.
  { rewrite !elem_of_app. right. right. left. apply list_elem_of_here. }
  intros name Hname. rewrite Hstored, Hname in Eh. cbn [default from_option id] in Eh.
  apply uninstall_remove_instance_runs_tool in Eh as (pre & post & Hrun).
  rewrite Hh in Hrun. apply app_inv_head in Hrun. subst th.
  rewrite !elem_of_app. do 4 right. left. right. apply list_elem_of_here.
Qed.

End UninstallCalls.

(** Under the tolerated failures [uninstall] runs to its end. *)
Lemma uninstall_completes P env s :
  cleanup_failures_only P env ->
  (sstore s !! "serverid" = None \/ sstore s !! "serverid" = Some VNone \/
   exists name, sstore s !! "serverid" = Some (VStr name)) ->
  exists s', uninstall P env s = (Ok tt, s').
Proof.
  intros Htol Hsid. unfold uninstall.
  destruct (returns_extern P env Htol IsConfigured I s) as (configured & sa & Ea).
  rewrite (bind_ok _ _ _ _ _ Ea).
  eapply (emits_run (fun _ => True)) in Ea as (_ & _ & _ & Sa);
    [|apply emits_extern; exact I].
  assert (Hb : returns (if py_truthy configured
                        then extern env (PrintMsg "Unconfiguring directory server") ;;; ret tt
                        else ret tt)) by returns_with Htol.
  destruct (Hb sa) as ([] & sb & Eb). rewrite (bind_ok _ _ _ _ _ Eb).
  eapply (emits_run (fun _ => True)) in Eb as (_ & _ & _ & Sb); [|emits_any].
  destruct (restore_state_run "enabled" sb) as (sc & Ec & _ & _ & _ & Sc).
  rewrite (bind_ok _ _ _ _ _ Ec).
  destruct (restore_state_run "running" sc) as (sd & Ed & _ & _ & _ & Sd).
  rewrite (bind_ok _ _ _ _ _ Ed).
  destruct (returns_uninstall_restore_files P env Htol sd) as ([] & se & Ee).
  rewrite (bind_ok _ _ _ _ _ Ee).
  eapply emits_run in Ee as (_ & _ & _ & Se);
    [|apply emits_uninstall_restore_files].
  assert (Hf : returns (if py_truthy (default VNone (sstore sb !! "enabled"))
                        then extern env Enable ;;; ret tt else ret tt))
    by returns_with Htol.
  destruct (Hf se) as ([] & sf & Ef). rewrite (bind_ok _ _ _ _ _ Ef).
  eapply (emits_run (fun _ => True)) in Ef as (_ & _ & _ & Sf); [|emits_any].
  destruct (restore_state_run "serverid" sf) as (sg & Eg & _ & _ & _ & Sg).
  rewrite (bind_ok _ _ _ _ _ Eg).
  assert (Hstored : sstore sf !! "serverid" = sstore s !! "serverid").
  { rewrite Sf, Se, Sd, Sc, Sb, Sa. by rewrite !lookup_delete_ne. }
  assert (Hv : default VNone (sstore sf !! "serverid") = VNone \/
               exists name, default VNone (sstore sf !! "serverid") = VStr name).
  { rewrite Hstored. destruct Hsid as [->|[->|[name ->]]]; cbn; eauto. }
  destruct (returns_uninstall_remove_instance P env Htol _ Hv sg) as ([] & sh & Eh).
  rewrite (bind_ok _ _ _ _ _ Eh).
  destruct (restore_state_run "user_exists" sh) as (si & Ei & _).
  rewrite (bind_ok _ _ _ _ _ Ei).
  destruct (restore_state_run "nsslapd-port" si) as (sj & Ej & _).
  rewrite (bind_ok _ _ _ _ _ Ej).
  destruct (restore_state_run "nsslapd-security" sj) as (sk & Ek & _).
  rewrite (bind_ok _ _ _ _ _ Ek).
  destruct (restore_state_run "nsslapd-ldapiautobind" sk) as (sl & El & _).
  rewrite (bind_ok _ _ _ _ _ El).
  destruct (returns_get_ds_instances P env Htol sl) as (instances & sm & Em).
  rewrite (bind_ok _ _ _ _ _ Em).
  destruct (restart_instances_all P env Htol instances sm) as (s' & En & Hn).
  by exists s'.
Qed.


Example sample_listing :
  (get_ds_instances fedora calm (boot joining)).1 = Ok ["ALPHA"; "EXAMPLE-COM"].
Proof. vm_compute. reflexivity. Qed.

Example sample_removal :
  (remove_ds_instance fedora flaky_cleanup "EXAMPLE-COM" false (boot joining)).1
  = Err CalledProcessError.
Proof. vm_compute. reflexivity. Qed.

Example sample_uninstall :
  (uninstall fedora flaky_cleanup installed).1 = Ok tt.
Proof. vm_compute. reflexivity. Qed.

(** * Sample runs *)

Lemma remove_ds_instance_forced_retry_witness :
  flaky_cleanup [] (Run ["/usr/sbin/remove-ds.pl"; "-i"; "slapd-EXAMPLE-COM"])
    = Raises CalledProcessError /\
  history (remove_ds_instance fedora flaky_cleanup "EXAMPLE-COM" false (boot joining)).2
    = [Run ["/usr/sbin/remove-ds.pl"; "-i"; "slapd-EXAMPLE-COM"];
       Run ["/usr/sbin/remove-ds.pl"; "-i"; "slapd-EXAMPLE-COM"; "-f"]] /\
  (remove_ds_instance fedora flaky_cleanup "EXAMPLE-COM" false (boot joining)).1
    = Err CalledProcessError.
Proof.
  split; [reflexivity|].
  destruct (remove_ds_instance_forced_retry fedora flaky_cleanup "EXAMPLE-COM"
              (boot joining)) as (_ & _ & H).
  destruct (H eq_refl) as [Hh He].
  split; [exact Hh|]. apply He. reflexivity.
Defined.

Lemma get_ds_instances_sorted_exact_witness :
  exists l s',
    get_ds_instances fedora calm (boot joining) = (Ok l, s') /\
    Sorted String.le l /\
    forall X, X ∈ l <->
      X <> "" /\
      exists basename, basename ∈ sample_names /\
        basename = DS_INSTANCE_PREFIX +:+ X /\
        sample_isdir (os_path_join "/etc/dirsrv" basename) = true /\
        endswith basename ".removed" = false.
Proof.
  apply (get_ds_instances_sorted_exact fedora calm (boot joining)
           sample_names sample_isdir).
  - reflexivity.
  - intros h p. reflexivity.
Defined.

Lemma get_domain_level_floor_or_entry_witness :
  (get_domain_level fedora calm
     {| env_realm := "EXAMPLE.COM"; env_basedn := [("dc", "example"); ("dc", "com")] |}
     (boot joining)).1 = Ok 1 /\
  (get_domain_level fedora no_level_entry
     {| env_realm := "EXAMPLE.COM"; env_basedn := [("dc", "example"); ("dc", "com")] |}
     (boot joining)).1 = Ok 0.
Proof.
  split.
  - refine (proj2 (get_domain_level_floor_or_entry fedora calm _ (boot joining)
                     (VBool true) (VBool true) eq_refl eq_refl)
              [("ipaDomainLevel", ["1"])] (VStr "1") 1 eq_refl eq_refl eq_refl).
  - refine (proj1 (get_domain_level_floor_or_entry fedora no_level_entry _
                     (boot joining) (VBool true) (VBool true) eq_refl eq_refl)
              eq_refl).
Defined.

(** At the lowest domain level and without the Directory Manager password
    the join is not refused: it goes to the master with no bind DN and no
    password. *)
Lemma setup_replica_level0_without_secret_joins :
  domainlevel joining = VInt (DOMAIN_LEVEL_0 fedora) /\
  dm_password joining = VNone /\
  (__setup_replica calm (boot joining)).1 = Ok tt /\
  history (__setup_replica calm (boot joining)).2 =
    [EnableReplicationVersionChecking "EXAMPLE.COM" VNone;
     LDAPClient (LdapiUri "EXAMPLE.COM"); ExternalBind;
     ReplicationManager "EXAMPLE.COM" "replica.example.com" VNone;
     SetupPromoteReplication (VStr "master.example.com") VNone VNone VNone;
     NeedsMemberofFixup].
Proof. repeat split. Qed.

Lemma setup_replica_bind_selection_witness :
  history (__setup_replica calm
             (boot (with_dm_password (VStr "Secret123") joining))).2 =
    [EnableReplicationVersionChecking "EXAMPLE.COM" (VStr "Secret123");
     LDAPClient (LdapiUri "EXAMPLE.COM"); ExternalBind;
     ReplicationManager "EXAMPLE.COM" "replica.example.com" (VStr "Secret123");
     SetupPromoteReplication (VStr "master.example.com")
       (VDN [("cn", "Directory Manager")]) (VStr "Secret123") VNone;
     NeedsMemberofFixup].
Proof.
  exact (proj1 (proj2 (setup_replica_bind_selection calm
           (boot (with_dm_password (VStr "Secret123") joining)))) eq_refl).
Defined.

Lemma memberof_fixup_from_join_and_gated_witness :
  run_init_memberof (self (__setup_replica calm (boot joining)).2) = VBool false /\
  init_memberof fedora calm (__setup_replica calm (boot joining)).2
    = (Ok tt, (__setup_replica calm (boot joining)).2) /\
  (init_memberof fedora calm prepared).1 = Ok tt /\
  history (init_memberof fedora calm prepared).2 =
    [LdapMod "memberof-task.ldif" (Some {[ "TIME" := VInt 1500000000 ]});
     LDAPClient (HostUri "replica.example.com"); GssapiBind;
     WaitForTask [("cn", "IPA install 1500000000"); ("cn", "memberof task");
                  ("cn", "tasks"); ("cn", "config")];
     Unbind].
Proof.
  split; [reflexivity|]. split.
  - exact (proj1 (proj2 (memberof_fixup_from_join_and_gated fedora calm
                           (__setup_replica calm (boot joining)).2)) eq_refl).
  - destruct (proj2 (proj2 (memberof_fixup_from_join_and_gated fedora calm prepared))
                eq_refl) as (_ & Hdone & _).
    destruct (Hdone eq_refl) as (time & Htime & Hh).
    split; [reflexivity|].
    assert (Ht : time = VInt 1500000000).
    { vm_compute in Htime. congruence. }
    subst time. exact Hh.
Defined.

(** The service manager fails to restart dirsrv, and [restart] returns as
    if nothing had happened; the running check is not even reached. *)
Lemma restart_failure_not_reported :
  restart_fails [Ldap2Disconnect] (SuperRestart "EXAMPLE-COM")
    = Raises CalledProcessError /\
  (restart fedora restart_fails "EXAMPLE-COM" (boot joining)).1 = Ok tt /\
  history (restart fedora restart_fails "EXAMPLE-COM" (boot joining)).2
    = [Ldap2Disconnect; SuperRestart "EXAMPLE-COM"; Ldap2Connect].
Proof. repeat split. Qed.

Lemma restart_order_and_handlers_witness :
  (restart fedora calm "EXAMPLE-COM" (boot joining)).1 = Ok tt /\
  history (restart fedora calm "EXAMPLE-COM" (boot joining)).2
    = [Ldap2Disconnect; SuperRestart "EXAMPLE-COM";
       DirsrvIsRunning "EXAMPLE-COM"; Ldap2Connect].
Proof.
  exact (proj1 (restart_order_and_handlers fedora calm "EXAMPLE-COM" (boot joining)
                  (VBool true) eq_refl)
           (VBool true) (VBool true) (VBool true) eq_refl eq_refl eq_refl eq_refl).
Defined.



Example sample_uninstall_history :
  history (uninstall fedora flaky_cleanup installed).2
  = [IsConfigured; PrintMsg "Unconfiguring directory server";
     FstoreRestoreFile "/etc/security/limits.conf"; Enable;
     CertDB "/etc/dirsrv/slapd-EXAMPLE-COM"; UntrackServerCert "Server-Cert";
     Run ["/usr/sbin/remove-ds.pl"; "-i"; "slapd-EXAMPLE-COM"];
     Run ["/usr/sbin/remove-ds.pl"; "-i"; "slapd-EXAMPLE-COM"; "-f"];
     Listdir "/etc/dirsrv";
     Isdir "/etc/dirsrv/slapd-EXAMPLE-COM"; Isdir "/etc/dirsrv/slapd-OLD.removed";
     Isdir "/etc/dirsrv/schema"; Isdir "/etc/dirsrv/slapd-";
     Isdir "/etc/dirsrv/slapd-ALPHA"; Isdir "/etc/dirsrv/slapd-FILE";
     DirsrvRestart "ALPHA" false; DirsrvRestart "EXAMPLE-COM" false].
Proof. vm_compute. reflexivity. Qed.

Lemma enabled_flag_backed_up_then_restored_witness :
  sstore (__enable calm (boot joining)).2 !! "enabled" = Some (VBool true) /\
  history (__enable calm (boot joining)).2 = [IsEnabled; Disable] /\
  exists t,
    history (uninstall fedora flaky_cleanup (__enable calm (boot joining)).2).2
      = history (__enable calm (boot joining)).2 ++ t /\
    (Enable ∈ t <-> py_truthy (VBool true) = true).
Proof.
  destruct (enabled_flag_backed_up_then_restored fedora calm flaky_cleanup
              (boot joining) (VBool true) eq_refl eq_refl) as (Hh & Hs & Hu).
  split; [exact Hs|]. split; [exact Hh|].
  refine (proj2 (Hu (__enable calm (boot joining)).2
                    (uninstall fedora flaky_cleanup (__enable calm (boot joining)).2).2
                    eq_refl _)).
  vm_compute. reflexivity.
Defined.

Lemma replica_idrange_size_zero_or_none_witness :
  (exists s' d,
     create_replica fedora calm "example.com" (VStr "master.example.com")
       "replica.example.com" (VStr "example.com") (VStr "Secret123")
       VNone VNone VNone VNone VNone (VBool false) (boot joining) = (Ok tt, s') /\
     idstart (self s') = VInt 1101 /\ idmax (self s') = VInt 1100 /\
     sub_dict (self s') = Some d /\
     d !! "IDSTART" = Some (VInt 1101) /\ d !! "IDMAX" = Some (VInt 1100) /\
     d !! "IDRANGE_SIZE" = Some (VInt 0)) /\
  (exists s' d,
     __setup_sub_dict fedora calm (boot joining) = (Ok tt, s') /\
     sub_dict (self s') = Some d /\
     d !! "IDRANGE_SIZE" = Some VNone).
Proof.
  destruct (replica_idrange_size_zero_or_none fedora calm (boot joining)
              "example.com" (VStr "master.example.com")
              "replica.example.com" (VStr "example.com") (VStr "Secret123")
              VNone VNone VNone VNone VNone (VBool false)
              (VBool true) (VStr "Xy7") 1500000000 eq_refl eq_refl eq_refl)
    as [Hzero Hnone].
  split; [exact Hzero|]. apply Hnone. reflexivity.
Defined.

(** Loading the certificate fails with an error that is not
    [CalledProcessError]: the error leaves [add_ca_cert], and the server,
    stopped before the load, is not started again. *)
Lemma add_ca_cert_load_error_leaves_server_stopped :
  import_crashes
    [Access "/root/ca.crt"; Ldap2IsConnected; Ldap2Disconnect; SuperStop "";
     CertDB "/etc/dirsrv/slapd-EXAMPLE-COM/"]
    (LoadCacert "/root/ca.crt" "Imported CA" "C,,") = Raises RuntimeError /\
  (add_ca_cert fedora import_crashes "/root/ca.crt" "" (boot joining)).1
    = Err RuntimeError /\
  history (add_ca_cert fedora import_crashes "/root/ca.crt" "" (boot joining)).2
    = [Access "/root/ca.crt"; Ldap2IsConnected; Ldap2Disconnect; SuperStop "";
       CertDB "/etc/dirsrv/slapd-EXAMPLE-COM/";
       LoadCacert "/root/ca.crt" "Imported CA" "C,,"].
Proof. repeat split. Qed.

Lemma add_ca_cert_checks_before_stopping_witness :
  (add_ca_cert fedora unreadable "/root/ca.crt" "" (boot joining)).1 = Ok false /\
  history (add_ca_cert fedora unreadable "/root/ca.crt" "" (boot joining)).2
    = [Access "/root/ca.crt"] /\
  (add_ca_cert fedora import_fails "/root/ca.crt" "" (boot joining)).1 = Ok false /\
  history (add_ca_cert fedora import_fails "/root/ca.crt" "" (boot joining)).2
    = [Access "/root/ca.crt"; Ldap2IsConnected; Ldap2Disconnect; SuperStop "";
       CertDB "/etc/dirsrv/slapd-EXAMPLE-COM/";
       LoadCacert "/root/ca.crt" "Imported CA" "C,,"; SuperStart ""; Ldap2Connect].
Proof.
  destruct (add_ca_cert_checks_before_stopping fedora unreadable "/root/ca.crt" ""
              (boot joining)) as (Hno & _).
  destruct Hno as [H1 H2].
  { right. exists (VBool false). split; reflexivity. }
  destruct (add_ca_cert_checks_before_stopping fedora import_fails "/root/ca.crt" ""
              (boot joining)) as (_ & Hyes).
  destruct (Hyes (VBool true) eq_refl eq_refl) as (_ & _ & Hstop).
  destruct (Hstop (VBool true) eq_refl) as (_ & Hgo).
  destruct (Hgo (fun _ => ex_intro _ (VBool true) eq_refl)) as (_ & _ & Hdb).
  destruct (Hdb (VBool true) eq_refl) as (_ & Hload).
  pose proof (Hload (VBool true) eq_refl) as Hm.
  vm_compute in Hm. destruct Hm as (Hr & Hh & _).
  split; [exact H1|]. split; [exact H2|]. split; [exact Hr|exact Hh].
Defined.

(** * Further properties *)

(** ** get_all_external_schema_files *)

Lemma string_eqb_length a b :
  String.eqb a b = true -> String.length a = String.length b.
Proof. by intros ->%String.eqb_eq. Qed.

Lemma glob_literal pat s :
  Forall (fun c => c <> "*"%char /\ c <> "?"%char) (String.list_ascii_of_string pat) ->
  glob pat s = String.eqb s pat.
Proof.
  revert s. induction pat as [|c pat IH]; intros s Hlit.
  - reflexivity.
  - cbn [String.list_ascii_of_string] in Hlit.
    apply Forall_cons in Hlit as [[Hstar Hany] Hlit].
    cbn [glob].
    destruct (Ascii.eqb_spec c "*") as [|_]; [done|].
    destruct (Ascii.eqb_spec c "?") as [|_]; [done|].
    destruct s as [|d s]; [reflexivity|].
    cbn [String.eqb]. rewrite (Ascii.eqb_sym d c). by rewrite IH.
Qed.

(** A star in front of a literal: the name ends with the literal. *)
Lemma glob_star_literal lit s :
  Forall (fun c => c <> "*"%char /\ c <> "?"%char) (String.list_ascii_of_string lit) ->
  glob (String "*" lit) s = endswith s lit.
Proof.
  intros Hlit. cbn [glob]. change (Ascii.eqb "*" "*") with true. cbv iota.
  unfold endswith.
  induction s as [|c s IH].
  - rewrite glob_literal by done. cbn [String.length drop_chars Nat.sub orb].
    rewrite orb_false_r.
    destruct (String.eqb_spec "" lit) as [<-|Hne]; [reflexivity|].
    destruct lit; [done|reflexivity].
  - rewrite IH, glob_literal by done. cbn [String.length].
    destruct (String.eqb_spec (String c s) lit) as [<-|Hne].
    + cbn [String.length orb]. rewrite Nat.leb_refl, Nat.sub_diag.
      cbn [drop_chars andb]. by rewrite String.eqb_refl.
    + cbn [orb].
      destruct (Nat.leb_spec (String.length lit) (String.length s)) as [Hle|Hlt].
      * replace (String.length lit <=? S (String.length s))%nat with true
          by (symmetry; apply Nat.leb_le; lia).
        cbn [andb].
        replace (S (String.length s) - String.length lit)%nat
          with (S (String.length s - String.length lit)) by lia.
        reflexivity.
      * cbn [andb].
        destruct (Nat.leb_spec (String.length lit) (S (String.length s)))
          as [Hle|Hlt']; [|reflexivity].
        cbn [andb].
        replace (S (String.length s) - String.length lit)%nat with 0%nat by lia.
        cbn [drop_chars]. symmetry. by apply String.eqb_neq.
Qed.

Lemma fnmatch_ldif name : fnmatch name "*.ldif" = endswith name ".ldif".
Proof.
  unfold fnmatch. apply glob_star_literal.
  cbn. repeat constructor; done.
Qed.

Lemma collect_ldif_filter path files f :
  collect_ldif path files f
  = f ++ (os_path_join path <$> List.filter (fun n => endswith n ".ldif") files).
Proof.
  revert f. induction files as [|name files IH]; intros f; cbn [collect_ldif].
  - by rewrite app_nil_r.
  - rewrite IH, fnmatch_ldif. cbn [List.filter].
    destruct (endswith name ".ldif"); [|done].
    by rewrite <- app_assoc.
Qed.

Lemma walk_ldif_flat_map entries f :
  walk_ldif entries f
  = f ++ flat_map (fun e =>
           os_path_join e.1.1 <$> List.filter (fun n => endswith n ".ldif") e.2)
         entries.
Proof.
  revert f. induction entries as [|[[path subdirs] files] entries IH]; intros f;
    cbn [walk_ldif flat_map].
  - by rewrite app_nil_r.
  - rewrite IH, collect_ldif_filter. by rewrite <- app_assoc.
Qed.

(** X1.  [get_all_external_schema_files] returns, directory by directory in
    the order of the walk and file by file in the order of each directory,
    the joined paths of exactly the files whose names end with [.ldif]. *)
Theorem schema_files_are_the_ldif_files os_walk root :
  get_all_external_schema_files os_walk root
  = flat_map (fun e =>
      os_path_join e.1.1 <$> List.filter (fun n => endswith n ".ldif") e.2)
      (os_walk root) /\
  forall file,
    file ∈ get_all_external_schema_files os_walk root <->
    exists path subdirs files name,
      (path, subdirs, files) ∈ os_walk root /\ name ∈ files /\
      endswith name ".ldif" = true /\ file = os_path_join path name.
Proof.
  assert (Heq : get_all_external_schema_files os_walk root
    = flat_map (fun e =>
        os_path_join e.1.1 <$> List.filter (fun n => endswith n ".ldif") e.2)
        (os_walk root)).
  { unfold get_all_external_schema_files. by rewrite walk_ldif_flat_map. }
  split; [exact Heq|]. intros file. rewrite Heq.
  rewrite list_elem_of_In, in_flat_map. split.
  - intros ([[path subdirs] files] & Hin & Hfile).
    apply list_elem_of_In, list_elem_of_fmap in Hfile as (name & -> & Hname).
    apply list_elem_of_In, filter_In in Hname as [Hname Hend].
    exists path, subdirs, files, name.
    by rewrite !list_elem_of_In.
  - intros (path & subdirs & files & name & Hin & Hname & Hend & ->).
    exists (path, subdirs, files). split; [by apply list_elem_of_In|].
    apply list_elem_of_In, list_elem_of_fmap. exists name. split; [done|].
    apply list_elem_of_In, filter_In. by rewrite <- list_elem_of_In.
Qed.

(** ** The lists of installation steps *)

Lemma create_replica_steps_app promote pkcs12_info steps :
  create_replica_steps promote pkcs12_info steps
  = steps ++ create_replica_steps promote pkcs12_info [].
Proof.
  unfold create_replica_steps, __common_post_setup, __common_setup.
  destruct (py_truthy promote), (py_truthy pkcs12_info); cbn [negb app];
    by rewrite <- ?app_assoc.
Qed.

Lemma create_instance_steps_app hbac_allow steps :
  create_instance_steps hbac_allow steps
  = steps ++ create_instance_steps hbac_allow [].
Proof.
  unfold create_instance_steps, __common_post_setup, __common_setup.
  destruct (py_truthy hbac_allow); cbn [negb app]; by rewrite <- ?app_assoc.
Qed.

Ltac closed_list_fact :=
  match goal with
  | |- ?G => apply (@bool_decide_unpack G _); vm_compute; exact I
  end.

(** X2.  In every list that [create_replica] builds, the join is listed
    once, after exactly one certificate step (TLS from the PKCS#12 file or
    from the CA, or a certificate retrieved from the master) and a restart
    of the server that follows it, and before the step that initializes
    group membership.  The certificate is retrieved from the master exactly
    when the replica is promoted and has no PKCS#12 file. *)
Theorem replica_join_after_tls_before_memberof promote pkcs12_info steps :
  exists before after x cert y,
    create_replica_steps promote pkcs12_info steps
      = steps ++ before
          ++ (("setting up initial replication", Method.__setup_replica) :: after) /\
    before.*2 = x ++ cert :: y /\
    (cert = Method.__get_ds_cert \/ cert = Method.__enable_ssl) /\
    (cert = Method.__get_ds_cert <->
       py_truthy promote = true /\ py_truthy pkcs12_info = false) /\
    Method.__restart_instance ∈ y /\
    Method.init_memberof ∈ (after.*2) /\
    (Method.init_memberof ∉ before.*2) /\
    Forall (fun m => m <> Method.__setup_replica /\ m <> Method.__enable_ssl /\
                     m <> Method.__get_ds_cert) (x ++ y ++ after.*2).
Proof.
  rewrite create_replica_steps_app. unfold create_replica_steps.
  destruct (py_truthy promote) eqn:Ep; [destruct (py_truthy pkcs12_info) eqn:Ek|].
  - match goal with |- context [steps ++ ?L = _] =>
      exists (take 29 L), (drop 30 L), (take 27 L.*2), Method.__enable_ssl,
        [Method.__restart_instance] end.
    split; [by vm_compute|]. split; [by vm_compute|]. split; [by right|].
    split; [split; [done|by intros [_ ?]]|].
    repeat split; closed_list_fact.
  - match goal with |- context [steps ++ ?L = _] =>
      exists (take 29 L), (drop 30 L), (take 27 L.*2), Method.__get_ds_cert,
        [Method.__restart_instance] end.
    split; [by vm_compute|]. split; [by vm_compute|]. split; [by left|].
    split; [done|].
    repeat split; closed_list_fact.
  - match goal with |- context [steps ++ ?L = _] =>
      exists (take 28 L), (drop 29 L), (take 21 L.*2), Method.__enable_ssl,
        (take 6 (drop 22 L.*2)) end.
    split; [by vm_compute|]. split; [by vm_compute|]. split; [by right|].
    split; [split; [done|by intros [? _]]|].
    repeat split; closed_list_fact.
Qed.

(** X3.  The list that [create_instance] builds keeps what was listed
    before, starts with the creation of the system user and ends with the
    start-on-boot step; no method is listed twice; it configures neither
    TLS nor a join; and the default HBAC rule is listed exactly when
    [hbac_allow] is true. *)
Theorem fresh_install_steps hbac_allow steps :
  exists added,
    create_instance_steps hbac_allow steps = steps ++ added /\
    head added = Some ("creating directory server user", Method.create_ds_user) /\
    last added = Some ("configuring directory to start on boot", Method.__enable) /\
    NoDup (added.*2) /\
    (Method.__enable_ssl ∉ added.*2) /\
    (Method.__setup_replica ∉ added.*2) /\
    (Method.add_hbac ∈ added.*2 <-> py_truthy hbac_allow = true).
Proof.
  rewrite create_instance_steps_app. unfold create_instance_steps.
  destruct (py_truthy hbac_allow);
    (eexists; split; [reflexivity|]);
    (split; [by vm_compute|]); (split; [by vm_compute|]);
    (split; [closed_list_fact|]); (split; [closed_list_fact|]);
    (split; [closed_list_fact|]).
  - split; [done|]. intros _. closed_list_fact.
  - split; [|done]. intros H. exfalso. revert H. closed_list_fact.
Qed.

(** X4.  The list that [create_replica] builds keeps what was listed
    before and ends with the start-on-boot step, which is listed once;
    [enable_ssl] forgets what was listed before and lists TLS, a restart
    and the upload of the CA certificate, in that order. *)
Theorem replica_and_tls_step_lists promote pkcs12_info steps :
  (exists added,
     create_replica_steps promote pkcs12_info steps = steps ++ added /\
     last added = Some ("configuring directory to start on boot", Method.__enable) /\
     length (List.filter (fun m => bool_decide (m = Method.__enable)) (added.*2))
       = 1%nat) /\
  (enable_ssl_steps steps).*2
    = [Method.__enable_ssl; Method.__restart_instance; Method.__upload_ca_cert].
Proof.
  split; [|reflexivity].
  rewrite create_replica_steps_app. unfold create_replica_steps.
  destruct (py_truthy promote), (py_truthy pkcs12_info);
    (eexists; split; [reflexivity|]); split; by vm_compute.
Qed.

(** ** remove_ds_instance, further *)

Section RemovalFacts.

Variable P : platform.
Variable env : oracle.

Lemma remove_ds_instance_rec_forced depth serverid s :
  let forced := [REMOVE_DS_PL P; "-i"; DS_INSTANCE_PREFIX +:+ serverid; "-f"] in
  let s1 := with_logs (logs s ++ [(Debug, "Forcing instance removal")]) s in
  let s2 := with_history (history s ++ [Run forced]) s1 in
  remove_ds_instance_rec P env (S depth) serverid true s =
  match env (history s) (Run forced) with
  | Returns _ => (Ok tt, s2)
  | Raises e =>
    (Err e,
     if is_a e CalledProcessError
     then with_logs (logs s2 ++ [(Error, "Instance removal failed.")]) s2
     else s2)
  end.
Proof.
  cbn [remove_ds_instance_rec]. run_m. cbn [str_join String.concat app].
  change (DS_INSTANCE_PREFIX +:+ "" +:+ serverid)
    with (DS_INSTANCE_PREFIX +:+ serverid).
  cbn [history with_logs with_history].
  destruct (env _ _) as [v|e]; [reflexivity|].
  by destruct (is_a e CalledProcessError).
Qed.

Lemma remove_ds_instance_rec_depth depth serverid force s :
  remove_ds_instance_rec P env (S (S depth)) serverid force s
  = remove_ds_instance_rec P env 2 serverid force s.
Proof.
  destruct force.
  - by rewrite !remove_ds_instance_rec_forced.
  - cbn [remove_ds_instance_rec]. run_m.
    destruct (env _ _) as [v|e]; [reflexivity|].
    destruct (is_a e CalledProcessError); [|reflexivity].
    cbn [history with_history with_logs].
    by destruct (env _ _) as [v|e']; [|destruct (is_a e' CalledProcessError)].
Qed.

End RemovalFacts.

(** X5.  [remove_ds_instance] never runs out of stack: with any bound of
    two frames or more the outcome is the one of [remove_ds_instance], and
    all it asks of the world is to run the removal tool, once or twice. *)
Theorem remove_ds_instance_needs_two_frames P env depth serverid force s :
  (2 <= depth)%nat ->
  remove_ds_instance_rec P env depth serverid force s
    = remove_ds_instance P env serverid force s /\
  exists t,
    history (remove_ds_instance P env serverid force s).2 = history s ++ t /\
    (1 <= length t <= 2)%nat /\
    Forall (fun c => exists args, c = Run args) t.
Proof.
  intros Hd. unfold remove_ds_instance. change recursion_limit with (S (S 998)).
  split.
  - destruct depth as [|[|depth]]; [lia..|].
    by rewrite !remove_ds_instance_rec_depth.
  - rewrite remove_ds_instance_rec_depth. destruct force.
    + rewrite remove_ds_instance_rec_forced.
      destruct (env _ _) as [v|e]; [|destruct (is_a e CalledProcessError)];
        cbn [snd history with_history with_logs];
        (eexists; split; [reflexivity|]); (split; [cbn; lia|]);
        repeat constructor; by eexists.
    + cbn [remove_ds_instance_rec]. run_m.
      destruct (env _ _) as [v|e].
      { cbn [snd history with_history with_logs].
        eexists; split; [reflexivity|]. split; [cbn; lia|].
        repeat constructor; by eexists. }
      destruct (is_a e CalledProcessError).
      2:{ cbn [snd history with_history with_logs].
          eexists; split; [reflexivity|]. split; [cbn; lia|].
          repeat constructor; by eexists. }
      cbn [history with_history with_logs].
      destruct (env _ _) as [v|e']; [|destruct (is_a e' CalledProcessError)];
        cbn [snd history with_history with_logs]; rewrite <- app_assoc;
        (eexists; split; [reflexivity|]); (split; [cbn; lia|]);
        repeat constructor; by eexists.
Qed.

Lemma remove_ds_instance_needs_two_frames_witness :
  remove_ds_instance_rec fedora flaky_cleanup 2 "EXAMPLE-COM" false pristine
  = remove_ds_instance fedora flaky_cleanup "EXAMPLE-COM" false pristine.
Proof.
  apply (remove_ds_instance_needs_two_frames fedora flaky_cleanup 2
           "EXAMPLE-COM" false pristine).
  lia.
Defined.

(** X6.  Called with [force=True], [remove_ds_instance] runs the tool once,
    with [-f], and does not try again: what that run raises is what the
    caller gets, and a [CalledProcessError] is logged as an error first. *)
Theorem remove_ds_instance_forced_runs_once P env serverid s :
  let forced := [REMOVE_DS_PL P; "-i"; DS_INSTANCE_PREFIX +:+ serverid; "-f"] in
  let r := remove_ds_instance P env serverid true s in
  history r.2 = history s ++ [Run forced] /\
  r.1 = match env (history s) (Run forced) with
        | Returns _ => Ok tt
        | Raises e => Err e
        end /\
  ((Error, "Instance removal failed.") ∈ logs r.2 <->
   (Error, "Instance removal failed.") ∈ logs s \/
   env (history s) (Run forced) = Raises CalledProcessError).
Proof.
  intros forced r. subst r. unfold remove_ds_instance.
  change recursion_limit with (S 999). rewrite remove_ds_instance_rec_forced.
  fold forced.
  destruct (env _ _) as [v|e]; [|destruct (is_a e CalledProcessError) eqn:Ee];
    cbn [fst snd history logs with_history with_logs];
    (split; [done|]); (split; [done|]);
    rewrite ?elem_of_app, ?list_elem_of_singleton.
  - intuition congruence.
  - apply bool_decide_eq_true in Ee as ->. intuition congruence.
  - apply bool_decide_eq_false in Ee. intuition congruence.
Qed.

(** X7.  When the first run of the removal tool fails with anything but a
    [CalledProcessError] (the tool is missing, say), there is no forced
    second run: the error goes to the caller as it is. *)
Theorem remove_ds_instance_other_errors_not_retried P env serverid s e :
  let plain := [REMOVE_DS_PL P; "-i"; DS_INSTANCE_PREFIX +:+ serverid] in
  env (history s) (Run plain) = Raises e ->
  e <> CalledProcessError ->
  remove_ds_instance P env serverid false s
    = (Err e, with_history (history s ++ [Run plain]) s).
Proof.
  intros plain He Hne. unfold remove_ds_instance.
  change recursion_limit with (S 999). cbn [remove_ds_instance_rec]. run_m.
  cbn [str_join String.concat].
  change (DS_INSTANCE_PREFIX +:+ "" +:+ serverid)
    with (DS_INSTANCE_PREFIX +:+ serverid).
  fold plain. rewrite He. unfold is_a. by rewrite bool_decide_eq_false_2.
Qed.

Lemma remove_ds_instance_other_errors_not_retried_witness :
  remove_ds_instance fedora tool_missing "EXAMPLE-COM" false pristine
  = (Err OSError,
     with_history [Run ["/usr/sbin/remove-ds.pl"; "-i"; "slapd-EXAMPLE-COM"]]
       pristine).
Proof.
  apply (remove_ds_instance_other_errors_not_retried fedora tool_missing
           "EXAMPLE-COM" pristine OSError).
  - reflexivity.
  - discriminate.
Defined.

(** ** get_ds_instances, further *)

(** The name that one directory entry contributes, if any. *)
Lemma get_ds_instances_static P env s names isdir :
  env (history s) (Listdir (ETC_DIRSRV P)) = Returns (VList names) ->
  (forall h p, env h (Isdir p) = Returns (VBool (isdir p))) ->
  (get_ds_instances P env s).1 =
  Ok (merge_sort String.le (omap (fun b =>
       if isdir (os_path_join (ETC_DIRSRV P) b) && startswith b DS_INSTANCE_PREFIX
          && negb (endswith b ".removed")
          && negb (String.eqb (drop_chars (String.length DS_INSTANCE_PREFIX) b) "")
       then Some (drop_chars (String.length DS_INSTANCE_PREFIX) b) else None)
     names)).
Proof.
  intros Hls Hdir. unfold get_ds_instances, bind at 1, extern. rewrite Hls.
  destruct (scan_instances_static env isdir Hdir (ETC_DIRSRV P) names []
              (with_history (history s ++ [Listdir (ETC_DIRSRV P)]) s))
    as (s' & Hscan & _ & _).
  by rewrite (bind_ok _ _ _ _ _ Hscan).
Qed.

(** X8.  The result of [get_ds_instances] does not depend on the order in
    which the directory is listed: two listings with the same entries give
    the same list. *)
Theorem get_ds_instances_listing_order_irrelevant P env1 env2 s1 s2
    names1 names2 isdir :
  env1 (history s1) (Listdir (ETC_DIRSRV P)) = Returns (VList names1) ->
  env2 (history s2) (Listdir (ETC_DIRSRV P)) = Returns (VList names2) ->
  (forall h p, env1 h (Isdir p) = Returns (VBool (isdir p))) ->
  (forall h p, env2 h (Isdir p) = Returns (VBool (isdir p))) ->
  names1 ≡ₚ names2 ->
  (get_ds_instances P env1 s1).1 = (get_ds_instances P env2 s2).1.
Proof.
  intros H1 H2 D1 D2 Hperm.
  rewrite (get_ds_instances_static P env1 s1 names1 isdir H1 D1).
  rewrite (get_ds_instances_static P env2 s2 names2 isdir H2 D2).
  f_equal. apply (Sorted_unique String.le).
  - apply Sorted_merge_sort, _.
  - apply Sorted_merge_sort, _.
  - rewrite !merge_sort_Permutation. by rewrite Hperm.
Qed.

Lemma get_ds_instances_listing_order_irrelevant_witness :
  (get_ds_instances fedora calm pristine).1
  = (get_ds_instances fedora calm_reordered pristine).1.
Proof.
  apply (get_ds_instances_listing_order_irrelevant fedora calm calm_reordered
           pristine pristine sample_names (reverse sample_names) sample_isdir).
  - reflexivity.
  - reflexivity.
  - intros h p. reflexivity.
  - intros h p. reflexivity.
  - symmetry. apply reverse_Permutation.
Defined.

(** X9.  When the directory listing has no entry twice, no instance name
    is returned twice. *)
Theorem get_ds_instances_no_duplicates P env s names isdir :
  env (history s) (Listdir (ETC_DIRSRV P)) = Returns (VList names) ->
  (forall h p, env h (Isdir p) = Returns (VBool (isdir p))) ->
  NoDup names ->
  exists l, (get_ds_instances P env s).1 = Ok l /\ NoDup l.
Proof.
  intros Hls Hdir Hnd.
  rewrite (get_ds_instances_static P env s names isdir Hls Hdir).
  eexists. split; [reflexivity|]. rewrite merge_sort_Permutation.
  clear Hls Hdir.
  induction Hnd as [|b names Hb Hnd IH]; [constructor|].
  assert (Hcons : forall f : string -> option string,
    omap f (b :: names)
    = match f b with Some y => y :: omap f names | None => omap f names end)
    by reflexivity.
  rewrite Hcons. clear Hcons. cbv beta.
  destruct (isdir _ && startswith b _ && _ && _) eqn:E; [|done].
  constructor; [|done].
  rewrite list_elem_of_omap. intros (b' & Hb' & Heq).
  destruct (isdir _ && startswith b' _ && _ && _) eqn:E'; [|done].
  apply (inj Some) in Heq.
  assert (Hs : startswith b DS_INSTANCE_PREFIX = true).
  { destruct (startswith b _); [done|]. by rewrite andb_false_r in E. }
  assert (Hs' : startswith b' DS_INSTANCE_PREFIX = true).
  { destruct (startswith b' _); [done|]. by rewrite andb_false_r in E'. }
  apply startswith_app in Hs, Hs'.
  assert (Hsame : b' = b) by congruence.
  by rewrite Hsame in Hb'.
Qed.

Lemma get_ds_instances_no_duplicates_witness :
  exists l, (get_ds_instances fedora calm pristine).1 = Ok l /\ NoDup l.
Proof.
  apply (get_ds_instances_no_duplicates fedora calm pristine sample_names
           sample_isdir).
  - reflexivity.
  - intros h p. reflexivity.
  - apply (@bool_decide_unpack (NoDup sample_names) _). vm_compute. exact I.
Defined.

(** ** get_domain_level, further *)

(** X10.  [get_domain_level] falls back to the floor only on [NotFound]:
    any other error of the lookup goes to the caller. *)
Theorem get_domain_level_defaults_only_on_not_found P env api s e :
  let h := history s in
  let client := LDAPClient (LdapiUri (env_realm api)) in
  let dn := [("cn", "Domain Level"); ("cn", "ipa"); ("cn", "etc")] ++ env_basedn api in
  forall v1 v2,
    env h client = Returns v1 ->
    env (h ++ [client]) ExternalBind = Returns v2 ->
    env (h ++ [client; ExternalBind]) (GetEntry dn ["ipaDomainLevel"]) = Raises e ->
    e <> NotFound ->
    (get_domain_level P env api s).1 = Err e.
Proof.
  intros h client dn v1 v2 H1 H2 H3 Hne.
  unfold get_domain_level. run_m. fold h client dn.
  rewrite H1. cbn [history with_history]. fold h. rewrite H2.
  cbn [history with_history]. rewrite <- app_assoc. cbn [app].
  rewrite H3. unfold is_a. by rewrite bool_decide_eq_false_2.
Qed.

Lemma get_domain_level_defaults_only_on_not_found_witness :
  (get_domain_level fedora server_down
     {| env_realm := "EXAMPLE.COM"; env_basedn := [("dc", "example"); ("dc", "com")] |}
     pristine).1 = Err NetworkError.
Proof.
  refine (get_domain_level_defaults_only_on_not_found fedora server_down _
            pristine NetworkError (VBool true) (VBool true)
            eq_refl eq_refl eq_refl _).
  discriminate.
Defined.

(** X11.  When the entry is there but has no single value for the
    attribute, [get_domain_level] raises what the lookup of the value
    raises; when the value is ASCII text that [int()] does not read as a
    number, it raises [ValueError].  In neither case does it fall back to
    the floor. *)
Theorem get_domain_level_rejects_malformed_value P env api s entry :
  let h := history s in
  let client := LDAPClient (LdapiUri (env_realm api)) in
  let dn := [("cn", "Domain Level"); ("cn", "ipa"); ("cn", "etc")] ++ env_basedn api in
  let r := get_domain_level P env api s in
  forall v1 v2,
    env h client = Returns v1 ->
    env (h ++ [client]) ExternalBind = Returns v2 ->
    env (h ++ [client; ExternalBind]) (GetEntry dn ["ipaDomainLevel"])
      = Returns (VEntry entry) ->
    (forall e, single_value P entry "ipaDomainLevel" = Err e -> r.1 = Err e) /\
    (forall text,
       single_value P entry "ipaDomainLevel" = Ok (VStr text) ->
       is_ascii_text text = true ->
       int_of_string text = None ->
       r.1 = Err ValueError).
Proof.
  intros h client dn r v1 v2 H1 H2 H3. subst r.
  unfold get_domain_level. run_m. fold h client dn.
  rewrite H1. cbn [history with_history]. fold h. rewrite H2.
  cbn [history with_history]. rewrite <- app_assoc. cbn [app].
  rewrite H3. split.
  - by intros e ->.
  - intros text -> _ Hint. cbn [py_int]. by rewrite Hint.
Qed.

Lemma get_domain_level_rejects_malformed_value_witness :
  (get_domain_level fedora level_garbled
     {| env_realm := "EXAMPLE.COM"; env_basedn := [("dc", "example"); ("dc", "com")] |}
     pristine).1 = Err ValueError.
Proof.
  refine (proj2 (get_domain_level_rejects_malformed_value fedora level_garbled _
                   pristine [("ipaDomainLevel", ["one"])] (VBool true) (VBool true)
                   eq_refl eq_refl eq_refl) "one" eq_refl eq_refl eq_refl).
Defined.

(** ** DsInstance.uninstall, further *)

Section Keeps.

Variable J : gmap string value -> Prop.
Variable p : call -> Prop.

Lemma keeps_emits {A} (m : M A) : emits p m -> keeps J p m.
Proof.
  intros Hm s HJ. destruct (Hm s) as (t & Hh & Hf & Hs).
  rewrite Hs. split; [done|]. by exists t.
Qed.

Lemma keeps_bind {A B} (m : M A) (k : A -> M B) :
  keeps J p m -> (forall a, keeps J p (k a)) -> keeps J p (bind m k).
Proof.
  intros Hm Hk s HJ. unfold bind.
  destruct (Hm s HJ) as (HJ1 & t1 & H1 & F1).
  destruct (m s) as [[a|e] s1]; cbn [snd] in *.
  - destruct (Hk a s1 HJ1) as (HJ2 & t2 & H2 & F2).
    split; [done|]. exists (t1 ++ t2). rewrite H2, H1, app_assoc.
    split; [done|]. by apply Forall_app.
  - split; [done|]. by exists t1.
Qed.

Lemma keeps_restore_state key :
  (forall σ, J σ -> J (delete key σ)) -> keeps J p (restore_state key).
Proof.
  intros Hdel s HJ. destruct (restore_state_run key s) as (s' & -> & Hh & _ & _ & Hs).
  cbn [snd]. rewrite Hs, Hh. split; [by apply Hdel|].
  exists []. by rewrite app_nil_r.
Qed.

Lemma keeps_bind_restore_absent {B} key (k : value -> M B) :
  (forall σ, J σ -> σ !! key = None) ->
  keeps J p (k VNone) -> keeps J p (bind (restore_state key) k).
Proof.
  intros Habs Hk s HJ. unfold bind, restore_state.
  rewrite (Habs _ HJ). by apply Hk.
Qed.

End Keeps.

(** X13.  On a host where neither an 'enabled' nor a 'serverid' record
    exists, [uninstall] does not enable the service, does not run the
    removal tool, and touches neither certificate tracking nor the keytab
    and credential cache, whatever else happens. *)
Theorem uninstall_of_nothing_removes_nothing P env s :
  sstore s !! "enabled" = None ->
  sstore s !! "serverid" = None ->
  exists t,
    history (uninstall P env s).2 = history s ++ t /\
    Forall (fun c =>
      match c with
      | Enable | Run _ | CertDB _ | UntrackServerCert _
      | RemoveKeytab _ | RemoveCcache _ => False
      | _ => True
      end) t.
Proof.
  intros Hen Hsid.
  set (p := fun c : call =>
      match c with
      | Enable | Run _ | CertDB _ | UntrackServerCert _
      | RemoveKeytab _ | RemoveCcache _ => False
      | _ => True
      end).
  pose (J := fun σ : gmap string value =>
              σ !! "enabled" = None /\ σ !! "serverid" = None).
  assert (Hdel : forall key σ, J σ -> J (delete key σ)).
  { intros key σ [H1 H2]. split; apply lookup_delete_None; by right. }
  assert (Hall : keeps J p (uninstall P env)).
  { unfold uninstall.
    apply keeps_bind.
    { apply keeps_emits, emits_extern. exact I. }
    intros configured. apply keeps_bind.
    { apply keeps_emits. destruct (py_truthy configured); [|apply emits_ret].
      apply emits_bind; [by apply emits_extern|intros; apply emits_ret]. }
    intros _. apply keeps_bind_restore_absent; [by intros σ [? ?]|].
    apply keeps_bind; [apply keeps_restore_state, Hdel|intros _].
    apply keeps_bind.
    { by apply keeps_emits, emits_uninstall_restore_files_when. }
    intros _. cbn [py_truthy].
    apply keeps_bind; [apply keeps_emits, emits_ret|intros _].
    apply keeps_bind_restore_absent; [by intros σ [? ?]|].
    apply keeps_bind.
    { apply keeps_emits. unfold uninstall_remove_instance. cbn [is_none negb].
      apply emits_ret. }
    intros _.
    do 4 (apply keeps_bind; [apply keeps_restore_state, Hdel|intros _]).
    apply keeps_bind.
    { by apply keeps_emits, emits_get_ds_instances_when. }
    intros instances. by apply keeps_emits, emits_restart_instances_when. }
  destruct (Hall s) as [_ Ht]; [by split|exact Ht].
Qed.

Lemma uninstall_of_nothing_removes_nothing_witness :
  history (uninstall fedora flaky_cleanup pristine).2
  = [IsConfigured; PrintMsg "Unconfiguring directory server";
     FstoreRestoreFile "/etc/security/limits.conf";
     Listdir "/etc/dirsrv";
     Isdir "/etc/dirsrv/slapd-EXAMPLE-COM"; Isdir "/etc/dirsrv/slapd-OLD.removed";
     Isdir "/etc/dirsrv/schema"; Isdir "/etc/dirsrv/slapd-";
     Isdir "/etc/dirsrv/slapd-ALPHA"; Isdir "/etc/dirsrv/slapd-FILE";
     DirsrvRestart "ALPHA" false; DirsrvRestart "EXAMPLE-COM" false] /\
  exists t,
    history (uninstall fedora flaky_cleanup pristine).2 = history pristine ++ t /\
    Forall (fun c =>
      match c with
      | Enable | Run _ | CertDB _ | UntrackServerCert _
      | RemoveKeytab _ | RemoveCcache _ => False
      | _ => True
      end) t.
Proof.
  split; [by vm_compute|].
  apply (uninstall_of_nothing_removes_nothing fedora flaky_cleanup pristine);
    reflexivity.
Defined.

(** X14.  The two file restorations of [uninstall] share one handler: when
    the first one has no backup ([ValueError]) the second one is not
    attempted and the block still completes; any other error of the first
    one leaves the block at once. *)
Theorem uninstall_restore_files_first_failure_skips_second P env s e :
  let first := FstoreRestoreFile (LIMITS_CONF P) in
  env (history s) first = Raises e ->
  history (uninstall_restore_files P env s).2 = history s ++ [first] /\
  (uninstall_restore_files P env s).1
    = if bool_decide (e = ValueError) then Ok tt else Err e.
Proof.
  intros first He. unfold uninstall_restore_files. run_m. fold first.
  rewrite He. unfold is_a. by destruct (bool_decide (e = ValueError)).
Qed.

Lemma uninstall_restore_files_first_failure_skips_second_witness :
  history (uninstall_restore_files fedora flaky_cleanup pristine).2
    = [FstoreRestoreFile "/etc/security/limits.conf"] /\
  (uninstall_restore_files fedora flaky_cleanup pristine).1 = Ok tt.
Proof.
  exact (uninstall_restore_files_first_failure_skips_second fedora flaky_cleanup
           pristine ValueError eq_refl).
Defined.

(** X15.  When the removal tool fails also when forced, the keytab and the
    credential cache are left in place: the block logs the failure and
    completes with the two runs of the tool as its last calls. *)
Theorem failed_removal_leaves_keytab_and_ccache P env name s v1 v2 :
  let h := history s in
  let dir := drop_last (config_dirname P (VStr name)) in
  let untrack := UntrackServerCert (nickname (self s)) in
  let plain := Run [REMOVE_DS_PL P; "-i"; DS_INSTANCE_PREFIX +:+ name] in
  let forced := Run [REMOVE_DS_PL P; "-i"; DS_INSTANCE_PREFIX +:+ name; "-f"] in
  let r := uninstall_remove_instance P env (VStr name) s in
  env h (CertDB dir) = Returns v1 ->
  env (h ++ [CertDB dir]) untrack = Returns v2 ->
  env (h ++ [CertDB dir; untrack]) plain = Raises CalledProcessError ->
  env (h ++ [CertDB dir; untrack; plain]) forced = Raises CalledProcessError ->
  r.1 = Ok tt /\
  history r.2 = h ++ [CertDB dir; untrack; plain; forced] /\
  (Error, "Failed to remove DS instance. You may need to remove instance data manually")
    ∈ logs r.2.
Proof.
  intros h dir untrack plain forced r H1 H2 H3 H4. subst r.
  unfold uninstall_remove_instance, stop_tracking_certificates, remove_ds_instance.
  change recursion_limit with (S (S 998)). cbn [is_none negb remove_ds_instance_rec].
  run_m.
  cbn [is_none negb as_str str_join String.concat app history with_history
       with_logs self].
  change (DS_INSTANCE_PREFIX +:+ "" +:+ name) with (DS_INSTANCE_PREFIX +:+ name).
  fold h dir. rewrite H1. cbn [history with_history with_logs self].
  fold h untrack. rewrite H2. cbn [history with_history with_logs self].
  rewrite <- app_assoc. cbn [app]. fold plain. rewrite H3.
  change (is_a CalledProcessError CalledProcessError) with true.
  cbn [history with_history with_logs self].
  rewrite <- app_assoc. cbn [app]. fold forced. rewrite H4.
  change (is_a CalledProcessError CalledProcessError) with true.
  cbn [fst snd history logs with_history with_logs self].
  rewrite <- app_assoc. cbn [app].
  change (is_a CalledProcessError CalledProcessError) with true.
  cbn [fst snd history logs with_history with_logs self].
  rewrite <- ?app_assoc. cbn [app].
  split; [done|]. split; [done|].
  apply elem_of_app. right. rewrite !elem_of_cons. do 4 right. by left.
Qed.

Lemma failed_removal_leaves_keytab_and_ccache_witness :
  (uninstall_remove_instance fedora flaky_cleanup (VStr "EXAMPLE-COM") pristine).1
    = Ok tt /\
  history (uninstall_remove_instance fedora flaky_cleanup (VStr "EXAMPLE-COM")
             pristine).2
    = [CertDB "/etc/dirsrv/slapd-EXAMPLE-COM"; UntrackServerCert "Server-Cert";
       Run ["/usr/sbin/remove-ds.pl"; "-i"; "slapd-EXAMPLE-COM"];
       Run ["/usr/sbin/remove-ds.pl"; "-i"; "slapd-EXAMPLE-COM"; "-f"]].
Proof.
  destruct (failed_removal_leaves_keytab_and_ccache fedora flaky_cleanup
              "EXAMPLE-COM" pristine (VBool true) (VBool true)
              eq_refl eq_refl eq_refl eq_refl) as (H1 & H2 & _).
  split; [exact H1|exact H2].
Defined.

(** ** DsInstance.stop and stop_tracking_certificates *)

Ltac not_listed H :=
  repeat (apply elem_of_cons in H as [H|H]; [discriminate H|]);
  by apply elem_of_nil in H.

(** X16.  [stop] stops the service only with the session down: the service
    manager is asked to stop exactly when the session reported that it is
    not connected or the disconnection returned, and the session is
    disconnected exactly when it reported that it is connected. *)
Theorem stop_only_with_session_down env instance s :
  let h := history s in
  exists t,
    history (stop env instance s).2 = h ++ t /\
    (SuperStop instance ∈ t <->
     exists v, env h Ldap2IsConnected = Returns v /\
       (py_truthy v = false \/
        exists v', env (h ++ [Ldap2IsConnected]) Ldap2Disconnect = Returns v')) /\
    (Ldap2Disconnect ∈ t <->
     exists v, env h Ldap2IsConnected = Returns v /\ py_truthy v = true).
Proof.
  intros h. unfold stop. run_m. fold h.
  destruct (env h Ldap2IsConnected) as [v|e] eqn:E1;
    cbn [history with_history snd].
  2:{ exists [Ldap2IsConnected]. split; [done|]. split; split.
      - intros H. not_listed H.
      - by intros (? & ? & _).
      - intros H. not_listed H.
      - by intros (? & ? & _). }
  destruct (py_truthy v) eqn:Ev; cbn [history with_history snd]; fold h.
  - destruct (env (h ++ [Ldap2IsConnected]) Ldap2Disconnect) as [v'|e'] eqn:E2;
      cbn [history with_history snd].
    + exists [Ldap2IsConnected; Ldap2Disconnect; SuperStop instance].
      split; [destruct (env _ (SuperStop instance)); cbn [history with_history snd];
              by rewrite <- !app_assoc|].
      split; split.
      * intros _. exists v. split; [done|]. right. by exists v'.
      * intros _. do 2 apply list_elem_of_further. apply list_elem_of_here.
      * intros _. by exists v.
      * intros _. apply list_elem_of_further, list_elem_of_here.
    + exists [Ldap2IsConnected; Ldap2Disconnect].
      split; [by rewrite <- !app_assoc|]. split; split.
      * intros H. not_listed H.
      * intros (v0 & [= <-] & [Hf|[v' [=]]]). congruence.
      * intros _. by exists v.
      * intros _. apply list_elem_of_further, list_elem_of_here.
  - exists [Ldap2IsConnected; SuperStop instance].
    split; [destruct (env _ (SuperStop instance)); cbn [history with_history snd];
            by rewrite <- !app_assoc|].
    split; split.
    + intros _. exists v. split; [done|]. by left.
    + intros _. apply list_elem_of_further, list_elem_of_here.
    + intros H. not_listed H.
    + intros (v0 & [= <-] & Ht). congruence.
Qed.

Lemma drop_last_slash s : drop_last (s +:+ "/") = s.
Proof.
  induction s as [|c s IH]; [reflexivity|].
  rewrite append_cons. cbn [drop_last]. rewrite IH.
  destruct s; reflexivity.
Qed.

(** X17.  [stop_tracking_certificates] without a server id uses the one
    recorded in the state store and leaves the store as it is; when no id
    is known either way it does nothing; otherwise the certificate
    database it opens is the instance's configuration directory, without
    the trailing slash that [config_dirname] adds. *)
Theorem stop_tracking_uses_recorded_serverid P env arg s :
  let known :=
    if is_none arg then default VNone (sstore s !! "serverid") else arg in
  let r := stop_tracking_certificates P env arg s in
  sstore r.2 = sstore s /\
  (is_none known = true -> r = (Ok tt, s)) /\
  (is_none known = false ->
     exists rest,
       history r.2
         = history s ++ CertDB (ETC_DIRSRV_SLAPD_INSTANCE P (py_str P known)) :: rest /\
       (r.1 = Ok tt -> rest = [UntrackServerCert (nickname (self s))])).
Proof.
  intros known r. subst r known.
  unfold stop_tracking_certificates.
  assert (Hget : get_state "serverid" s
                 = (Ok (default VNone (sstore s !! "serverid")), s)).
  { unfold get_state. by destruct (sstore s !! "serverid"). }
  assert (Hknown : forall v, is_none v = false ->
    let r := (extern env (CertDB (drop_last (config_dirname P v))) ;;;
              let* o := get_self in
              extern env (UntrackServerCert (nickname o)) ;;; ret tt) s in
    sstore r.2 = sstore s /\
    exists rest,
      history r.2 = history s ++ CertDB (ETC_DIRSRV_SLAPD_INSTANCE P (py_str P v)) :: rest /\
      (r.1 = Ok tt -> rest = [UntrackServerCert (nickname (self s))])).
  { intros v Hv. unfold config_dirname. rewrite drop_last_slash.
    run_m. cbn [history with_history self].
    destruct (env _ (CertDB _)); cbn [history with_history self snd fst sstore].
    2:{ split; [done|]. by eexists. }
    destruct (env _ (UntrackServerCert _));
      cbn [history with_history self snd fst sstore];
      rewrite <- app_assoc; (split; [done|]); by eexists. }
  assert (Heq : stop_tracking_certificates P env arg s
    = let known :=
        if is_none arg then default VNone (sstore s !! "serverid") else arg in
      if is_none known then (Ok tt, s)
      else (extern env (CertDB (drop_last (config_dirname P known))) ;;;
            let* o := get_self in
            extern env (UntrackServerCert (nickname o)) ;;; ret tt) s).
  { unfold stop_tracking_certificates. unfold bind at 1.
    destruct (is_none arg) eqn:Ea.
    - rewrite Hget. cbv zeta. by destruct (is_none (default VNone _)).
    - unfold ret at 1. cbv zeta. by rewrite Ea. }
  fold (stop_tracking_certificates P env arg s). rewrite Heq. cbv zeta.
  destruct (is_none (if is_none arg then _ else arg)) eqn:Ek.
  - by repeat split.
  - destruct (Hknown _ Ek) as [Hs Hrest]. by repeat split.
Qed.

Lemma stop_tracking_uses_recorded_serverid_witness :
  stop_tracking_certificates fedora calm VNone pristine = (Ok tt, pristine) /\
  exists rest,
    history (stop_tracking_certificates fedora calm VNone installed).2
      = CertDB "/etc/dirsrv/slapd-EXAMPLE-COM" :: rest.
Proof.
  split.
  - exact (proj1 (proj2 (stop_tracking_uses_recorded_serverid fedora calm VNone
                           pristine)) eq_refl).
  - destruct (proj2 (proj2 (stop_tracking_uses_recorded_serverid fedora calm VNone
                              installed)) eq_refl) as (rest & Hh & _).
    exists rest. exact Hh.
Defined.

(** ** DsInstance.init_memberof, further *)

Ltac listed H :=
  repeat (apply elem_of_cons in H as [H|H]; [try discriminate H|]);
  try (by apply elem_of_nil in H).

(** X18.  [init_memberof] chooses its bind by the truth value of the
    Directory Manager password: a simple bind is always as the Directory
    Manager with a non-empty password, and a GSSAPI bind is made only when
    the password is [None] or empty. *)
Theorem init_memberof_binds_by_password P env s :
  let o := self s in
  exists t,
    history (init_memberof P env s).2 = history s ++ t /\
    (forall dn pw, SimpleBind dn pw ∈ t ->
       dn = DIRMAN_DN P /\ pw = dm_password o /\ py_truthy pw = true) /\
    (GssapiBind ∈ t -> py_truthy (dm_password o) = false).
Proof.
  intros o. unfold init_memberof, _ldap_mod. run_m. fold o.
  destruct (py_truthy (run_init_memberof o)); cbn [negb].
  2:{ exists []. rewrite app_nil_r. split; [done|]. split.
      - intros dn pw H. by apply elem_of_nil in H.
      - intros H. by apply elem_of_nil in H. }
  cbn [history with_history with_logs self]. fold o.
  destruct (env _ (LdapMod _ _)); cbn [history with_history with_logs snd].
  2:{ eexists. split; [reflexivity|]. split.
      - intros dn pw H. listed H.
      - intros H. listed H. }
  destruct (sub_dict_item _ _); cbn [history with_history with_logs snd].
  2:{ eexists. split; [reflexivity|]. split.
      - intros dn pw H. listed H.
      - intros H. listed H. }
  destruct (env _ (LDAPClient _)); cbn [history with_history with_logs snd].
  2:{ rewrite <- app_assoc. eexists. split; [reflexivity|]. split.
      - intros dn pw H. listed H.
      - intros H. listed H. }
  destruct (py_truthy (dm_password o)) eqn:Ev;
    cbn [history with_history with_logs snd];
    repeat match goal with
    | |- context [env ?h ?c] =>
      destruct (env h c); cbn [history with_history with_logs snd]
    end;
    rewrite <- ?app_assoc; cbn [app];
    (eexists; split; [reflexivity|]); split;
    try (intros dn pw H; listed H; by injection H as -> ->);
    try (intros H; by listed H).
Qed.

Example init_memberof_empty_password_uses_gssapi :
  history (init_memberof fedora calm
             (with_self (set_sub_dict {[ "TIME" := VInt 1500000000 ]}
                           (with_dm_password (VStr "") joining)) pristine)).2
  = [LdapMod "memberof-task.ldif" (Some {[ "TIME" := VInt 1500000000 ]});
     LDAPClient (HostUri "replica.example.com"); GssapiBind;
     WaitForTask [("cn", "IPA install 1500000000"); ("cn", "memberof task");
                  ("cn", "tasks"); ("cn", "config")];
     Unbind].
Proof. by vm_compute. Qed.

(** X19.  The memberof task is submitted before its DN is worked out: when
    the substitution dictionary is missing, or has no ['TIME'], the method
    fails with the error of the lookup after the task was submitted, and
    neither connects nor waits. *)
Theorem init_memberof_without_timestamp P env s v e :
  let o := self s in
  let task := LdapMod "memberof-task.ldif" (sub_dict o) in
  py_truthy (run_init_memberof o) = true ->
  env (history s) task = Returns v ->
  sub_dict_item (sub_dict o) "TIME" = Err e ->
  init_memberof P env s = (Err e, with_history (history s ++ [task]) s).
Proof.
  intros o task Hf Ht He. unfold init_memberof, _ldap_mod. run_m. fold o task.
  rewrite Hf. cbn [negb]. rewrite Ht. cbn [history with_history self].
  fold o. by rewrite He.
Qed.

Lemma init_memberof_without_timestamp_witness :
  init_memberof fedora calm pristine
  = (Err TypeError,
     with_history [LdapMod "memberof-task.ldif" None] pristine).
Proof.
  exact (init_memberof_without_timestamp fedora calm pristine (VBool true)
           TypeError eq_refl eq_refl eq_refl).
Defined.

Lemma idrange_size_total (a b : value) s :
  exists size,
    try_except
      (let* d := lift (py_sub a b) in lift (py_add d (VInt 1)))
      (fun e => if is_a e TypeError then Some (ret VNone) else None) s
    = (Ok size, s).
Proof.
  unfold py_sub. run_m.
  destruct (as_int a), (as_int b); cbn [py_add as_int];
    try change (is_a TypeError TypeError) with true; by eexists.
Qed.

Lemma setup_sub_dict_run P env s v1 v2 t :
  let h := history s in
  let probe := DirExists (USR_LIB_DIRSRV_64 P) in
  env h probe = Returns v1 ->
  env (h ++ [probe]) GeneratePassword = Returns v2 ->
  env (h ++ [probe; GeneratePassword]) Time = Returns (VInt t) ->
  exists s',
    __setup_sub_dict P env s = (Ok tt, s') /\
    history s' = h ++ [probe; GeneratePassword; Time] /\
    run_init_memberof (self s') = run_init_memberof (self s) /\
    dm_password (self s') = dm_password (self s) /\
    fqdn (self s') = fqdn (self s) /\
    sub_dict_item (sub_dict (self s')) "TIME" = Ok (VInt t) /\
    sub_dict_item (sub_dict (self s')) "PASSWORD" = Ok (dm_password (self s)).
Proof.
  intros h probe H1 H2 H3. unfold __setup_sub_dict, find_server_root.
  unfold bind at 1. unfold bind at 1. unfold extern at 1. fold h probe.
  rewrite H1.
  assert (Hroot : exists root,
    (if py_truthy v1 then ret (USR_LIB_DIRSRV_64 P) else ret (USR_LIB_DIRSRV P))
      (with_history (h ++ [probe]) s)
    = (Ok root, with_history (h ++ [probe]) s)).
  { destruct (py_truthy v1); by eexists. }
  destruct Hroot as [root ->].
  unfold bind at 1, get_self. unfold bind at 1.
  destruct (idrange_size_total (idmax (self (with_history (h ++ [probe]) s)))
              (idstart (self (with_history (h ++ [probe]) s)))
              (with_history (h ++ [probe]) s)) as [size ->].
  run_m. cbn [history with_history with_self self]. rewrite H2.
  cbn [history with_history with_self self]. rewrite <- app_assoc. cbn [app].
  rewrite H3. cbn [py_int history with_history with_self self].
  eexists. split; [reflexivity|].
  cbn [history with_history with_self self set_sub_dict run_init_memberof
       dm_password fqdn sub_dict sub_dict_item].
  rewrite <- app_assoc. by repeat split.
Qed.

(** X20.  The task that [init_memberof] waits for is named after the time
    at which the substitution dictionary was built: after a completed
    [__setup_sub_dict] that read the clock as [t], every wait is for
    [cn=IPA install t,cn=memberof task,cn=tasks,cn=config], whenever the
    method is called. *)
Theorem memberof_task_named_after_sub_dict_time P env env' s v1 v2 t :
  let h := history s in
  let probe := DirExists (USR_LIB_DIRSRV_64 P) in
  let task_dn := [("cn", "IPA install " +:+ pretty t); ("cn", "memberof task");
                  ("cn", "tasks"); ("cn", "config")] in
  env h probe = Returns v1 ->
  env (h ++ [probe]) GeneratePassword = Returns v2 ->
  env (h ++ [probe; GeneratePassword]) Time = Returns (VInt t) ->
  exists s',
    __setup_sub_dict P env s = (Ok tt, s') /\
    exists calls,
      history (init_memberof P env' s').2 = history s' ++ calls /\
      (forall dn, WaitForTask dn ∈ calls -> dn = task_dn) /\
      (py_truthy (run_init_memberof (self s)) = true ->
       (init_memberof P env' s').1 = Ok tt ->
       WaitForTask task_dn ∈ calls).
Proof.
  intros h probe task_dn H1 H2 H3.
  destruct (setup_sub_dict_run P env s v1 v2 t H1 H2 H3)
    as (s' & Hrun & _ & Hflag & _ & _ & Htime & _).
  exists s'. split; [exact Hrun|]. clear Hrun H1 H2 H3. rewrite <- Hflag.
  unfold init_memberof, _ldap_mod. run_m.
  destruct (py_truthy (run_init_memberof (self s'))); cbn [negb].
  2:{ exists []. rewrite app_nil_r. split; [done|]. split; [|done].
      intros dn H. by apply elem_of_nil in H. }
  cbn [history with_history with_logs self].
  destruct (env' _ (LdapMod _ _)); cbn [history with_history with_logs snd fst self].
  2:{ eexists. split; [reflexivity|]. split; [|done]. intros dn H. listed H. }
  rewrite Htime. cbn [history with_history with_logs snd fst self py_str].
  fold task_dn.
  destruct (env' _ (LDAPClient _)); cbn [history with_history with_logs snd fst].
  2:{ rewrite <- app_assoc. eexists. split; [reflexivity|]. split; [|done].
      intros dn H. listed H. }
  destruct (py_truthy (dm_password (self s')));
    cbn [history with_history with_logs snd fst];
    repeat match goal with
    | |- context [env' ?h ?c] =>
      destruct (env' h c); cbn [history with_history with_logs snd fst]
    end;
    rewrite <- ?app_assoc; cbn [app];
    (eexists; split; [reflexivity|]);
    (split; [intros dn H; listed H; by injection H as ->|]);
    try done;
    intros _ _; do 3 apply list_elem_of_further; apply list_elem_of_here.
Qed.

Lemma memberof_task_named_after_sub_dict_time_witness :
  exists s',
    __setup_sub_dict fedora calm pristine = (Ok tt, s') /\
    exists calls,
      history (init_memberof fedora calm s').2 = history s' ++ calls /\
      (forall dn, WaitForTask dn ∈ calls ->
         dn = [("cn", "IPA install " +:+ pretty 1500000000);
               ("cn", "memberof task"); ("cn", "tasks"); ("cn", "config")]) /\
      (py_truthy (run_init_memberof (self pristine)) = true ->
       (init_memberof fedora calm s').1 = Ok tt ->
       WaitForTask [("cn", "IPA install " +:+ pretty 1500000000);
                    ("cn", "memberof task"); ("cn", "tasks"); ("cn", "config")]
         ∈ calls).
Proof.
  exact (memberof_task_named_after_sub_dict_time fedora calm calm pristine
           (VBool true) (VStr "Xy7") 1500000000 eq_refl eq_refl eq_refl).
Defined.

(** ** DsInstance.create_replica, further *)

(** X21.  After [create_replica] has stored the attributes of the join, an
    explicit [ca_is_configured] argument decides the flag; without one the
    flag is false when a PKCS#12 file is given and otherwise stays as it
    was.  The realm is stored as [str.upper] returns it, and the master and
    the promote flag as they were passed. *)
Theorem create_replica_ca_flag_precedence P env s
    realm_name master_fqdn' fqdn' domain_name dm_password' subject_base'
    ca_subject' pkcs12_info' ca_file' ca_is_configured' promote' :
  let h := history s in
  let probe := DirExists (USR_LIB_DIRSRV_64 P) in
  forall v1 v2 t,
    env h probe = Returns v1 ->
    env (h ++ [probe]) GeneratePassword = Returns v2 ->
    env (h ++ [probe; GeneratePassword]) Time = Returns (VInt t) ->
    exists s',
      create_replica P env realm_name master_fqdn' fqdn' domain_name
        dm_password' subject_base' ca_subject' pkcs12_info' ca_file'
        ca_is_configured' promote' s = (Ok tt, s') /\
      ca_is_configured (self s') =
        (if negb (is_none ca_is_configured') then ca_is_configured'
         else if py_truthy pkcs12_info' then VBool false
         else ca_is_configured (self s)) /\
      realm (self s') = str_upper P realm_name /\
      master_fqdn (self s') = master_fqdn' /\
      promote (self s') = promote' /\
      run_init_memberof (self s') = run_init_memberof (self s).
Proof.
  intros h probe v1 v2 t H1 H2 H3.
  unfold create_replica, init_info, __setup_sub_dict, find_server_root.
  run_m. cbn [history with_history with_self self fst snd].
  fold h probe. rewrite H1.
  destruct (py_truthy v1); cbn [history with_history with_self self fst snd
    idmax idstart py_sub py_add as_int is_a];
    fold h; rewrite H2; cbn [history with_history with_self self fst snd];
    rewrite <- app_assoc; cbn [app]; fold h; rewrite H3;
    cbn [history with_history with_self self fst snd py_int];
    (eexists; split; [reflexivity|]);
    cbn [history with_history with_self self fst snd set_sub_dict
         ca_is_configured realm master_fqdn promote run_init_memberof];
    by repeat split.
Qed.

Lemma create_replica_ca_flag_precedence_witness :
  exists s',
    create_replica fedora calm "example.com" (VStr "master.example.com")
      "replica.example.com" (VStr "example.com") (VStr "Secret123")
      VNone VNone (VList ["/root/ds.p12"; "pin"]) VNone (VBool true) (VBool true)
      pristine = (Ok tt, s') /\
    ca_is_configured (self s') = VBool true /\
    realm (self s') = "EXAMPLE.COM".
Proof.
  destruct (create_replica_ca_flag_precedence fedora calm pristine
              "example.com" (VStr "master.example.com")
              "replica.example.com" (VStr "example.com") (VStr "Secret123")
              VNone VNone (VList ["/root/ds.p12"; "pin"]) VNone (VBool true)
              (VBool true) (VBool true) (VStr "Xy7") 1500000000
              eq_refl eq_refl eq_refl) as (s' & Hrun & Hca & Hrealm & _).
  exists s'. split; [exact Hrun|]. split; [exact Hca|exact Hrealm].
Defined.

(** ** DsInstance.add_ca_cert, further *)

(** X22.  When nothing fails and the file is readable, [add_ca_cert]
    returns [True]; the certificate is loaded with trust flags [C,,] under
    the given nickname, or under ['Imported CA'] when the nickname is
    empty, between the stop and the start of the server. *)
Theorem add_ca_cert_loads_under_nickname P env cacert_fname cacert_name s :
  let h := history s in
  let nick := if String.eqb cacert_name "" then "Imported CA" else cacert_name in
  let r := add_ca_cert P env cacert_fname cacert_name s in
  (forall h' c, exists v, env h' c = Returns v) ->
  (forall v, env h (Access cacert_fname) = Returns v -> py_truthy v = true) ->
  r.1 = Ok true /\
  exists pre,
    history r.2 =
      h ++ Access cacert_fname :: pre ++
        [LoadCacert cacert_fname nick "C,,"; SuperStart ""; Ldap2Connect] /\
    SuperStop "" ∈ pre /\
    (forall a b f, LoadCacert a b f ∉ pre).
Proof.
  intros h nick r Hok Hread. subst r.
  assert (Hnick : (if String.eqb cacert_name "" || (String.length cacert_name =? 0)%nat
                   then "Imported CA" else cacert_name) = nick).
  { subst nick. by destruct cacert_name. }
  unfold add_ca_cert, stop, start. run_m. fold h. rewrite Hnick.
  destruct (Hok h (Access cacert_fname)) as [v Hv]. rewrite Hv.
  rewrite (Hread v Hv). cbn [negb history with_history with_logs fst snd].
  destruct (Hok (h ++ [Access cacert_fname]) Ldap2IsConnected) as [c ->].
  cbn [negb history with_history with_logs fst snd].
  destruct (py_truthy c);
    repeat match goal with
    | |- context [env ?h' ?c] =>
      let v' := fresh "v" in
      destruct (Hok h' c) as [v' ->];
      cbn [history with_history with_logs fst snd]
    end;
    rewrite <- ?app_assoc; cbn [app]; (split; [done|]).
  - exists [Ldap2IsConnected; Ldap2Disconnect; SuperStop "";
            CertDB (config_dirname P (VStr (realm_to_serverid P (realm (self s)))))].
    split; [reflexivity|]. split.
    + do 2 apply list_elem_of_further. apply list_elem_of_here.
    + intros a b f H. listed H.
  - exists [Ldap2IsConnected; SuperStop "";
            CertDB (config_dirname P (VStr (realm_to_serverid P (realm (self s)))))].
    split; [reflexivity|]. split.
    + apply list_elem_of_further, list_elem_of_here.
    + intros a b f H. listed H.
Qed.

Lemma add_ca_cert_loads_under_nickname_witness :
  (add_ca_cert fedora calm "/root/ca.crt" "" pristine).1 = Ok true /\
  exists pre,
    history (add_ca_cert fedora calm "/root/ca.crt" "" pristine).2 =
      Access "/root/ca.crt" :: pre ++
        [LoadCacert "/root/ca.crt" "Imported CA" "C,,"; SuperStart ""; Ldap2Connect] /\
    SuperStop "" ∈ pre /\
    (forall a b f, LoadCacert a b f ∉ pre).
Proof.
  apply (add_ca_cert_loads_under_nickname fedora calm "/root/ca.crt" "" pristine).
  - intros h' c. destruct c; by eexists.
  - intros v [= <-]. reflexivity.
Defined.

(** ** DsInstance.restart, further *)

Lemma restart_not_running_by_kind_witness :
  (restart fedora not_running "EXAMPLE-COM" pristine).1 = Ok tt /\
  history (restart fedora not_running "EXAMPLE-COM" pristine).2
    = [Ldap2Disconnect; SuperRestart "EXAMPLE-COM";
       DirsrvIsRunning "EXAMPLE-COM"; Ldap2Connect] /\
  logs (restart fedora not_running "EXAMPLE-COM" pristine).2
    = [(Critical,
        "Failed to restart the directory server. See the installation log for details.");
       (Critical,
        "Failed to restart the directory server (%s). See the installation log for details.")].
Proof.
  exact (restart_not_running_by_kind fedora not_running "EXAMPLE-COM" pristine
           (VBool true) (VBool true) (VBool false)
           eq_refl eq_refl eq_refl eq_refl).
Defined.

(** ** get_ds_instances and the [.removed] suffix *)

Lemma string_length_app a b :
  String.length (a +:+ b) = (String.length a + String.length b)%nat.
Proof.
  induction a as [|c a IH]; [reflexivity|].
  rewrite append_cons. cbn [String.length]. by rewrite IH.
Qed.

Lemma string_app_assoc a b c : (a +:+ b) +:+ c = a +:+ (b +:+ c).
Proof.
  induction a as [|x a IH]; [reflexivity|].
  rewrite !append_cons. by rewrite IH.
Qed.

Lemma drop_chars_split n s :
  exists a, s = a +:+ drop_chars n s.
Proof.
  revert s. induction n as [|n IH]; intros s.
  - by exists "".
  - destruct s as [|c s]; [by exists ""|].
    destruct (IH s) as [a Ha]. exists (String c a).
    rewrite append_cons. cbn [drop_chars]. by rewrite <- Ha.
Qed.

Lemma endswith_app s p : endswith s p = true <-> exists a, s = a +:+ p.
Proof.
  unfold endswith. split.
  - intros [_ Heq%String.eqb_eq]%andb_prop.
    destruct (drop_chars_split (String.length s - String.length p) s) as [a Ha].
    exists a. by rewrite Heq in Ha.
  - intros [a ->]. rewrite string_length_app.
    replace (String.length a + String.length p - String.length p)%nat
      with (String.length a) by lia.
    rewrite drop_chars_app, String.eqb_refl, andb_true_r.
    apply Nat.leb_le. lia.
Qed.

(** X24.  No name that [get_ds_instances] returns ends with [.removed],
    and none is empty. *)
Theorem get_ds_instances_skips_removed P env s names isdir :
  env (history s) (Listdir (ETC_DIRSRV P)) = Returns (VList names) ->
  (forall h p, env h (Isdir p) = Returns (VBool (isdir p))) ->
  exists l,
    (get_ds_instances P env s).1 = Ok l /\
    Forall (fun X => endswith X ".removed" = false /\ X <> "") l.
Proof.
  intros Hls Hdir.
  rewrite (get_ds_instances_static P env s names isdir Hls Hdir).
  eexists. split; [reflexivity|]. rewrite merge_sort_Permutation.
  apply Forall_forall. intros X (b & Hb & Hc)%list_elem_of_omap.
  destruct (isdir _); [|done].
  destruct (startswith b DS_INSTANCE_PREFIX) eqn:Es; [|done].
  destruct (endswith b ".removed") eqn:Ee; [done|].
  cbn [andb negb] in Hc.
  destruct (String.eqb_spec (drop_chars (String.length DS_INSTANCE_PREFIX) b) "")
    as [|Hne]; [done|].
  apply (inj Some) in Hc. subst X. split; [|done].
  destruct (endswith (drop_chars _ b) ".removed") eqn:Ex; [|done].
  apply endswith_app in Ex as [a Ha].
  apply startswith_app in Es. rewrite Ha, <- string_app_assoc in Es.
  assert (Hends : endswith b ".removed" = true)
    by (apply endswith_app; eauto).
  congruence.
Qed.

Lemma get_ds_instances_skips_removed_witness :
  exists l,
    (get_ds_instances fedora calm pristine).1 = Ok l /\
    Forall (fun X => endswith X ".removed" = false /\ X <> "") l.
Proof.
  apply (get_ds_instances_skips_removed fedora calm pristine sample_names
           sample_isdir).
  - reflexivity.
  - intros h p. reflexivity.
Defined.
